(** * newpol: order-book monitor and arbitrage executor

    A shallow embedding of [arbitrage_executor.py] and of the state-store and
    detection parts of [orderbook_monitor.py], with the properties the
    specification states about them.

    Conventions of the embedding.
    - Python [float] arithmetic is taken through the interface [Number]: the
      definitions are written once and read at two instances, the rationals
      [Q] (exact arithmetic) and IEEE binary64 (Rocq's primitive floats, the
      arithmetic CPython uses).  Float division is the one arithmetic
      operation that raises: a zero divisor gives [ZeroDivisionError].
    - Exceptions are values of [exn] (those derived from [Exception]); a
      computation that can raise returns a [result], and a stateful one is a
      function from the state to a result and the state left behind:
      mutations made before a raise persist.
    - A Python [dict] is an association list in insertion order; a
      [deque(maxlen=n)] is a list with the oldest element first.
    - The trading client is opaque: its constructor and its two operations
      are parameters, the operations act on an abstract exchange state, and
      every invocation is recorded in the environment.
    - [time.time()] reads a logical clock that advances at each reading.
    - Order-book entries carry their price and size as numbers: the reading
      of the fields by [float(...)] is taken as done.
    - Calls to the [logging] module are left out; the monitor's own log
      deque is kept, with messages by the data they are formatted from. *)

From Stdlib Require Import List String Ascii Bool Arith Lia ZArith.
From Stdlib Require Import QArith Qabs Qfield Lqa DecimalString.
From Stdlib Require Import RelationClasses.
From Stdlib Require Import Floats.PrimFloat.
Import ListNotations.

Set Implicit Arguments.
Set Warnings "-inexact-float".
Local Close Scope Q_scope.
Local Open Scope nat_scope.
Local Open Scope string_scope.
Local Open Scope list_scope.

(* ------------------------------------------------------------------ *)
(** ** Exceptions and results *)

Inductive exn : Type :=
| ZeroDivisionError
| Exception (msg : string).

(** [str(e)] *)
Definition exn_str (e : exn) : string :=
  match e with
  | ZeroDivisionError => "float division by zero"
  | Exception msg => msg
  end.

Inductive result (T : Type) : Type :=
| Ok (v : T)
| Raise (e : exn).
Arguments Ok {T} v.
Arguments Raise {T} e.

Definition rbind {T U} (r : result T) (k : T -> result U) : result U :=
  match r with
  | Ok v => k v
  | Raise e => Raise e
  end.

Declare Scope res_scope.
Delimit Scope res_scope with res.
Notation "x <- c ;; k" := (rbind c (fun x => k))
  (at level 61, c at next level, right associativity) : res_scope.
Notation "' pat <- c ;; k" := (rbind c (fun x => match x with pat => k end))
  (at level 61, pat pattern, c at next level, right associativity) : res_scope.

Definition is_ok {T} (r : result T) : bool :=
  match r with Ok _ => true | Raise _ => false end.

(** Stateful computations over a state [S]. *)
Definition M (S T : Type) : Type := S -> result T * S.

Definition ret {S T} (v : T) : M S T := fun s => (Ok v, s).
Definition raise {S T} (e : exn) : M S T := fun s => (Raise e, s).
Definition bind {S T U} (m : M S T) (k : T -> M S U) : M S U :=
  fun s => match m s with
           | (Ok v, s') => k v s'
           | (Raise e, s') => (Raise e, s')
           end.
Definition get {S} : M S S := fun s => (Ok s, s).
Definition gets {S T} (f : S -> T) : M S T := fun s => (Ok (f s), s).
Definition modify {S} (f : S -> S) : M S unit := fun s => (Ok tt, f s).
Definition lift {S T} (r : result T) : M S T := fun s => (r, s).

(** [try: body  except Exception as e: handler e] *)
Definition try_except {S T} (body : M S T) (handler : exn -> M S T) : M S T :=
  fun s => match body s with
           | (Ok v, s') => (Ok v, s')
           | (Raise e, s') => handler e s'
           end.

Declare Scope monad_scope.
Delimit Scope monad_scope with monad.
Notation "x <- c ;; k" := (bind c (fun x => k))
  (at level 61, c at next level, right associativity) : monad_scope.
Notation "' pat <- c ;; k" := (bind c (fun x => match x with pat => k end))
  (at level 61, pat pattern, c at next level, right associativity)
  : monad_scope.
Notation "c ;;; k" := (bind c (fun _ => k))
  (at level 61, right associativity) : monad_scope.

(** [for x in xs: body x] *)
Fixpoint for_each {S X} (xs : list X) (body : X -> M S unit) : M S unit :=
  match xs with
  | [] => ret tt
  | x :: xs' => bind (body x) (fun _ => for_each xs' body)
  end.

(* ------------------------------------------------------------------ *)
(** ** Numbers *)

Class Number (A : Type) : Type := {
  nadd : A -> A -> A;
  nsub : A -> A -> A;
  nmul : A -> A -> A;
  ndiv : A -> A -> A;          (* the quotient, for a non-zero divisor *)
  nabs : A -> A;
  nltb : A -> A -> bool;       (* x < y *)
  nleb : A -> A -> bool;       (* x <= y *)
  neqb : A -> A -> bool;       (* x == y *)
  lit_0 : A;                   (* 0 *)
  lit_1 : A;                   (* 1.0 *)
  lit_2 : A;                   (* 2 *)
  lit_100 : A;                 (* 100 *)
  lit_0_001 : A                (* 0.001 *)
}.

Definition ngtb {A} `{Number A} (x y : A) : bool := nltb y x.   (* x > y *)
Definition ngeb {A} `{Number A} (x y : A) : bool := nleb y x.   (* x >= y *)

(** [x / y] on Python floats. *)
Definition py_div {A} `{Number A} (x y : A) : result A :=
  if neqb y lit_0 then Raise ZeroDivisionError else Ok (ndiv x y).

Definition Qltb (x y : Q) : bool := negb (Qle_bool y x).

#[export] Instance Number_Q : Number Q := {
  nadd := Qplus; nsub := Qminus; nmul := Qmult; ndiv := Qdiv;
  nabs := Qabs;
  nltb := Qltb; nleb := Qle_bool; neqb := Qeq_bool;
  lit_0 := 0%Q; lit_1 := 1%Q; lit_2 := 2%Q; lit_100 := 100%Q;
  lit_0_001 := (1 # 1000)%Q
}.

#[export] Instance Number_float : Number float := {
  nadd := PrimFloat.add; nsub := PrimFloat.sub; nmul := PrimFloat.mul;
  ndiv := PrimFloat.div;
  nabs := PrimFloat.abs;
  nltb := PrimFloat.ltb; nleb := PrimFloat.leb; neqb := PrimFloat.eqb;
  lit_0 := 0%float; lit_1 := 1%float; lit_2 := 2%float; lit_100 := 100%float;
  lit_0_001 := 0.001%float
}.

(* ------------------------------------------------------------------ *)
(** ** Strings, dicts, deques *)

(** Truth value of a [str]: the empty string is false. *)
Definition str_truthy (s : string) : bool :=
  match s with EmptyString => false | String _ _ => true end.

(** Truth value of an [Optional[str]]. *)
Definition opt_truthy (o : option string) : bool :=
  match o with None => false | Some s => str_truthy s end.

(** [sub in s] *)
Fixpoint str_contains (sub s : string) : bool :=
  prefix sub s ||
  match s with
  | EmptyString => false
  | String _ s' => str_contains sub s'
  end.

(** [s.split(sep)] for a non-empty [sep]: [skip] counts the characters of a
    separator occurrence still to be passed over, [cur] is the piece being
    read. *)
Fixpoint split_go (sep : string) (skip : nat) (cur : string) (s : string)
  : list string :=
  match s with
  | EmptyString => [cur]
  | String c s' =>
      match skip with
      | S n => split_go sep n cur s'
      | O => if prefix sep s
             then cur :: split_go sep (String.length sep - 1) "" s'
             else split_go sep 0 (cur ++ String c "") s'
      end
  end.

Definition str_split (sep s : string) : list string := split_go sep 0 "" s.

Definition dict (V : Type) : Type := list (string * V).

Fixpoint dict_get {V} (k : string) (d : dict V) : option V :=
  match d with
  | [] => None
  | (k', v) :: d' => if String.eqb k k' then Some v else dict_get k d'
  end.

(** [d[k] = v]: an existing key keeps its place, a new one goes last. *)
Fixpoint dict_set {V} (k : string) (v : V) (d : dict V) : dict V :=
  match d with
  | [] => [(k, v)]
  | (k', v') :: d' =>
      if String.eqb k k' then (k, v) :: d' else (k', v') :: dict_set k v d'
  end.

(** [d.values()] *)
Definition dict_values {V} (d : dict V) : list V := map snd d.

(** [d[k]] on a [defaultdict] whose factory gives [dflt] (read only). *)
Definition dict_get_default {V} (dflt : V) (k : string) (d : dict V) : V :=
  match dict_get k d with Some v => v | None => dflt end.

(** [q.append(x)] on a [deque(maxlen=maxlen)]: when the deque is full the
    element at the left end is discarded. *)
Definition deque_append {T} (maxlen : nat) (x : T) (q : list T) : list T :=
  let q' := q ++ [x] in
  if Nat.ltb maxlen (List.length q') then tl q' else q'.

(* ------------------------------------------------------------------ *)
(** ** The environment: trading client, exchange, clock *)

Inductive OrderType : Type := GTC.

(** The handle [ClobClient(host=..., key=..., chain_id=...)] returns. *)
Record ClobClient : Type := {
  cc_host : string;
  cc_key : string;
  cc_chain_id : Z
}.

(** What [create_order] hands back, as far as [place_order] looks at it. *)
Inductive Response : Type :=
| RespNone                          (* a false value: None, an empty mapping *)
| RespOther                         (* a true value without the key 'orderID' *)
| RespOrder (orderID : string).     (* a mapping with response['orderID'] *)

Section Program.

Context {A : Type} {NumA : Number A}.

Record OrderArgs : Type := {
  oa_token_id : string;
  oa_price : A;
  oa_size : A;
  oa_side : string;
  oa_order_type : OrderType
}.

Inductive ClientCall : Type :=
| CreateOrder (args : OrderArgs)
| CancelOrder (order_id : string).

(** The exchange behind the client, and the client's operations on it; each
    may raise. *)
Variable Exchange : Type.
Variable ClobClient_new : string -> string -> Z -> result ClobClient.
Variable create_order : OrderArgs -> Exchange -> result Response * Exchange.
Variable cancel_order : string -> Exchange -> result unit * Exchange.

Record Env : Type := {
  exchange : Exchange;
  calls : list ClientCall;     (* the client invocations so far, in order *)
  clock : nat
}.

(** [time.time()] *)
Definition time_time : M Env nat :=
  fun e =>
    (Ok (clock e),
     {| exchange := exchange e; calls := calls e; clock := S (clock e) |}).

Definition client_create_order (args : OrderArgs) : M Env Response :=
  fun e =>
    let (r, x) := create_order args (exchange e) in
    (r, {| exchange := x; calls := calls e ++ [CreateOrder args];
           clock := clock e |}).

Definition client_cancel_order (order_id : string) : M Env unit :=
  fun e =>
    let (r, x) := cancel_order order_id (exchange e) in
    (r, {| exchange := x; calls := calls e ++ [CancelOrder order_id];
           clock := clock e |}).

(* ------------------------------------------------------------------ *)
(** ** arbitrage_executor.py *)

Record ArbitrageOpportunity : Type := {
  opp_event_title : string;
  opp_market_type : string;
  side1_token_id : string;
  opp_side1_name : string;
  opp_side1_price : A;
  side2_token_id : string;
  opp_side2_name : string;
  opp_side2_price : A;
  opp_total : A;
  opp_profit_percent : A;
  opp_timestamp : nat
}.

Record ArbitrageExecution : Type := {
  opportunity : ArbitrageOpportunity;
  exe_bankroll : A;
  stake1 : A;
  stake2 : A;
  order1_id : option string;
  order2_id : option string;
  success : bool;
  error : option string;
  exe_timestamp : nat
}.

Record ArbitrageExecutor : Type := {
  private_key : string;
  bankroll : A;
  min_profit_percent : A;
  auto_execute : bool;
  chain_id : Z;
  client : option ClobClient;
  executions : list ArbitrageExecution;
  total_profit : A;
  successful_trades : nat;
  failed_trades : nat
}.

(** [ArbitrageExecutor.__init__] *)
Definition ArbitrageExecutor_init (private_key : string) (bankroll : A)
    (min_profit_percent : A) (auto_execute : bool) (chain_id : Z)
  : ArbitrageExecutor :=
  {| private_key := private_key;
     bankroll := bankroll;
     min_profit_percent := min_profit_percent;
     auto_execute := auto_execute;
     chain_id := chain_id;
     client :=
       match ClobClient_new "https://clob.polymarket.com" private_key chain_id
       with
       | Ok c => Some c
       | Raise _ => None
       end;
     executions := [];
     total_profit := lit_0;
     successful_trades := 0;
     failed_trades := 0 |}.

Local Open Scope res_scope.

Definition calculate_stakes (price1 price2 bankroll : A) : result (A * A) :=
  let total_price := nadd price1 price2 in
  stake1 <- py_div (nmul bankroll price1) total_price ;;
  stake2 <- py_div (nmul bankroll price2) total_price ;;
  Ok (stake1, stake2).


(** The last division is by the literal 2. *)
Definition calculate_profit (price1 price2 stake1 stake2 : A) : result A :=
  payout1 <- py_div stake1 price1 ;;
  let profit1 := nsub payout1 (nadd stake1 stake2) in
  payout2 <- py_div stake2 price2 ;;
  let profit2 := nsub payout2 (nadd stake1 stake2) in
  Ok (ndiv (nadd profit1 profit2) lit_2).

Definition should_execute (self : ArbitrageExecutor) (total : A)
  : result bool :=
  if negb (auto_execute self) then Ok false
  else if ngeb total lit_1 then Ok false
  else
    q <- py_div (nsub lit_1 total) total ;;
    let profit_percent := nmul q lit_100 in
    if nltb profit_percent (min_profit_percent self) then Ok false
    else Ok true.

Local Close Scope res_scope.
Local Open Scope monad_scope.

Definition place_order (self : ArbitrageExecutor)
    (token_id side : string) (price size : A) : M Env (option string) :=
  match client self with
  | None => ret None
  | Some _ =>
      try_except
        (let order_args :=
           {| oa_token_id := token_id; oa_price := price; oa_size := size;
              oa_side := side; oa_order_type := GTC |} in
         response <- client_create_order order_args ;;
         match response with
         | RespOrder order_id => ret (Some order_id)
         | RespNone | RespOther => ret None
         end)
        (fun _ => ret None)
  end.

(** The executor, the environment and the local variables of
    [execute_arbitrage] while its [try] statement runs. *)
Record Frame : Type := {
  fr_self : ArbitrageExecutor;
  fr_env : Env;
  loc_order1_id : option string;
  loc_order2_id : option string;
  loc_success : bool;
  loc_error : option string
}.

Definition in_env {T} (m : M Env T) : M Frame T :=
  fun f =>
    let (r, e) := m (fr_env f) in
    (r, {| fr_self := fr_self f; fr_env := e;
           loc_order1_id := loc_order1_id f; loc_order2_id := loc_order2_id f;
           loc_success := loc_success f; loc_error := loc_error f |}).

Definition set_order1_id (o : option string) : M Frame unit :=
  modify (fun f =>
    {| fr_self := fr_self f; fr_env := fr_env f;
       loc_order1_id := o; loc_order2_id := loc_order2_id f;
       loc_success := loc_success f; loc_error := loc_error f |}).

Definition set_order2_id (o : option string) : M Frame unit :=
  modify (fun f =>
    {| fr_self := fr_self f; fr_env := fr_env f;
       loc_order1_id := loc_order1_id f; loc_order2_id := o;
       loc_success := loc_success f; loc_error := loc_error f |}).

Definition set_success (b : bool) : M Frame unit :=
  modify (fun f =>
    {| fr_self := fr_self f; fr_env := fr_env f;
       loc_order1_id := loc_order1_id f; loc_order2_id := loc_order2_id f;
       loc_success := b; loc_error := loc_error f |}).

Definition set_error (e : option string) : M Frame unit :=
  modify (fun f =>
    {| fr_self := fr_self f; fr_env := fr_env f;
       loc_order1_id := loc_order1_id f; loc_order2_id := loc_order2_id f;
       loc_success := loc_success f; loc_error := e |}).

Definition update_self (g : ArbitrageExecutor -> ArbitrageExecutor)
  : M Frame unit :=
  modify (fun f =>
    {| fr_self := g (fr_self f); fr_env := fr_env f;
       loc_order1_id := loc_order1_id f; loc_order2_id := loc_order2_id f;
       loc_success := loc_success f; loc_error := loc_error f |}).

(** [self.successful_trades += 1; self.total_profit += profit] *)
Definition record_success (profit : A) (x : ArbitrageExecutor)
  : ArbitrageExecutor :=
  {| private_key := private_key x; bankroll := bankroll x;
     min_profit_percent := min_profit_percent x;
     auto_execute := auto_execute x; chain_id := chain_id x;
     client := client x; executions := executions x;
     total_profit := nadd (total_profit x) profit;
     successful_trades := successful_trades x + 1;
     failed_trades := failed_trades x |}.

(** [self.failed_trades += 1] *)
Definition record_failure (x : ArbitrageExecutor) : ArbitrageExecutor :=
  {| private_key := private_key x; bankroll := bankroll x;
     min_profit_percent := min_profit_percent x;
     auto_execute := auto_execute x; chain_id := chain_id x;
     client := client x; executions := executions x;
     total_profit := total_profit x;
     successful_trades := successful_trades x;
     failed_trades := failed_trades x + 1 |}.

(** [self.executions.append(execution)] *)
Definition append_execution (execution : ArbitrageExecution)
    (x : ArbitrageExecutor) : ArbitrageExecutor :=
  {| private_key := private_key x; bankroll := bankroll x;
     min_profit_percent := min_profit_percent x;
     auto_execute := auto_execute x; chain_id := chain_id x;
     client := client x; executions := executions x ++ [execution];
     total_profit := total_profit x;
     successful_trades := successful_trades x;
     failed_trades := failed_trades x |}.

(** [self.client.cancel_order(order1_id)] inside [try: ... except: pass]; with
    no client the attribute lookup fails and is swallowed like any error. *)
Definition cancel_best_effort (order_id : string) : M Frame unit :=
  self <- gets fr_self ;;
  match client self with
  | None => ret tt
  | Some _ =>
      try_except (in_env (client_cancel_order order_id)) (fun _ => ret tt)
  end.

(** The body of the [try] statement of [execute_arbitrage]. *)
Definition execute_legs (opportunity : ArbitrageOpportunity)
    (stake1 stake2 profit : A) : M Frame unit :=
  self <- gets fr_self ;;
  size1 <- lift (py_div stake1 (opp_side1_price opportunity)) ;;
  o1 <- in_env (place_order self (side1_token_id opportunity) "BUY"
                  (opp_side1_price opportunity) size1) ;;
  set_order1_id o1 ;;;
  match o1 with
  | None => raise (Exception "Failed to place order 1")
  | Some id1 =>
      if negb (str_truthy id1) then raise (Exception "Failed to place order 1")
      else
        size2 <- lift (py_div stake2 (opp_side2_price opportunity)) ;;
        o2 <- in_env (place_order self (side2_token_id opportunity) "BUY"
                        (opp_side2_price opportunity) size2) ;;
        set_order2_id o2 ;;;
        if negb (opt_truthy o2) then
          cancel_best_effort id1 ;;;
          raise (Exception "Failed to place order 2")
        else
          set_success true ;;;
          update_self (record_success profit)
  end.

Definition execute_frame (opportunity : ArbitrageOpportunity)
  : M Frame ArbitrageExecution :=
  self <- gets fr_self ;;
  '(stake1, stake2) <- lift (calculate_stakes (opp_side1_price opportunity)
                               (opp_side2_price opportunity) (bankroll self)) ;;
  profit <- lift (calculate_profit (opp_side1_price opportunity)
                    (opp_side2_price opportunity) stake1 stake2) ;;
  set_order1_id None ;;;
  set_order2_id None ;;;
  set_success false ;;;
  set_error None ;;;
  try_except (execute_legs opportunity stake1 stake2 profit)
    (fun e => set_error (Some (exn_str e)) ;;; update_self record_failure) ;;;
  now <- in_env time_time ;;
  f <- get ;;
  let execution :=
    {| opportunity := opportunity;
       exe_bankroll := bankroll (fr_self f);
       stake1 := stake1;
       stake2 := stake2;
       order1_id := loc_order1_id f;
       order2_id := loc_order2_id f;
       success := loc_success f;
       error := loc_error f;
       exe_timestamp := now |} in
  update_self (append_execution execution) ;;;
  ret execution.

(** [ArbitrageExecutor.execute_arbitrage]: the call either returns the
    execution record or raises; either way it leaves the executor and the
    environment as they are at that point. *)
Definition execute_arbitrage (opportunity : ArbitrageOpportunity)
  : M (ArbitrageExecutor * Env) ArbitrageExecution :=
  fun '(self, env) =>
    let (r, f) :=
      execute_frame opportunity
        {| fr_self := self; fr_env := env;
           loc_order1_id := None; loc_order2_id := None;
           loc_success := false; loc_error := None |} in
    (r, (fr_self f, fr_env f)).

(** A caller making one call after another; like the monitor's wrapper it
    carries on after a call that raises. *)
Fixpoint execute_all (opportunities : list ArbitrageOpportunity)
    (s : ArbitrageExecutor * Env) : ArbitrageExecutor * Env :=
  match opportunities with
  | [] => s
  | opportunity :: rest =>
      execute_all rest (snd (execute_arbitrage opportunity s))
  end.

Record Stats : Type := {
  st_total_executions : nat;
  st_successful_trades : nat;
  st_failed_trades : nat;
  st_auto_execute : bool;
  st_bankroll : A;
  st_min_profit_percent : A
}.

(** [get_stats]; the entry 'total_profit', a rounding for display, is left
    out. *)
Definition get_stats (self : ArbitrageExecutor) : Stats :=
  {| st_total_executions := List.length (executions self);
     st_successful_trades := successful_trades self;
     st_failed_trades := failed_trades self;
     st_auto_execute := auto_execute self;
     st_bankroll := bankroll self;
     st_min_profit_percent := min_profit_percent self |}.

(* ------------------------------------------------------------------ *)
(** ** orderbook_monitor.py: data *)

Record OrderbookSnapshot : Type := {
  snap_timestamp : nat;
  market_id : string;
  market_name : string;
  best_bid : A;
  best_ask : A;
  bid_size : A;
  ask_size : A;
  spread : A;
  mid_price : A
}.

Record ATHRecord : Type := {
  ath_market_id : string;
  ath_market_name : string;
  ath_price : A;
  ath_size : A;
  ath_timestamp : nat;
  ath_side : string
}.

Record ATLRecord : Type := {
  atl_market_id : string;
  atl_market_name : string;
  atl_price : A;
  atl_size : A;
  atl_timestamp : nat;
  atl_side : string
}.

Record BestMatch : Type := {
  bm_event_id : string;
  bm_event_title : string;
  bm_market_type : string;
  bm_side1_name : string;
  bm_side1_price : A;
  bm_side2_name : string;
  bm_side2_price : A;
  bm_total : A;
  bm_timestamp : nat
}.

Record TotalRecord : Type := {
  tr_event_id : string;
  tr_event_title : string;
  tr_market_type : string;
  tr_side1_name : string;
  tr_side1_price : A;
  tr_side2_name : string;
  tr_side2_price : A;
  tr_total : A;
  tr_timestamp : nat;
  is_best : bool
}.

(** One entry [{'price': ..., 'size': ...}] of a bid or ask list, with both
    fields already read by [float(...)]; entries on which [float] or the
    key lookup fails are outside the model. *)
Record Level : Type := {
  lv_price : A;
  lv_size : A
}.

(** An order-book object; a missing 'bids' or 'asks' reads as the empty
    list, as [data.get(..., [])] does. *)
Record Book : Type := {
  asset_id : option string;
  bids : list Level;
  asks : list Level
}.

Inductive LogLevel : Type := INFO | WARNING | ERROR.

(** The messages passed to [log], by the data they are formatted from. *)
Inductive LogMsg : Type :=
| MsgInitialBooks (n : nat)
| MsgBookUpdate (market_name : string) (best_ask best_bid : A)
                (process_time : nat)
| MsgRestUpdate (market_name : string) (best_bid bid_size best_ask ask_size
                 spread : A)
| MsgNewATH (market_name side : string) (price size : A)
| MsgNewATL (market_name side : string) (price size : A)
| MsgBestMatch (event_name market_type : string) (total : A)
               (outcome1 : string) (ask1 : A) (outcome2 : string) (ask2 : A)
| MsgCannotExecute
| MsgExecuting (event_name market_type : string) (profit_percent : A)
| MsgExecuted (order1_id order2_id : option string)
| MsgExecutionFailed (error : option string)
| MsgErrorExecuting (e : exn)
| MsgErrorBestMatches (e : exn)
| MsgErrorBookMessage (e : exn)
| MsgErrorOrderbook (e : exn)
| MsgErrorWebSocketMessage (e : exn).

(** A log entry, without its wall-clock stamp. *)
Record LogEntry : Type := {
  log_level : LogLevel;
  log_message : LogMsg
}.

(** config.py *)
Definition MAX_ORDERBOOK_HISTORY : nat := 1000.
Definition MAX_LOG_ENTRIES : nat := 500.

(** The fields of [OrderbookMonitor] that ingestion and detection read or
    write. *)
Record OrderbookMonitor : Type := {
  orderbook_data : dict (list OrderbookSnapshot);
  ath_records : dict ATHRecord;
  atl_records : dict ATLRecord;
  current_snapshots : dict OrderbookSnapshot;
  token_to_market : dict string;
  market_to_token : dict string;
  best_matches : list BestMatch;
  total_records : list TotalRecord;
  last_totals : dict A;
  arbitrage_executor : option ArbitrageExecutor;
  logs : list LogEntry;
  update_latencies : list nat
}.

(** [OrderbookMonitor.__init__] *)
Definition OrderbookMonitor_init (arbitrage_executor : option ArbitrageExecutor)
  : OrderbookMonitor :=
  {| orderbook_data := []; ath_records := []; atl_records := [];
     current_snapshots := []; token_to_market := []; market_to_token := [];
     best_matches := []; total_records := []; last_totals := [];
     arbitrage_executor := arbitrage_executor;
     logs := []; update_latencies := [] |}.

Definition set_orderbook_data v (m : OrderbookMonitor) : OrderbookMonitor :=
  {| orderbook_data := v; ath_records := ath_records m;
     atl_records := atl_records m; current_snapshots := current_snapshots m;
     token_to_market := token_to_market m;
     market_to_token := market_to_token m; best_matches := best_matches m;
     total_records := total_records m; last_totals := last_totals m;
     arbitrage_executor := arbitrage_executor m; logs := logs m;
     update_latencies := update_latencies m |}.

Definition set_ath_records v (m : OrderbookMonitor) : OrderbookMonitor :=
  {| orderbook_data := orderbook_data m; ath_records := v;
     atl_records := atl_records m; current_snapshots := current_snapshots m;
     token_to_market := token_to_market m;
     market_to_token := market_to_token m; best_matches := best_matches m;
     total_records := total_records m; last_totals := last_totals m;
     arbitrage_executor := arbitrage_executor m; logs := logs m;
     update_latencies := update_latencies m |}.

Definition set_atl_records v (m : OrderbookMonitor) : OrderbookMonitor :=
  {| orderbook_data := orderbook_data m; ath_records := ath_records m;
     atl_records := v; current_snapshots := current_snapshots m;
     token_to_market := token_to_market m;
     market_to_token := market_to_token m; best_matches := best_matches m;
     total_records := total_records m; last_totals := last_totals m;
     arbitrage_executor := arbitrage_executor m; logs := logs m;
     update_latencies := update_latencies m |}.

Definition set_current_snapshots v (m : OrderbookMonitor) : OrderbookMonitor :=
  {| orderbook_data := orderbook_data m; ath_records := ath_records m;
     atl_records := atl_records m; current_snapshots := v;
     token_to_market := token_to_market m;
     market_to_token := market_to_token m; best_matches := best_matches m;
     total_records := total_records m; last_totals := last_totals m;
     arbitrage_executor := arbitrage_executor m; logs := logs m;
     update_latencies := update_latencies m |}.

Definition set_best_matches v (m : OrderbookMonitor) : OrderbookMonitor :=
  {| orderbook_data := orderbook_data m; ath_records := ath_records m;
     atl_records := atl_records m; current_snapshots := current_snapshots m;
     token_to_market := token_to_market m;
     market_to_token := market_to_token m; best_matches := v;
     total_records := total_records m; last_totals := last_totals m;
     arbitrage_executor := arbitrage_executor m; logs := logs m;
     update_latencies := update_latencies m |}.

Definition set_total_records v (m : OrderbookMonitor) : OrderbookMonitor :=
  {| orderbook_data := orderbook_data m; ath_records := ath_records m;
     atl_records := atl_records m; current_snapshots := current_snapshots m;
     token_to_market := token_to_market m;
     market_to_token := market_to_token m; best_matches := best_matches m;
     total_records := v; last_totals := last_totals m;
     arbitrage_executor := arbitrage_executor m; logs := logs m;
     update_latencies := update_latencies m |}.

Definition set_last_totals v (m : OrderbookMonitor) : OrderbookMonitor :=
  {| orderbook_data := orderbook_data m; ath_records := ath_records m;
     atl_records := atl_records m; current_snapshots := current_snapshots m;
     token_to_market := token_to_market m;
     market_to_token := market_to_token m; best_matches := best_matches m;
     total_records := total_records m; last_totals := v;
     arbitrage_executor := arbitrage_executor m; logs := logs m;
     update_latencies := update_latencies m |}.

Definition set_arbitrage_executor v (m : OrderbookMonitor) : OrderbookMonitor :=
  {| orderbook_data := orderbook_data m; ath_records := ath_records m;
     atl_records := atl_records m; current_snapshots := current_snapshots m;
     token_to_market := token_to_market m;
     market_to_token := market_to_token m; best_matches := best_matches m;
     total_records := total_records m; last_totals := last_totals m;
     arbitrage_executor := v; logs := logs m;
     update_latencies := update_latencies m |}.

Definition set_logs v (m : OrderbookMonitor) : OrderbookMonitor :=
  {| orderbook_data := orderbook_data m; ath_records := ath_records m;
     atl_records := atl_records m; current_snapshots := current_snapshots m;
     token_to_market := token_to_market m;
     market_to_token := market_to_token m; best_matches := best_matches m;
     total_records := total_records m; last_totals := last_totals m;
     arbitrage_executor := arbitrage_executor m; logs := v;
     update_latencies := update_latencies m |}.

Definition set_update_latencies v (m : OrderbookMonitor) : OrderbookMonitor :=
  {| orderbook_data := orderbook_data m; ath_records := ath_records m;
     atl_records := atl_records m; current_snapshots := current_snapshots m;
     token_to_market := token_to_market m;
     market_to_token := market_to_token m; best_matches := best_matches m;
     total_records := total_records m; last_totals := last_totals m;
     arbitrage_executor := arbitrage_executor m; logs := logs m;
     update_latencies := v |}.

(** The monitor together with the environment it runs in. *)
Definition MState : Type := (OrderbookMonitor * Env)%type.

Definition update_mon (g : OrderbookMonitor -> OrderbookMonitor)
  : M MState unit :=
  modify (fun s : MState => (g (fst s), snd s)).

Definition read_mon {T} (g : OrderbookMonitor -> T) : M MState T :=
  gets (fun s : MState => g (fst s)).

Definition in_menv {T} (m : M Env T) : M MState T :=
  fun s => let (r, e) := m (snd s) in (r, (fst s, e)).

(* ------------------------------------------------------------------ *)
(** ** orderbook_monitor.py: operations *)

(** [log]: [self.logs] is a [deque(maxlen=config.MAX_LOG_ENTRIES)]. *)
Definition log (message : LogMsg) (level : LogLevel) : M MState unit :=
  update_mon (fun m =>
    set_logs (deque_append MAX_LOG_ENTRIES
                {| log_level := level; log_message := message |} (logs m)) m).

(** [min(asks, key=lambda x: float(x['price']))]: the first entry among
    those of least price; [best] is the least entry seen so far. *)
Fixpoint min_by_price (best : Level) (rest : list Level) : Level :=
  match rest with
  | [] => best
  | x :: rest' =>
      if nltb (lv_price x) (lv_price best) then min_by_price x rest'
      else min_by_price best rest'
  end.

Definition check_ath (market_id market_name : string) (price size : A)
    (side : string) : M MState unit :=
  let key := (market_id ++ "_" ++ side)%string in
  records <- read_mon ath_records ;;
  if match dict_get key records with
     | None => true
     | Some r => ngtb price (ath_price r)
     end
  then
    now <- in_menv time_time ;;
    update_mon (fun m =>
      set_ath_records
        (dict_set key
           {| ath_market_id := market_id; ath_market_name := market_name;
              ath_price := price; ath_size := size; ath_timestamp := now;
              ath_side := side |} (ath_records m)) m) ;;;
    log (MsgNewATH market_name side price size) WARNING
  else ret tt.

Definition check_atl (market_id market_name : string) (price size : A)
    (side : string) : M MState unit :=
  let key := (market_id ++ "_" ++ side)%string in
  records <- read_mon atl_records ;;
  if match dict_get key records with
     | None => true
     | Some r => nltb price (atl_price r)
     end
  then
    now <- in_menv time_time ;;
    update_mon (fun m =>
      set_atl_records
        (dict_set key
           {| atl_market_id := market_id; atl_market_name := market_name;
              atl_price := price; atl_size := size; atl_timestamp := now;
              atl_side := side |} (atl_records m)) m) ;;;
    log (MsgNewATL market_name side price size) WARNING
  else ret tt.

(** Run a method of the attached executor: the executor object is shared, so
    what the method does to it is seen through [self.arbitrage_executor]. *)
Definition with_executor {T} (ex : ArbitrageExecutor)
    (m : M (ArbitrageExecutor * Env) T) : M MState T :=
  fun s =>
    let '(r, (ex', e')) := m (ex, snd s) in
    (r, (set_arbitrage_executor (Some ex') (fst s), e')).

(** [OrderbookMonitor.execute_arbitrage] *)
Definition monitor_execute_arbitrage (event_name market_type : string)
    (side1_name : string) (side1_price : A) (side1_market_name : string)
    (side2_name : string) (side2_price : A) (side2_market_name : string)
    (total : A) : M MState unit :=
  try_except
    (m2t <- read_mon market_to_token ;;
     let side1_token := dict_get side1_market_name m2t in
     let side2_token := dict_get side2_market_name m2t in
     match side1_token, side2_token with
     | Some token1, Some token2 =>
         if negb (str_truthy token1) || negb (str_truthy token2)
         then log MsgCannotExecute ERROR
         else
           q <- lift (py_div (nsub lit_1 total) total) ;;
           let profit_percent := nmul q lit_100 in
           now <- in_menv time_time ;;
           let opportunity :=
             {| opp_event_title := event_name;
                opp_market_type := market_type;
                side1_token_id := token1;
                opp_side1_name := side1_name;
                opp_side1_price := side1_price;
                side2_token_id := token2;
                opp_side2_name := side2_name;
                opp_side2_price := side2_price;
                opp_total := total;
                opp_profit_percent := profit_percent;
                opp_timestamp := now |} in
           log (MsgExecuting event_name market_type profit_percent) WARNING ;;;
           executor <- read_mon arbitrage_executor ;;
           match executor with
           | None =>
               raise (Exception
                 "'NoneType' object has no attribute 'execute_arbitrage'")
           | Some ex =>
               execution <- with_executor ex (execute_arbitrage opportunity) ;;
               if success execution
               then log (MsgExecuted (order1_id execution)
                           (order2_id execution)) WARNING
               else log (MsgExecutionFailed (error execution)) ERROR
           end
     | _, _ => log MsgCannotExecute ERROR
     end)
    (fun e => log (MsgErrorExecuting e) ERROR).

(** One member of a group built by [check_best_matches]. *)
Record Outcome : Type := {
  oc_snapshot : OrderbookSnapshot;
  oc_outcome : string
}.

Definition market_type_of (event_name : string) : string :=
  if str_contains "Spread" event_name then "Spread"
  else if str_contains "O/U" event_name || str_contains "Over/Under" event_name
       then "O/U"
       else "Moneyline".

(** One turn of the grouping loop:
    [event_markets[event_name][market_type].append(...)] on the nested
    [defaultdict]s. *)
Definition group_add (event_markets : dict (dict (list Outcome)))
    (snapshot : OrderbookSnapshot) : dict (dict (list Outcome)) :=
  match str_split " - " (market_name snapshot) with
  | event_name :: outcome :: _ =>
      let market_type := market_type_of event_name in
      let market_types := dict_get_default [] event_name event_markets in
      let outcomes := dict_get_default [] market_type market_types in
      dict_set event_name
        (dict_set market_type
           (outcomes ++ [{| oc_snapshot := snapshot; oc_outcome := outcome |}])
           market_types)
        event_markets
  | _ => event_markets
  end.

Definition group_snapshots (snapshots : list OrderbookSnapshot)
  : dict (dict (list Outcome)) :=
  fold_left group_add snapshots [].

(** [abs(self.last_totals[pair_key] - total) > 0.001], or no last total. *)
Definition total_changed (last_totals : dict A) (pair_key : string) (total : A)
  : bool :=
  match dict_get pair_key last_totals with
  | None => true
  | Some last => ngtb (nabs (nsub last total)) lit_0_001
  end.

(** The body of the inner loop of [check_best_matches], for one group. *)
Definition scan_group (event_name market_type : string)
    (outcomes : list Outcome) : M MState unit :=
  match outcomes with
  | [side1; side2] =>
      let ask1 := best_ask (oc_snapshot side1) in
      let ask2 := best_ask (oc_snapshot side2) in
      let total := nadd ask1 ask2 in
      let pair_key := (event_name ++ "_" ++ market_type)%string in
      lasts <- read_mon last_totals ;;
      if total_changed lasts pair_key total then
        now <- in_menv time_time ;;
        let record :=
          {| tr_event_id := pair_key; tr_event_title := event_name;
             tr_market_type := market_type;
             tr_side1_name := oc_outcome side1; tr_side1_price := ask1;
             tr_side2_name := oc_outcome side2; tr_side2_price := ask2;
             tr_total := total; tr_timestamp := now;
             is_best := nltb total lit_1 |} in
        update_mon (fun m =>
          set_total_records (total_records m ++ [record]) m) ;;;
        update_mon (fun m =>
          set_last_totals (dict_set pair_key total (last_totals m)) m) ;;;
        if nltb total lit_1 then
          now' <- in_menv time_time ;;
          let best_match :=
            {| bm_event_id := pair_key; bm_event_title := event_name;
               bm_market_type := market_type;
               bm_side1_name := oc_outcome side1; bm_side1_price := ask1;
               bm_side2_name := oc_outcome side2; bm_side2_price := ask2;
               bm_total := total; bm_timestamp := now' |} in
          update_mon (fun m =>
            set_best_matches (best_matches m ++ [best_match]) m) ;;;
          log (MsgBestMatch event_name market_type total
                 (oc_outcome side1) ask1 (oc_outcome side2) ask2) WARNING ;;;
          executor <- read_mon arbitrage_executor ;;
          match executor with
          | None => ret tt
          | Some ex =>
              go <- lift (should_execute ex total) ;;
              if go then
                monitor_execute_arbitrage event_name market_type
                  (oc_outcome side1) ask1 (market_name (oc_snapshot side1))
                  (oc_outcome side2) ask2 (market_name (oc_snapshot side2))
                  total
              else ret tt
          end
        else ret tt
      else ret tt
  | _ => ret tt
  end.

(** The two nested [for] loops over the groups. *)
Definition scan_groups (event_markets : dict (dict (list Outcome)))
  : M MState unit :=
  for_each event_markets (fun em =>
    for_each (snd em) (fun mt => scan_group (fst em) (fst mt) (snd mt))).

Definition check_best_matches : M MState unit :=
  try_except
    (snapshots <- read_mon current_snapshots ;;
     scan_groups (group_snapshots (dict_values snapshots)))
    (fun e => log (MsgErrorBestMatches e) ERROR).

(** The snapshot both ingestion paths build from non-empty bid and ask
    lists; [mid_price] divides by the literal 2. *)
Definition make_snapshot (now : nat) (market_id market_name : string)
    (bid0 : Level) (min_ask : Level) : OrderbookSnapshot :=
  let best_ask := lv_price min_ask in
  let ask_size := lv_size min_ask in
  let best_bid := lv_price bid0 in
  let bid_size := lv_size bid0 in
  {| snap_timestamp := now; market_id := market_id;
     market_name := market_name;
     best_bid := best_bid; best_ask := best_ask;
     bid_size := bid_size; ask_size := ask_size;
     spread := nsub best_ask best_bid;
     mid_price := ndiv (nadd best_bid best_ask) lit_2 |}.

(** [self.current_snapshots[k] = snapshot;
     self.orderbook_data[k].append(snapshot)] *)
Definition store_snapshot (k : string) (snapshot : OrderbookSnapshot)
  : M MState unit :=
  update_mon (fun m =>
    set_current_snapshots (dict_set k snapshot (current_snapshots m)) m) ;;;
  update_mon (fun m =>
    set_orderbook_data
      (dict_set k
         (deque_append MAX_ORDERBOOK_HISTORY snapshot
            (dict_get_default [] k (orderbook_data m)))
         (orderbook_data m)) m).

Definition check_extremes (k market_name : string)
    (snapshot : OrderbookSnapshot) : M MState unit :=
  check_ath k market_name (best_bid snapshot) (bid_size snapshot) "bid" ;;;
  check_ath k market_name (best_ask snapshot) (ask_size snapshot) "ask" ;;;
  check_atl k market_name (best_bid snapshot) (bid_size snapshot) "bid" ;;;
  check_atl k market_name (best_ask snapshot) (ask_size snapshot) "ask".

(** [process_book_message] (streaming path) *)
Definition process_book_message (data : Book) : M MState unit :=
  try_except
    (process_start <- in_menv time_time ;;
     match asset_id data with
     | None => ret tt
     | Some asset =>
         if negb (str_truthy asset) then ret tt
         else
           t2m <- read_mon token_to_market ;;
           let market_name := dict_get_default "Unknown" asset t2m in
           match bids data, asks data with
           | bid0 :: _, ask0 :: asks' =>
               let min_ask := min_by_price ask0 asks' in
               now <- in_menv time_time ;;
               let snapshot :=
                 make_snapshot now asset market_name bid0 min_ask in
               store_snapshot asset snapshot ;;;
               check_extremes asset market_name snapshot ;;;
               check_best_matches ;;;
               finish <- in_menv time_time ;;
               let process_time := (finish - process_start) * 1000 in
               update_mon (fun m =>
                 set_update_latencies
                   (deque_append 100 process_time (update_latencies m)) m) ;;;
               log (MsgBookUpdate market_name (best_ask snapshot)
                      (best_bid snapshot) process_time) INFO
           | _, _ => ret tt
           end
     end)
    (fun e => log (MsgErrorBookMessage e) ERROR).

(** [process_orderbook_data] (polling path) *)
Definition process_orderbook_data (token_id market_name : string)
    (data : Book) : M MState unit :=
  try_except
    (match bids data, asks data with
     | bid0 :: _, ask0 :: asks' =>
         let min_ask := min_by_price ask0 asks' in
         now <- in_menv time_time ;;
         let snapshot := make_snapshot now token_id market_name bid0 min_ask in
         store_snapshot token_id snapshot ;;;
         check_extremes token_id market_name snapshot ;;;
         history <- read_mon (fun m =>
                      dict_get_default [] token_id (orderbook_data m)) ;;
         if Nat.eqb (List.length history mod 10) 0
         then log (MsgRestUpdate market_name (best_bid snapshot)
                     (bid_size snapshot) (best_ask snapshot)
                     (ask_size snapshot) (spread snapshot)) INFO
         else ret tt
     | _, _ => ret tt
     end)
    (fun e => log (MsgErrorOrderbook e) ERROR).

(** A decoded frame of the streaming connection. *)
Inductive WsMessage : Type :=
| WsList (books : list Book)       (* a list: the initial snapshots *)
| WsPriceChanges                   (* has the key 'price_changes' *)
| WsBook (data : Book)             (* has the keys 'bids' and 'asks' *)
| WsOther.

(** [process_websocket_message] *)
Definition process_websocket_message (data : WsMessage) : M MState unit :=
  try_except
    (match data with
     | WsList books =>
         log (MsgInitialBooks (List.length books)) INFO ;;;
         for_each books process_book_message
     | WsPriceChanges => ret tt
     | WsBook book => process_book_message book
     | WsOther => ret tt
     end)
    (fun e => log (MsgErrorWebSocketMessage e) ERROR).

(** What reaches the state store: a frame of the stream, or the order book
    one polling request returned. *)
Inductive Event : Type :=
| Stream (data : WsMessage)
| Polled (token_id market_name : string) (data : Book).

Definition handle (ev : Event) : M MState unit :=
  match ev with
  | Stream data => process_websocket_message data
  | Polled token_id market_name data =>
      process_orderbook_data token_id market_name data
  end.

(** [R] relates the monitor before a computation to the monitor after it,
    whether the computation returns or raises. *)
Definition msteps {U} (R : OrderbookMonitor -> OrderbookMonitor -> Prop)
    (m : M MState U) : Prop :=
  forall s, R (fst s) (fst (snd (m s))).

(** The relation of two monitors that agree on [f]. *)
Definition same {T} (f : OrderbookMonitor -> T) (m m' : OrderbookMonitor)
  : Prop :=
  f m = f m'.

(** [f] does not look at the field [set] writes. *)
Definition ignores {T V} (f : OrderbookMonitor -> T)
    (set : V -> OrderbookMonitor -> OrderbookMonitor) : Prop :=
  forall v m, f (set v m) = f m.

(** The state after a sequence of events; the handlers catch what they
    raise, and what one would let through is dropped like in the receive
    loop. *)
Fixpoint run (evs : list Event) (s : MState) : MState :=
  match evs with
  | [] => s
  | ev :: evs' => run evs' (snd (handle ev s))
  end.

(* ------------------------------------------------------------------ *)
(** ** Vocabulary of the statements *)

(** The arguments of the buy order of a leg. *)
Definition buy_args (token_id : string) (price stake : A) : OrderArgs :=
  {| oa_token_id := token_id; oa_price := price;
     oa_size := ndiv stake price; oa_side := "BUY"; oa_order_type := GTC |}.

(** The id [place_order] extracts from what [create_order] gave. *)
Definition order_id_of (r : result Response) : option string :=
  match r with
  | Ok (RespOrder order_id) => Some order_id
  | _ => None
  end.

(** The environment after one more client invocation. *)
Definition add_call (c : ClientCall) (x : Exchange) (e : Env) : Env :=
  {| exchange := x; calls := calls e ++ [c]; clock := clock e |}.

(** The environment after one reading of the clock. *)
Definition tick (e : Env) : Env := snd (time_time e).

(** The record [execute_arbitrage] builds, from the values of its local
    variables after the [try] statement. *)
Definition execution_record (opp : ArbitrageOpportunity)
    (self : ArbitrageExecutor) (s1 s2 : A) (o1 o2 : option string)
    (ok : bool) (err : option string) (now : nat) : ArbitrageExecution :=
  {| opportunity := opp; exe_bankroll := bankroll self;
     stake1 := s1; stake2 := s2; order1_id := o1; order2_id := o2;
     success := ok; error := err; exe_timestamp := now |}.

(** What every logged execution satisfies: success exactly when both order
    ids are there and not empty, and no second id without a first. *)
Definition consistent (x : ArbitrageExecution) : Prop :=
  (success x = true <->
   opt_truthy (order1_id x) = true /\ opt_truthy (order2_id x) = true) /\
  (order2_id x <> None -> opt_truthy (order1_id x) = true).

(** The history kept for the instrument [k]. *)
Definition history (k : string) (m : OrderbookMonitor)
  : list OrderbookSnapshot :=
  dict_get_default [] k (orderbook_data m).

(** The monitor after [store_snapshot]. *)
Definition stored (k : string) (snapshot : OrderbookSnapshot)
    (m : OrderbookMonitor) : OrderbookMonitor :=
  set_orderbook_data
    (dict_set k (deque_append MAX_ORDERBOOK_HISTORY snapshot (history k m))
       (orderbook_data m))
    (set_current_snapshots (dict_set k snapshot (current_snapshots m)) m).

(** The two fields [store_snapshot] writes. *)
Definition store_fields (m : OrderbookMonitor) :=
  (current_snapshots m, orderbook_data m).

(** The record [check_ath] writes at the clock reading [now]. *)
Definition new_ath (market_id market_name : string) (price size : A)
    (now : nat) (side : string) : ATHRecord :=
  {| ath_market_id := market_id; ath_market_name := market_name;
     ath_price := price; ath_size := size; ath_timestamp := now;
     ath_side := side |}.

(** The record [check_atl] writes at the clock reading [now]. *)
Definition new_atl (market_id market_name : string) (price size : A)
    (now : nat) (side : string) : ATLRecord :=
  {| atl_market_id := market_id; atl_market_name := market_name;
     atl_price := price; atl_size := size; atl_timestamp := now;
     atl_side := side |}.

(** The last [n] elements of [l]. *)
Definition lastn {T} (n : nat) (l : list T) : list T :=
  skipn (List.length l - n) l.

(** [q.append(x)] for each [x] of [xs] in turn. *)
Definition push_all {T} (cap : nat) (q xs : list T) : list T :=
  fold_left (fun q x => deque_append cap x q) xs q.

(** The snapshot an order book gives rise to, when both its lists are
    non-empty. *)
Definition book_snapshot (now : nat) (k market_name : string) (data : Book)
  : option OrderbookSnapshot :=
  match bids data, asks data with
  | bid0 :: _, ask0 :: asks' =>
      Some (make_snapshot now k market_name bid0 (min_by_price ask0 asks'))
  | _, _ => None
  end.

(** The instrument and the snapshot [process_book_message] ingests from
    [data] in the state [s], if it ingests one. *)
Definition stream_ingested (data : Book) (s : MState)
  : option (string * OrderbookSnapshot) :=
  match asset_id data with
  | Some asset =>
      if str_truthy asset then
        option_map (pair asset)
          (book_snapshot (S (clock (snd s))) asset
             (dict_get_default "Unknown" asset (token_to_market (fst s)))
             data)
      else None
  | None => None
  end.

(** The same for [process_orderbook_data]. *)
Definition polled_ingested (token_id market_name : string) (data : Book)
    (s : MState) : option (string * OrderbookSnapshot) :=
  option_map (pair token_id)
    (book_snapshot (clock (snd s)) token_id market_name data).

(** The snapshot of [o] when it is for the instrument [k]. *)
Definition for_instrument (k : string)
    (o : option (string * OrderbookSnapshot)) : list OrderbookSnapshot :=
  match o with
  | Some (k', snapshot) => if String.eqb k k' then [snapshot] else []
  | None => []
  end.

(** The snapshots ingested for the instrument [k], in arrival order, while
    the books of an initial burst are processed from the state [s]. *)
Fixpoint burst_arrivals (k : string) (books : list Book) (s : MState)
  : list OrderbookSnapshot :=
  match books with
  | [] => []
  | book :: books' =>
      for_instrument k (stream_ingested book s) ++
      burst_arrivals k books'
        (snd (process_book_message book s))
  end.

Definition event_arrivals (k : string) (ev : Event) (s : MState)
  : list OrderbookSnapshot :=
  match ev with
  | Stream (WsList books) =>
      burst_arrivals k books
        (snd (log (MsgInitialBooks (List.length books)) INFO s))
  | Stream (WsBook book) => for_instrument k (stream_ingested book s)
  | Stream _ => []
  | Polled token_id market_name data =>
      for_instrument k (polled_ingested token_id market_name data s)
  end.

(** The snapshots ingested for [k] along a sequence of events. *)
Fixpoint arrivals (k : string) (evs : list Event) (s : MState)
  : list OrderbookSnapshot :=
  match evs with
  | [] => []
  | ev :: evs' =>
      event_arrivals k ev s ++
      arrivals k evs' (snd (handle ev s))
  end.

(** The key of a pair, as [check_best_matches] builds it. *)
Definition pair_key (event_name market_type : string) : string :=
  (event_name ++ "_" ++ market_type)%string.

(** The sum of the two best asks of a pair. *)
Definition pair_total (side1 side2 : Outcome) : A :=
  nadd (best_ask (oc_snapshot side1)) (best_ask (oc_snapshot side2)).

(** The record appended for a pair at the clock reading [now]. *)
Definition total_record_of (event_name market_type : string)
    (side1 side2 : Outcome) (now : nat) : TotalRecord :=
  {| tr_event_id := pair_key event_name market_type;
     tr_event_title := event_name;
     tr_market_type := market_type;
     tr_side1_name := oc_outcome side1;
     tr_side1_price := best_ask (oc_snapshot side1);
     tr_side2_name := oc_outcome side2;
     tr_side2_price := best_ask (oc_snapshot side2);
     tr_total := pair_total side1 side2;
     tr_timestamp := now;
     is_best := nltb (pair_total side1 side2) lit_1 |}.


(** The monitor after a pair's total has been recorded. *)
Definition recorded (event_name market_type : string)
    (side1 side2 : Outcome) (now : nat) (m : OrderbookMonitor)
  : OrderbookMonitor :=
  set_last_totals
    (dict_set (pair_key event_name market_type) (pair_total side1 side2)
       (last_totals m))
    (set_total_records
       (total_records m ++
        [total_record_of event_name market_type side1 side2 now]) m).

(** A group as the scan meets it: event name, market type, members. *)
Definition Group : Type := (string * string * list Outcome)%type.

(** The groups of a scan, in the order of the two nested loops. *)
Definition scan_order (event_markets : dict (dict (list Outcome)))
  : list Group :=
  flat_map (fun em => map (fun mt => (fst em, fst mt, snd mt)) (snd em))
    event_markets.




End Program.

Arguments OrderArgs : clear implicits.
Arguments ClientCall : clear implicits.
Arguments Env : clear implicits.
Arguments ArbitrageOpportunity : clear implicits.
Arguments ArbitrageExecution : clear implicits.
Arguments ArbitrageExecutor : clear implicits.
Arguments Frame : clear implicits.
Arguments Stats : clear implicits.
Arguments OrderbookSnapshot : clear implicits.
Arguments ATHRecord : clear implicits.
Arguments ATLRecord : clear implicits.
Arguments BestMatch : clear implicits.
Arguments TotalRecord : clear implicits.
Arguments Level : clear implicits.
Arguments Book : clear implicits.
Arguments LogMsg : clear implicits.
Arguments LogEntry : clear implicits.
Arguments OrderbookMonitor : clear implicits.
Arguments Outcome : clear implicits.
Arguments WsMessage : clear implicits.
Arguments Event : clear implicits.
Arguments MState : clear implicits.
Arguments Group : clear implicits.

(** *** Vocabulary over exact prices *)

(** Every recorded high of [m] is still recorded in [m'], at a price at
    least as high. *)
Definition ath_grows (m m' : OrderbookMonitor Q) : Prop :=
  forall key r, dict_get key (ath_records m) = Some r ->
    exists r', dict_get key (ath_records m') = Some r' /\
               (ath_price r <= ath_price r')%Q.

(** Every recorded low of [m] is still recorded in [m'], at a price at most
    as high. *)
Definition atl_falls (m m' : OrderbookMonitor Q) : Prop :=
  forall key r, dict_get key (atl_records m) = Some r ->
    exists r', dict_get key (atl_records m') = Some r' /\
               (atl_price r' <= atl_price r)%Q.

(* ------------------------------------------------------------------ *)
(** ** Fixtures: concrete clients and inputs *)

(** A client constructor that succeeds, and one that fails. *)
Definition client_ready (host key : string) (chain : Z) : result ClobClient :=
  Ok {| cc_host := host; cc_key := key; cc_chain_id := chain |}.

Definition client_unreachable (host key : string) (chain : Z)
  : result ClobClient :=
  Raise (Exception "cannot reach the exchange").

(** The executor of the repository's tests, with auto-execution switched as
    given. *)
Definition test_executor {A} `{Number A} (auto : bool) : ArbitrageExecutor A :=
  ArbitrageExecutor_init client_ready "0x00" lit_100 lit_1 auto 137%Z.

(** A scripted exchange: the outcomes of the coming [create_order] calls, in
    order; once they are used up the connection is lost. *)
Definition Script : Type := list (result Response).

Definition scripted_create {A} (args : OrderArgs A) (x : Script)
  : result Response * Script :=
  match x with
  | [] => (Raise (Exception "connection lost"), [])
  | r :: x' => (r, x')
  end.

Definition cancel_accepted (order_id : string) (x : Script)
  : result unit * Script := (Ok tt, x).

Definition cancel_rejected (order_id : string) (x : Script)
  : result unit * Script := (Raise (Exception "cancel rejected"), x).

Definition env_of {A} (script : Script) : Env A Script :=
  {| exchange := script; calls := []; clock := 0 |}.

(** An opportunity on the tokens "T1" and "T2" at the given prices. *)
Definition opportunity_of {A} `{Number A} (price1 price2 : A)
  : ArbitrageOpportunity A :=
  let total := nadd price1 price2 in
  {| opp_event_title := "Will A win?"; opp_market_type := "Moneyline";
     side1_token_id := "T1"; opp_side1_name := "Yes";
     opp_side1_price := price1;
     side2_token_id := "T2"; opp_side2_name := "No";
     opp_side2_price := price2;
     opp_total := total;
     opp_profit_percent := nmul (ndiv (nsub lit_1 total) total) lit_100;
     opp_timestamp := 0 |}.

(** Whether, in binary64, the two profits at the given prices agree within
    the tolerance 0.01 the repository's test script accepts. *)
Definition profits_close (price1 price2 bankroll : float) : bool :=
  match calculate_stakes price1 price2 bankroll with
  | Ok (s1, s2) =>
      let profit1 := nsub (ndiv s1 price1) (nadd s1 s2) in
      let profit2 := nsub (ndiv s2 price2) (nadd s1 s2) in
      nltb (nabs (nsub profit1 profit2)) 0.01%float
  | Raise _ => false
  end.

(** An order-book entry, and the order book of an instrument. *)
Definition level {A} (price size : A) : Level A :=
  {| lv_price := price; lv_size := size |}.

Definition book {A} (asset : string) (bid_list ask_list : list (Level A))
  : Book A :=
  {| asset_id := Some asset; bids := bid_list; asks := ask_list |}.

(** A monitor just constructed, on a scripted exchange. *)
Definition fresh_monitor {A} (executor : option (ArbitrageExecutor A))
    (script : Script) : MState A Script :=
  (OrderbookMonitor_init executor, env_of script).

(** The registry [connect_websocket] builds for one two-outcome market with
    the tokens "T1" and "T2". *)
Definition registry : dict string :=
  [("T1", "Game A - Yes"); ("T2", "Game A - No")].

Definition registered_monitor {A} (executor : option (ArbitrageExecutor A))
    (script : Script) : MState A Script :=
  ({| orderbook_data := []; ath_records := []; atl_records := [];
      current_snapshots := [];
      token_to_market := registry;
      market_to_token := map (fun p => (snd p, fst p)) registry;
      best_matches := []; total_records := []; last_totals := [];
      arbitrage_executor := executor;
      logs := []; update_latencies := [] |},
   env_of script).

(** A book with one bid at 0.30 and one ask at the given price and size. *)
Definition one_ask {A} `{Number A} (asset : string) (bid price size : A)
  : Book A :=
  book asset [level bid lit_1] [level price size].

(** The events that feed the given ask prices, with their sizes, to the
    instrument "T1" on the polling path. *)
Definition feed_asks {A} `{Number A} (bid : A) (observations : list (A * A))
  : list (Event A) :=
  map (fun o => Polled "T1" "Game A - Yes" (one_ask "T1" bid (fst o) (snd o)))
    observations.

(** [n] polled order books for "T1", all alike. *)
Definition steady_feed (n : nat) : list (Event float) :=
  map (fun _ => Polled "T1" "Game A - Yes"
                  (one_ask "T1" 0.30 0.40 1)%float) (seq 0 n).

(** Two pairs, ingested on the polling path (which does not scan): "Game A"
    with both asks at 0, and "Game B" with asks 0.4 and 0.5. *)
Definition two_pairs : list (Event float) :=
  [Polled "T1" "Game A - Yes" (one_ask "T1" 0 0 1);
   Polled "T2" "Game A - No" (one_ask "T2" 0 0 1);
   Polled "T3" "Game B - Yes" (one_ask "T3" 0.3 0.4 1);
   Polled "T4" "Game B - No" (one_ask "T4" 0.3 0.5 1)]%float.

(* ------------------------------------------------------------------ *)
(** ** Vocabulary of the further properties *)

Section Accounts.

Context {A : Type} {NumA : Number A}.

(** What [__init__] is given, and the client it builds: the part of an
    executor that no method assigns to. *)
Definition settings (self : ArbitrageExecutor A) :=
  (private_key self, bankroll self, min_profit_percent self,
   auto_execute self, chain_id self, client self).

(** The buy orders of the two legs of an opportunity, for given stakes. *)
Definition leg1 (opp : ArbitrageOpportunity A) (s1 : A) : OrderArgs A :=
  buy_args (side1_token_id opp) (opp_side1_price opp) s1.

Definition leg2 (opp : ArbitrageOpportunity A) (s2 : A) : OrderArgs A :=
  buy_args (side2_token_id opp) (opp_side2_price opp) s2.

(** The expected profit of a logged execution: what [calculate_profit] gives
    at the prices and the stakes the record holds. *)
Definition booked (x : ArbitrageExecution A) : result A :=
  calculate_profit (opp_side1_price (opportunity x))
    (opp_side2_price (opportunity x)) (stake1 x) (stake2 x).

(** [total_profit += profit] for the successful records of a log, in turn,
    starting from 0.0. *)
Definition booked_total (log : list (ArbitrageExecution A)) : A :=
  fold_left
    (fun acc x =>
       if success x
       then match booked x with Ok profit => nadd acc profit | Raise _ => acc end
       else acc)
    log lit_0.

Definition failed (x : ArbitrageExecution A) : bool := negb (success x).

End Accounts.

Section Accounts2.
Context {A : Type} {NumA : Number A}.

(** The counters of an executor agree with its log. *)
Definition accounted (self : ArbitrageExecutor A) : Prop :=
  successful_trades self = List.length (filter (@success A) (executions self))
  /\ failed_trades self = List.length (filter failed (executions self))
  /\ total_profit self = booked_total (executions self).

End Accounts2.

(** The relation of two states of which the second satisfies [P] whenever
    the first does. *)
Definition keeps {T} (P : T -> Prop) (a b : T) : Prop := P a -> P b.

(** [l'] is [l] with elements added at its end. *)
Definition extends {T} (l l' : list T) : Prop := exists new, l' = l ++ new.

Section Bounds.
Context {A : Type}.

(** The two bounded deques of the monitor are within their capacity. *)
Definition within_capacity (m : OrderbookMonitor A) : Prop :=
  List.length (logs m) <= MAX_LOG_ENTRIES /\
  List.length (update_latencies m) <= 100.

(** Nothing recorded in [m] is missing from [m']: the two record lists have
    only grown at their end, and every instrument and pair known to [m] is
    known to [m']. *)
Definition nothing_lost (m m' : OrderbookMonitor A) : Prop :=
  extends (total_records m) (total_records m') /\
  extends (best_matches m) (best_matches m') /\
  (forall k, dict_get k (current_snapshots m) <> None ->
             dict_get k (current_snapshots m') <> None) /\
  (forall k, dict_get k (last_totals m) <> None ->
             dict_get k (last_totals m') <> None).

End Bounds.

Section Detection.
Context {A : Type} {NumA : Number A}.

(** The best match appended for a pair at the clock reading [now]. *)
Definition best_match_of (event_name market_type : string)
    (side1 side2 : Outcome A) (now : nat) : BestMatch A :=
  {| bm_event_id := pair_key event_name market_type;
     bm_event_title := event_name;
     bm_market_type := market_type;
     bm_side1_name := oc_outcome side1;
     bm_side1_price := best_ask (oc_snapshot side1);
     bm_side2_name := oc_outcome side2;
     bm_side2_price := best_ask (oc_snapshot side2);
     bm_total := pair_total side1 side2;
     bm_timestamp := now |}.

(** The monitor after a best match has been appended and announced. *)
Definition matched (event_name market_type : string)
    (side1 side2 : Outcome A) (now : nat) (m : OrderbookMonitor A)
  : OrderbookMonitor A :=
  set_logs
    (deque_append MAX_LOG_ENTRIES
       {| log_level := WARNING;
          log_message :=
            MsgBestMatch event_name market_type (pair_total side1 side2)
              (oc_outcome side1) (best_ask (oc_snapshot side1))
              (oc_outcome side2) (best_ask (oc_snapshot side2)) |}
       (logs m))
    (set_best_matches
       (best_matches m ++ [best_match_of event_name market_type side1 side2 now])
       m).

(** What a total record, and a best match, say about their pair. *)
Definition pair_of_record (r : TotalRecord A) :=
  (tr_event_id r, tr_event_title r, tr_market_type r,
   tr_side1_name r, tr_side1_price r, tr_side2_name r, tr_side2_price r,
   tr_total r).

Definition pair_of_match (b : BestMatch A) :=
  (bm_event_id b, bm_event_title b, bm_market_type b,
   bm_side1_name b, bm_side1_price b, bm_side2_name b, bm_side2_price b,
   bm_total b).

(** A record as the detector writes it: keyed by title and market type,
    with the sum of its two prices, flagged when the sum is below 1.0. *)
Definition record_well_formed (r : TotalRecord A) : Prop :=
  tr_event_id r = pair_key (tr_event_title r) (tr_market_type r) /\
  tr_total r = nadd (tr_side1_price r) (tr_side2_price r) /\
  is_best r = nltb (tr_total r) lit_1.

(** The best matches are the flagged records, in the same order. *)
Definition matches_follow_records (m : OrderbookMonitor A) : Prop :=
  Forall record_well_formed (total_records m) /\
  map pair_of_match (best_matches m)
    = map pair_of_record (filter (@is_best A) (total_records m)).

(** An execution the gate let through: its opportunity carries the sum of
    its two prices, and [should_execute] accepts that sum. *)
Definition passed_gate (ex : ArbitrageExecutor A) (x : ArbitrageExecution A)
  : Prop :=
  opp_total (opportunity x)
    = nadd (opp_side1_price (opportunity x)) (opp_side2_price (opportunity x))
  /\ should_execute ex (opp_total (opportunity x)) = Ok true.

End Detection.

Section Detection2.
Context {A : Type} {NumA : Number A}.

(** The opportunity [OrderbookMonitor.execute_arbitrage] hands to the
    executor, for the tokens found in the registry. *)
Definition opportunity_for (event_name market_type : string)
    (side1_name : string) (side1_price : A) (token1 : string)
    (side2_name : string) (side2_price : A) (token2 : string)
    (total : A) (now : nat) : ArbitrageOpportunity A :=
  {| opp_event_title := event_name;
     opp_market_type := market_type;
     side1_token_id := token1;
     opp_side1_name := side1_name;
     opp_side1_price := side1_price;
     side2_token_id := token2;
     opp_side2_name := side2_name;
     opp_side2_price := side2_price;
     opp_total := total;
     opp_profit_percent := nmul (ndiv (nsub lit_1 total) total) lit_100;
     opp_timestamp := now |}.

(** The log with one more entry. *)
Definition logged (level : LogLevel) (message : LogMsg A)
    (m : OrderbookMonitor A) : OrderbookMonitor A :=
  set_logs (deque_append MAX_LOG_ENTRIES
              {| log_level := level; log_message := message |} (logs m)) m.

(** From [a] to [b] the attached executor keeps its settings and its log
    grows only by executions that passed the gate, at most one for each best
    match found in between; a monitor without an executor stays without. *)
Definition engine_advances (a b : OrderbookMonitor A) : Prop :=
  match arbitrage_executor a with
  | None => arbitrage_executor b = None
  | Some ex =>
      exists ex' new,
        arbitrage_executor b = Some ex' /\
        settings ex' = settings ex /\
        executions ex' = executions ex ++ new /\
        Forall (passed_gate ex) new /\
        List.length new + List.length (best_matches a)
          <= List.length (best_matches b)
  end.

End Detection2.

(** The key of the extremes of one side of an instrument. *)
Definition extreme_key (k side : string) : string := (k ++ "_" ++ side)%string.

(** The side [side] of the instrument [k] has a recorded low and a recorded
    high, and [price] lies between them. *)
Definition between_extremes (m : OrderbookMonitor Q) (k side : string)
    (price : Q) : Prop :=
  exists h l,
    dict_get (extreme_key k side) (ath_records m) = Some h /\
    dict_get (extreme_key k side) (atl_records m) = Some l /\
    (atl_price l <= price)%Q /\ (price <= ath_price h)%Q.

(** Highs and lows are recorded for the same keys, no low is above its high,
    and the current prices of every instrument lie between its extremes. *)
Definition extremes_consistent (m : OrderbookMonitor Q) : Prop :=
  (forall key, dict_get key (ath_records m) = None <->
               dict_get key (atl_records m) = None) /\
  (forall key h l,
      dict_get key (ath_records m) = Some h ->
      dict_get key (atl_records m) = Some l ->
      (atl_price l <= ath_price h)%Q) /\
  (forall k snapshot,
      dict_get k (current_snapshots m) = Some snapshot ->
      between_extremes m k "bid" (best_bid snapshot) /\
      between_extremes m k "ask" (best_ask snapshot)).

(** The snapshot holds what the ingestion reads off an order book: bid and
    size of the first bid entry; ask and size of the first among the ask
    entries of least price; their difference and their mean. *)
Definition reads_book (data : Book Q) (snapshot : OrderbookSnapshot Q) : Prop :=
  (exists bids',
      bids data = level (best_bid snapshot) (bid_size snapshot) :: bids') /\
  (exists earlier later,
      asks data = earlier ++ level (best_ask snapshot) (ask_size snapshot)
                               :: later /\
      (forall x, In x earlier -> (best_ask snapshot < lv_price x)%Q) /\
      (forall x, In x later -> (best_ask snapshot <= lv_price x)%Q)) /\
  (spread snapshot == best_ask snapshot - best_bid snapshot)%Q /\
  (mid_price snapshot * 2 == best_bid snapshot + best_ask snapshot)%Q.

(** [l[start:]] for an [int] start: a negative start counts from the end,
    and a start beyond either end is clipped to it. *)
Definition slice_from {T} (start : Z) (l : list T) : list T :=
  let n := Z.of_nat (List.length l) in
  let first := if (start <? 0)%Z then Z.max 0 (start + n) else Z.min start n in
  skipn (Z.to_nat first) l.

Section Reports.

Context {A : Type}.

(** The reports that take a count; [asdict] of a record is the record
    itself. *)

(** [list(self.logs)[-count:]] *)
Definition get_logs (self : OrderbookMonitor A) (count : Z)
  : list (LogEntry A) :=
  slice_from (- count) (logs self).

(** [self.total_records[-limit:]] *)
Definition get_total_records (self : OrderbookMonitor A) (limit : Z)
  : list (TotalRecord A) :=
  slice_from (- limit) (total_records self).

(** web_app.py, [api_logs_stream]: one turn of the loop of [generate], for
    the monitor as it is at that turn; the entries yielded and the new
    [last_count]. *)
Definition generate_turn (monitor : OrderbookMonitor A) (last_count : nat)
  : list (LogEntry A) * nat :=
  let logs := get_logs monitor 100 in
  let current_count := List.length logs in
  if Nat.ltb last_count current_count
  then (skipn last_count logs, current_count)
  else ([], last_count).

(** The entries [generate] yields over the turns at which the monitor is as
    [observed] lists it. *)
Fixpoint generate (observed : list (OrderbookMonitor A)) (last_count : nat)
  : list (LogEntry A) :=
  match observed with
  | [] => []
  | monitor :: later =>
      fst (generate_turn monitor last_count) ++
      generate later (snd (generate_turn monitor last_count))
  end.

(** From one observation to the next the log has only grown at its end,
    starting from the entries [seen]. *)
Fixpoint log_grows (seen : list (LogEntry A))
    (observed : list (OrderbookMonitor A)) : Prop :=
  match observed with
  | [] => True
  | monitor :: later =>
      extends seen (logs monitor) /\ log_grows (logs monitor) later
  end.

(** The log at the last observation, [seen] when there is none. *)
Fixpoint last_log (seen : list (LogEntry A))
    (observed : list (OrderbookMonitor A)) : list (LogEntry A) :=
  match observed with
  | [] => seen
  | monitor :: later => last_log (logs monitor) later
  end.

End Reports.

(** The event name and the outcome the detector reads off a market name:
    its first two parts, when it has two. *)
Definition parse_market_name (name : string) : option (string * string) :=
  match str_split " - " name with
  | event_name :: outcome :: _ => Some (event_name, outcome)
  | _ => None
  end.

Section Grouping.

Context {A : Type}.

(** What one snapshot contributes to the group of [event_name]. *)
Definition member_for (event_name : string) (snapshot : OrderbookSnapshot A)
  : list (Outcome A) :=
  match parse_market_name (market_name snapshot) with
  | Some (e, outcome) =>
      if String.eqb event_name e
      then [{| oc_snapshot := snapshot; oc_outcome := outcome |}]
      else []
  | None => []
  end.

(** The members of the group of [event_name], in the order of the snapshots. *)
Definition members_of (event_name : string)
    (snapshots : list (OrderbookSnapshot A)) : list (Outcome A) :=
  flat_map (member_for event_name) snapshots.

(** The entry of an event in the nested dictionary: none without members,
    else a single market type. *)
Definition group_entry (event_name : string) (members : list (Outcome A))
  : option (dict (list (Outcome A))) :=
  match members with
  | [] => None
  | _ => Some [(market_type_of event_name, members)]
  end.

End Grouping.



Section Unregistered.

Context {A : Type}.
Variable Exchange : Type.

(** The state [s] as a stream of books for unregistered tokens leaves it,
    seen from [s0]: the registry still empty, what detection and execution
    write as in [s0], and every current snapshot one of [s0] or one stored
    under the name "Unknown". *)
Definition only_stored (s0 s : MState A Exchange) : Prop :=
  token_to_market (fst s) = [] /\
  Forall (fun snapshot =>
            In snapshot (dict_values (current_snapshots (fst s0))) \/
            market_name snapshot = "Unknown")
    (dict_values (current_snapshots (fst s))) /\
  total_records (fst s) = total_records (fst s0) /\
  best_matches (fst s) = best_matches (fst s0) /\
  last_totals (fst s) = last_totals (fst s0) /\
  arbitrage_executor (fst s) = arbitrage_executor (fst s0) /\
  calls (snd s) = calls (snd s0) /\
  exchange (snd s) = exchange (snd s0).

End Unregistered.

(** ** orderbook_monitor.py: subscriptions and the token registry *)

(** A market object of an event, as far as the monitor reads it: the
    question, when there is one, and 'clobTokenIds' and 'outcomes' as the
    lists [json.loads] gives (both empty when either fails to parse); their
    entries are strings. *)
Record Market : Type := {
  mk_question : option string;
  mk_token_ids : list string;
  mk_outcomes : list string
}.

Record SportMatch : Type := {
  sm_event_id : string;
  sm_title : string;
  sm_slug : string;
  sm_start_time : string;
  sm_end_time : string;
  sm_markets : list Market;
  sm_active : bool
}.



(** [enumerate(l)] *)
Definition enumerate {T} (l : list T) : list (nat * T) :=
  combine (seq 0 (List.length l)) l.

(** [outcomes[idx] if idx < len(outcomes) else f"Option {idx+1}"] *)
Definition outcome_name_at (outcomes : list string) (idx : nat) : string :=
  match nth_error outcomes idx with
  | Some outcome => outcome
  | None => "Option " ++ NilEmpty.string_of_uint (Nat.to_uint (idx + 1))
  end.

(** [market.get('question', 'Unknown')] *)
Definition question_of (market : Market) : string :=
  match mk_question market with Some q => q | None => "Unknown" end.

(** [f"{market.get('question', 'Unknown')} - {outcome_name}"] *)
Definition market_name_of (market : Market) (outcome_name : string) : string :=
  question_of market ++ " - " ++ outcome_name.




(** The pairs (token, market name) a market gives rise to, and those of all
    subscribed matches, in registration order. *)
Definition market_registrations (market : Market) : list (string * string) :=
  flat_map
    (fun item : nat * string =>
       if str_truthy (snd item)
       then [(snd item,
              market_name_of market
                (outcome_name_at (mk_outcomes market) (fst item)))]
       else [])
    (enumerate (mk_token_ids market)).

Definition registrations (subscribed : dict SportMatch)
  : list (string * string) :=
  flat_map (fun sport_match =>
              flat_map market_registrations (sm_markets sport_match))
    (dict_values subscribed).

(** [del d[k]], for a key that is present. *)
Fixpoint dict_del {V} (k : string) (d : dict V) : dict V :=
  match d with
  | [] => []
  | (k', v) :: d' =>
      if String.eqb k k' then dict_del k d' else (k', v) :: dict_del k d'
  end.

Definition set_sm_active (v : bool) (m : SportMatch) : SportMatch :=
  {| sm_event_id := sm_event_id m; sm_title := sm_title m;
     sm_slug := sm_slug m; sm_start_time := sm_start_time m;
     sm_end_time := sm_end_time m; sm_markets := sm_markets m;
     sm_active := v |}.

(** The log entries of the subscription methods, by the data they are
    formatted from. *)
Inductive ControlMsg : Type :=
| MsgSubscribed (title : string)
| MsgUnsubscribed (title : string)
| MsgStopped.

(** The fields of [OrderbookMonitor] that the subscription methods read or
    write; [control_log] holds the entries they append to the monitor's log,
    oldest first. *)
Record Control : Type := {
  subscribed_markets : dict SportMatch;
  running : bool;
  control_log : list (LogLevel * ControlMsg)
}.

(** [subscribe_to_match]: the dictionary holds the match object itself, so
    the flag set after the insertion is set on the stored match. *)
Definition subscribe_to_match (sport_match : SportMatch) (self : Control)
  : Control :=
  {| subscribed_markets :=
       dict_set (sm_event_id sport_match) (set_sm_active true sport_match)
         (subscribed_markets self);
     running := running self;
     control_log :=
       control_log self ++ [(INFO, MsgSubscribed (sm_title sport_match))] |}.

(** [unsubscribe_from_match]: nothing for an id that is not subscribed.  The
    flag cleared on the match is cleared on an object the dictionary no
    longer holds once the entry is deleted. *)
Definition unsubscribe_from_match (event_id : string) (self : Control)
  : Control :=
  match dict_get event_id (subscribed_markets self) with
  | Some sport_match =>
      {| subscribed_markets := dict_del event_id (subscribed_markets self);
         running := running self;
         control_log :=
           control_log self
           ++ [(INFO, MsgUnsubscribed (sm_title sport_match))] |}
  | None => self
  end.

(** [stop] *)
Definition stop (self : Control) : Control :=
  {| subscribed_markets := subscribed_markets self;
     running := false;
     control_log := control_log self ++ [(INFO, MsgStopped)] |}.

(** The two-outcome market behind [registry], and a match that holds it. *)
Definition game_a : Market :=
  {| mk_question := Some "Game A";
     mk_token_ids := ["T1"; "T2"];
     mk_outcomes := ["Yes"; "No"] |}.

Definition game_a_match : SportMatch :=
  {| sm_event_id := "E1"; sm_title := "Game A"; sm_slug := "nba-game-a";
     sm_start_time := ""; sm_end_time := "";
     sm_markets := [game_a]; sm_active := false |}.

(** An order book over exact prices whose bids are not sorted highest
    first and whose least ask comes second. *)
Definition unsorted_book : Book Q :=
  book "T1" [level (40 # 100)%Q 10%Q; level (45 # 100)%Q 20%Q]
            [level (55 # 100)%Q 5%Q; level (50 # 100)%Q 7%Q].

(* ================================================================== *)
(** * Properties *)

(** ** The embedding on small inputs *)

Example str_split_two_parts :
  str_split " - " "Will A win? - Yes" = ["Will A win?"; "Yes"].
Proof. reflexivity. Qed.

Example str_split_no_separator : str_split " - " "Unknown" = ["Unknown"].
Proof. reflexivity. Qed.

Example str_split_many_parts :
  str_split " - " "a - b - c - " = ["a"; "b"; "c"; ""].
Proof. reflexivity. Qed.

Example str_split_overlap : str_split "aa" "aaa" = [""; "a"].
Proof. reflexivity. Qed.

Example market_type_examples :
  map market_type_of
    ["Lakers vs Celtics"; "Spread: Lakers (-4.5)";
     "Lakers vs Celtics: O/U 210.5"; "Over/Under 7.5"; "Spread O/U"]
  = ["Moneyline"; "Spread"; "O/U"; "O/U"; "Spread"].
Proof. reflexivity. Qed.

Example dict_set_keeps_order :
  dict_set "b" 9 (dict_set "c" 3 (dict_set "b" 2 (dict_set "a" 1 [])))
  = [("a", 1); ("b", 9); ("c", 3)].
Proof. reflexivity. Qed.

Example deque_append_full : deque_append 3 4 [1; 2; 3] = [2; 3; 4].
Proof. reflexivity. Qed.

Example deque_append_room : deque_append 3 3 [1; 2] = [1; 2; 3].
Proof. reflexivity. Qed.

Example min_by_price_first_of_ties :
  min_by_price (level (5 # 10)%Q 1%Q)
    [level (4 # 10)%Q 2%Q; level (6 # 10)%Q 3%Q; level (4 # 10)%Q 4%Q]
  = level (4 # 10)%Q 2%Q.
Proof. reflexivity. Qed.

(** The literals of the binary64 instance are the doubles CPython reads, and
    the division of two doubles gives the double nearest to the quotient. *)
Example binary64_literals :
  (neqb (ndiv 1 1000) lit_0_001 = true /\
   neqb (nadd 0.1 0.2) 0.3 = false /\
   py_div 1 0 = Raise ZeroDivisionError /\
   py_div 1 (-0) = Raise ZeroDivisionError)%float.
Proof. vm_compute. repeat split. Qed.

(** ** Stake sizing *)

Section StakeFormula.

Context {A : Type} {NumA : Number A}.

(** In any arithmetic, when the prices do not sum to zero each stake is the
    quotient of [bankroll * price_i] by the sum of the prices. *)
Lemma calculate_stakes_formula (price1 price2 bankroll : A) :
  neqb (nadd price1 price2) lit_0 = false ->
  calculate_stakes price1 price2 bankroll =
    Ok (ndiv (nmul bankroll price1) (nadd price1 price2),
        ndiv (nmul bankroll price2) (nadd price1 price2)).
Proof.
  intros Hz. unfold calculate_stakes, py_div. rewrite Hz. reflexivity.
Qed.


Lemma calculate_stakes_zero_sum (price1 price2 bankroll : A) :
  neqb (nadd price1 price2) lit_0 = true ->
  calculate_stakes price1 price2 bankroll = Raise ZeroDivisionError.
Proof.
  intros Hz. unfold calculate_stakes, py_div. rewrite Hz. reflexivity.
Qed.

Lemma calculate_stakes_ok (price1 price2 bankroll s1 s2 : A) :
  calculate_stakes price1 price2 bankroll = Ok (s1, s2) ->
  neqb (nadd price1 price2) lit_0 = false.
Proof.
  unfold calculate_stakes, py_div.
  destruct (neqb (nadd price1 price2) lit_0); [discriminate | reflexivity].
Qed.

Lemma calculate_profit_ok (price1 price2 s1 s2 profit : A) :
  calculate_profit price1 price2 s1 s2 = Ok profit ->
  neqb price1 lit_0 = false /\ neqb price2 lit_0 = false.
Proof.
  unfold calculate_profit, py_div.
  destruct (neqb price1 lit_0); [discriminate |].
  destruct (neqb price2 lit_0); [discriminate |].
  auto.
Qed.

Lemma calculate_profit_formula (price1 price2 s1 s2 : A) :
  neqb price1 lit_0 = false -> neqb price2 lit_0 = false ->
  calculate_profit price1 price2 s1 s2 =
    Ok (ndiv (nadd (nsub (ndiv s1 price1) (nadd s1 s2))
                   (nsub (ndiv s2 price2) (nadd s1 s2))) lit_2).
Proof.
  intros H1 H2. unfold calculate_profit, py_div. rewrite H1, H2. reflexivity.
Qed.

End StakeFormula.

Section StakesExact.

Local Open Scope Q_scope.

Lemma Q_nonzero_test (x : Q) : ~ x == 0 -> neqb x lit_0 = false.
Proof.
  intros Hx. cbn. destruct (Qeq_bool x 0) eqn:E; [| reflexivity].
  apply Qeq_bool_iff in E. contradiction.
Qed.



End StakesExact.



(** In binary64 the two profits of each of the repository's 2-way scenarios
    agree within the tolerance of its test script. *)
Example test_scenarios_binary64 :
  forallb (fun p => profits_close (fst p) (snd p) 100%float)
    [(0.49, 0.48); (0.41, 0.54); (0.60, 0.34); (0.51, 0.50)]%float = true.
Proof. vm_compute. reflexivity. Qed.

(* ------------------------------------------------------------------ *)
(** ** The execution gate *)

(** C3 (amended): with auto-execute disabled [should_execute] returns false
    for every sum; with it enabled it returns false when sum >= 1.0, and for
    a sum below 1.0 that is not zero it returns false when
    (1 - sum) / sum * 100 is below the configured minimum and true
    otherwise.  With a minimum of 1.0, in binary64 and over the rationals,
    0.97 gives true, 0.995 gives false and 1.0 gives false. *)
Theorem should_execute_gate :
  (forall (A : Type) (NumA : Number A) (self : ArbitrageExecutor A)
          (total : A),
      (auto_execute self = false -> should_execute self total = Ok false) /\
      (auto_execute self = true -> ngeb total lit_1 = true ->
       should_execute self total = Ok false) /\
      (auto_execute self = true -> ngeb total lit_1 = false ->
       neqb total lit_0 = false ->
       let profit_percent := nmul (ndiv (nsub lit_1 total) total) lit_100 in
       (nltb profit_percent (min_profit_percent self) = true ->
        should_execute self total = Ok false) /\
       (nltb profit_percent (min_profit_percent self) = false ->
        should_execute self total = Ok true))) /\
  (should_execute (test_executor true) 0.97%float = Ok true /\
   should_execute (test_executor true) 0.995%float = Ok false /\
   should_execute (test_executor true) 1.0%float = Ok false /\
   should_execute (test_executor false) 0.97%float = Ok false) /\
  (should_execute (test_executor true) (97 # 100)%Q = Ok true /\
   should_execute (test_executor true) (995 # 1000)%Q = Ok false /\
   should_execute (test_executor true) 1%Q = Ok false /\
   should_execute (test_executor false) (97 # 100)%Q = Ok false).
Proof.
  split; [| split; repeat split; vm_compute; reflexivity].
  intros A NumA self total. unfold should_execute, py_div.
  split; [| split].
  - intros ->. reflexivity.
  - intros -> ->. reflexivity.
  - intros -> -> ->. cbn. split; intros ->; reflexivity.
Qed.

(** The gate at auto-execute enabled, sum 0.98 and minimum 1.0. *)
Lemma should_execute_gate_witness :
  auto_execute (test_executor (A := float) true) = true /\
  ngeb 0.98%float lit_1 = false /\
  neqb 0.98%float lit_0 = false /\
  should_execute (test_executor true) 0.98%float = Ok true.
Proof.
  split; [reflexivity |]. split; [reflexivity |]. split; [reflexivity |].
  refine (proj2 (proj2 (proj2 (proj1 should_execute_gate float _
            (test_executor true) 0.98%float)) _ _ _) _);
    reflexivity.
Defined.

(** C3 as stated fails at the sum zero: with auto-execute enabled the call
    neither returns false nor true, it raises [ZeroDivisionError]. *)
Lemma should_execute_zero_counterexample :
  auto_execute (test_executor (A := float) true) = true /\
  should_execute (test_executor true) 0%float = Raise ZeroDivisionError /\
  should_execute (test_executor true) 0%Q = Raise ZeroDivisionError.
Proof. repeat split. Qed.

(* ------------------------------------------------------------------ *)
(** ** The execution engine *)

Section ExecutorFacts.

Context {A : Type} {NumA : Number A}.
Variable Exchange : Type.
Variable create_order : OrderArgs A -> Exchange -> result Response * Exchange.
Variable cancel_order : string -> Exchange -> result unit * Exchange.

Lemma place_order_no_client self token_id side price size
    (env : Env A Exchange) :
  client self = None ->
  place_order create_order self token_id side price size env = (Ok None, env).
Proof. intros H. unfold place_order. rewrite H. reflexivity. Qed.

Lemma place_order_with_client self token_id price stake (env : Env A Exchange) :
  client self <> None ->
  place_order create_order self token_id "BUY" price (ndiv stake price) env =
    (Ok (order_id_of (fst (create_order (buy_args token_id price stake)
                             (exchange env)))),
     add_call (CreateOrder (buy_args token_id price stake))
       (snd (create_order (buy_args token_id price stake) (exchange env)))
       env).
Proof.
  intros H. unfold place_order.
  destruct (client self) as [c |]; [| contradiction].
  unfold try_except, bind, client_create_order, ret, buy_args, add_call.
  destruct (create_order _ (exchange env)) as [[[ | | order_id] | e] x];
    reflexivity.
Qed.

Lemma place_order_returns self token_id side price size (env : Env A Exchange) :
  exists o env',
    place_order create_order self token_id side price size env = (Ok o, env').
Proof.
  unfold place_order. destruct (client self) as [c |].
  - unfold try_except, bind, client_create_order, ret.
    destruct (create_order _ (exchange env)) as [[[ | | order_id] | e] x];
      do 2 eexists; reflexivity.
  - do 2 eexists; reflexivity.
Qed.

Ltac run_monad :=
  cbv beta iota zeta delta
    [bind ret raise gets get modify lift try_except in_env time_time
     set_order1_id set_order2_id set_success set_error update_self
     cancel_best_effort client_cancel_order
     fr_self fr_env loc_order1_id loc_order2_id loc_success loc_error
     fst snd negb].

Section OneCall.

Variables (self : ArbitrageExecutor A) (env : Env A Exchange).
Variable opp : ArbitrageOpportunity A.
Variables s1 s2 profit : A.
Hypothesis Hstakes :
  calculate_stakes (opp_side1_price opp) (opp_side2_price opp) (bankroll self)
  = Ok (s1, s2).
Hypothesis Hprofit :
  calculate_profit (opp_side1_price opp) (opp_side2_price opp) s1 s2
  = Ok profit.

Lemma leg_sizes :
  py_div s1 (opp_side1_price opp) = Ok (ndiv s1 (opp_side1_price opp)) /\
  py_div s2 (opp_side2_price opp) = Ok (ndiv s2 (opp_side2_price opp)).
Proof.
  destruct (calculate_profit_ok _ _ _ _ Hprofit) as [H1 H2].
  unfold py_div. rewrite H1, H2. auto.
Qed.

Variables (o1 : option string) (env1 : Env A Exchange).
Hypothesis Hleg1 :
  place_order create_order self (side1_token_id opp) "BUY"
    (opp_side1_price opp) (ndiv s1 (opp_side1_price opp)) env = (Ok o1, env1).

Lemma execute_arbitrage_leg1_failed :
  opt_truthy o1 = false ->
  let x := execution_record opp self s1 s2 o1 None false
             (Some "Failed to place order 1") (clock env1) in
  execute_arbitrage create_order cancel_order opp (self, env) =
    (Ok x, (append_execution x (record_failure self), tick env1)).
Proof.
  intros Ho1. destruct leg_sizes as [Hz1 _].
  unfold execute_arbitrage, execute_frame, execute_legs.
  run_monad. rewrite Hstakes, Hprofit. run_monad. rewrite Hz1, Hleg1.
  run_monad.
  destruct o1 as [id1 |]; [cbn in Ho1; rewrite Ho1 |]; reflexivity.
Qed.

Lemma truthy_leg1_has_client : opt_truthy o1 = true -> client self <> None.
Proof.
  intros Ho1 Hc. rewrite (place_order_no_client _ _ _ _ _ _ Hc) in Hleg1.
  inversion Hleg1; subst. discriminate.
Qed.

Variables (o2 : option string) (env2 : Env A Exchange).
Hypothesis Hleg2 :
  place_order create_order self (side2_token_id opp) "BUY"
    (opp_side2_price opp) (ndiv s2 (opp_side2_price opp)) env1 = (Ok o2, env2).

Lemma execute_arbitrage_leg2_failed (id1 : string) :
  o1 = Some id1 -> str_truthy id1 = true -> opt_truthy o2 = false ->
  let env3 := add_call (CancelOrder id1)
                (snd (cancel_order id1 (exchange env2))) env2 in
  let x := execution_record opp self s1 s2 o1 o2 false
             (Some "Failed to place order 2") (clock env3) in
  execute_arbitrage create_order cancel_order opp (self, env) =
    (Ok x, (append_execution x (record_failure self), tick env3)).
Proof.
  intros E1 Hid Ho2. destruct leg_sizes as [Hz1 Hz2].
  assert (Hc : client self <> None).
  { apply truthy_leg1_has_client. rewrite E1. exact Hid. }
  unfold execute_arbitrage, execute_frame, execute_legs.
  run_monad. rewrite Hstakes, Hprofit. run_monad. rewrite Hz1, Hleg1.
  run_monad. rewrite E1, Hid. run_monad. rewrite Hz2, Hleg2. run_monad.
  rewrite Ho2. run_monad.
  destruct (client self) as [c |]; [| contradiction].
  unfold add_call.
  destruct (cancel_order id1 (exchange env2)) as [[[] | e] x]; reflexivity.
Qed.

Lemma execute_arbitrage_both_placed :
  opt_truthy o1 = true -> opt_truthy o2 = true ->
  let x := execution_record opp self s1 s2 o1 o2 true None (clock env2) in
  execute_arbitrage create_order cancel_order opp (self, env) =
    (Ok x, (append_execution x (record_success profit self), tick env2)).
Proof.
  intros Ho1 Ho2. destruct leg_sizes as [Hz1 Hz2].
  destruct o1 as [id1 |]; [| discriminate]. cbn in Ho1.
  unfold execute_arbitrage, execute_frame, execute_legs.
  run_monad. rewrite Hstakes, Hprofit. run_monad. rewrite Hz1, Hleg1.
  run_monad. rewrite Ho1. run_monad. rewrite Hz2, Hleg2. run_monad.
  rewrite Ho2. reflexivity.
Qed.

End OneCall.

(** When the stake sizing or the profit computation raises, the call raises
    with the executor and the environment untouched. *)
Lemma execute_arbitrage_sizing_raises self (env : Env A Exchange) opp :
  (forall s1 s2 profit,
      calculate_stakes (opp_side1_price opp) (opp_side2_price opp)
        (bankroll self) = Ok (s1, s2) ->
      calculate_profit (opp_side1_price opp) (opp_side2_price opp) s1 s2
        <> Ok profit) ->
  execute_arbitrage create_order cancel_order opp (self, env) =
    (Raise ZeroDivisionError, (self, env)).
Proof.
  intros H. unfold execute_arbitrage, execute_frame. run_monad.
  destruct (calculate_stakes _ _ _) as [[s1 s2] | e] eqn:Es.
  - destruct (calculate_profit _ _ s1 s2) as [profit | e] eqn:Ep.
    + exfalso. exact (H _ _ _ eq_refl Ep).
    + unfold calculate_profit, py_div in Ep.
      destruct (neqb (opp_side1_price opp) lit_0);
        [inversion Ep; reflexivity |].
      destruct (neqb (opp_side2_price opp) lit_0);
        [inversion Ep; reflexivity | discriminate].
  - unfold calculate_stakes, py_div in Es.
    destruct (neqb _ lit_0); [inversion Es; reflexivity | discriminate].
Qed.

Lemma place_order_calls self token_id price stake (env : Env A Exchange)
    o env' :
  place_order create_order self token_id "BUY" price (ndiv stake price) env
    = (Ok o, env') ->
  (client self = None /\ o = None /\ env' = env) \/
  (client self <> None /\
   calls env' = calls env ++ [CreateOrder (buy_args token_id price stake)] /\
   clock env' = clock env).
Proof.
  intros H. destruct (client self) as [c |] eqn:Ec.
  - right. split; [discriminate |].
    rewrite place_order_with_client in H by (rewrite Ec; discriminate).
    inversion H; subst. split; reflexivity.
  - left. rewrite place_order_no_client in H by assumption.
    inversion H; subst. auto.
Qed.


(** The outcomes of one call. *)
Lemma execute_arbitrage_outcome (self : ArbitrageExecutor A)
    (env : Env A Exchange) (opp : ArbitrageOpportunity A) :
  execute_arbitrage create_order cancel_order opp (self, env)
    = (Raise ZeroDivisionError, (self, env)) \/
  exists x self1 env',
    execute_arbitrage create_order cancel_order opp (self, env)
      = (Ok x, (append_execution x self1, env')) /\
    consistent x /\
    ((success x = true /\ error x = None /\
      exists profit, self1 = record_success profit self) \/
     (success x = false /\ (exists msg, error x = Some msg) /\
      self1 = record_failure self)) /\
    (client self = None ->
     order1_id x = None /\ order2_id x = None /\ success x = false /\
     error x = Some "Failed to place order 1" /\ env' = tick env).
Proof.
  destruct (calculate_stakes (opp_side1_price opp) (opp_side2_price opp)
              (bankroll self)) as [[s1 s2] | e] eqn:Hs.
  2: { left. apply execute_arbitrage_sizing_raises. intros; congruence. }
  destruct (calculate_profit (opp_side1_price opp) (opp_side2_price opp) s1 s2)
    as [profit | e] eqn:Hp.
  2: { left. apply execute_arbitrage_sizing_raises. intros; congruence. }
  right.
  destruct (place_order_returns self (side1_token_id opp) "BUY"
              (opp_side1_price opp) (ndiv s1 (opp_side1_price opp)) env)
    as (o1 & env1 & H1).
  destruct (opt_truthy o1) eqn:T1.
  - pose proof (truthy_leg1_has_client _ _ _ _ H1 T1) as Hc.
    destruct (place_order_returns self (side2_token_id opp) "BUY"
                (opp_side2_price opp) (ndiv s2 (opp_side2_price opp)) env1)
      as (o2 & env2 & H2).
    destruct (opt_truthy o2) eqn:T2.
    + pose proof (execute_arbitrage_both_placed _ _ _ Hs Hp H1 H2 T1 T2) as E.
      cbv zeta in E. do 3 eexists. split; [exact E |].
      unfold consistent, execution_record;
        cbn [success error order1_id order2_id].
      split; [split; [tauto | auto] |].
      split; [left; eauto | intros; contradiction].
    + destruct o1 as [id1 |]; [| discriminate].
      pose proof (execute_arbitrage_leg2_failed _ _ _ Hs Hp H1 H2 eq_refl T1 T2)
        as E.
      cbv zeta in E. do 3 eexists. split; [exact E |].
      unfold consistent, execution_record;
        cbn [success error order1_id order2_id].
      split;
        [split; [split; [discriminate | intros [_ F]; congruence] | auto] |].
      split; [right; eauto | intros; contradiction].
  - pose proof (execute_arbitrage_leg1_failed _ _ _ Hs Hp H1 T1) as E.
    cbv zeta in E. do 3 eexists. split; [exact E |].
    unfold consistent, execution_record;
      cbn [success error order1_id order2_id].
    split; [split; [split; [discriminate | intros [F _]; congruence]
                   | intros F; congruence] |].
    split; [right; eauto |].
    intros Hc. rewrite (place_order_no_client _ _ _ _ _ _ Hc) in H1.
    inversion H1; subst. auto.
Qed.

Lemma execute_arbitrage_keeps_client (self : ArbitrageExecutor A)
    (env : Env A Exchange) (opp : ArbitrageOpportunity A) :
  client (fst (snd (execute_arbitrage create_order cancel_order opp
                      (self, env)))) = client self.
Proof.
  destruct (execute_arbitrage_outcome self env opp)
    as [E | (x & self1 & env' & E & _ & [(_ & _ & p & ->) | (_ & _ & ->)] & _)];
    rewrite E; reflexivity.
Qed.

(** With no client a call leaves the exchange and the record of client
    invocations as they are. *)
Lemma execute_arbitrage_disabled_env (self : ArbitrageExecutor A)
    (env : Env A Exchange) (opp : ArbitrageOpportunity A) :
  client self = None ->
  let env' := snd (snd (execute_arbitrage create_order cancel_order opp
                          (self, env))) in
  calls env' = calls env /\ exchange env' = exchange env.
Proof.
  intros Hc.
  destruct (execute_arbitrage_outcome self env opp)
    as [E | (x & self1 & env' & E & _ & _ & H)]; cbv zeta; rewrite E.
  - auto.
  - destruct (H Hc) as (_ & _ & _ & _ & ->). auto.
Qed.

Lemma execute_all_disabled (opps : list (ArbitrageOpportunity A))
    (self : ArbitrageExecutor A) (env : Env A Exchange) :
  client self = None ->
  let s := execute_all create_order cancel_order opps (self, env) in
  client (fst s) = None /\ calls (snd s) = calls env /\
  exchange (snd s) = exchange env.
Proof.
  revert self env. induction opps as [| opp rest IH]; intros self env Hc.
  - cbn. auto.
  - cbn [execute_all].
    destruct (execute_arbitrage create_order cancel_order opp (self, env))
      as [r [self1 env1]] eqn:E.
    pose proof (execute_arbitrage_keeps_client self env opp) as K.
    pose proof (execute_arbitrage_disabled_env self env opp Hc) as D.
    rewrite E in K, D. cbn in K, D. destruct D as [D1 D2].
    cbn [snd].
    destruct (IH self1 env1) as (I1 & I2 & I3); [congruence |].
    cbv zeta. rewrite I2, I3. auto.
Qed.

(** C8 (amended): when the trading client cannot be constructed the engine
    starts without one and no call ever gives it one; in that state, after
    any earlier calls, nothing has been sent to the exchange, and every call
    whose stake sizing does not raise returns a failed record (success=false,
    no order ids, the error "Failed to place order 1") without touching the
    exchange. *)
Theorem disabled_engine_short_circuits
    (ClobClient_new : string -> string -> Z -> result ClobClient)
    (key : string) (bankroll0 min_profit : A) (auto : bool) (chain : Z) :
  is_ok (ClobClient_new "https://clob.polymarket.com" key chain) = false ->
  let self0 :=
    ArbitrageExecutor_init ClobClient_new key bankroll0 min_profit auto chain in
  client self0 = None /\
  forall (earlier : list (ArbitrageOpportunity A)) (env0 : Env A Exchange),
    let self :=
      fst (execute_all create_order cancel_order earlier (self0, env0)) in
    let env :=
      snd (execute_all create_order cancel_order earlier (self0, env0)) in
    client self = None /\
    calls env = calls env0 /\ exchange env = exchange env0 /\
    forall (opp : ArbitrageOpportunity A) (s1 s2 profit : A),
      calculate_stakes (opp_side1_price opp) (opp_side2_price opp)
        (bankroll self) = Ok (s1, s2) ->
      calculate_profit (opp_side1_price opp) (opp_side2_price opp) s1 s2
        = Ok profit ->
      exists x,
        execute_arbitrage create_order cancel_order opp (self, env)
          = (Ok x, (append_execution x (record_failure self), tick env)) /\
        success x = false /\ order1_id x = None /\ order2_id x = None /\
        error x = Some "Failed to place order 1".
Proof.
  intros Hfail self0.
  assert (H0 : client self0 = None).
  { unfold self0, ArbitrageExecutor_init. cbn [client].
    destruct (ClobClient_new _ key chain); [discriminate | reflexivity]. }
  split; [exact H0 |].
  intros earlier env0 self env.
  destruct (execute_all_disabled earlier self0 env0 H0) as (I1 & I2 & I3).
  fold self in I1. fold env in I2, I3.
  repeat (split; [assumption |]).
  intros opp s1 s2 profit Hs Hp.
  pose proof (place_order_no_client self (side1_token_id opp)
                "BUY" (opp_side1_price opp) (ndiv s1 (opp_side1_price opp))
                env I1) as H1.
  pose proof (execute_arbitrage_leg1_failed _ _ _ Hs Hp H1 eq_refl) as E.
  cbv zeta in E. eexists. split; [exact E |].
  repeat split.
Qed.


End ExecutorFacts.

(** *** The engine on concrete inputs *)


(** The same run, computed: the client saw the two orders and one cancel of
    the first, and the record keeps the first id with success=false. *)
Example execute_arbitrage_leg2_refused :
  let r := execute_arbitrage scripted_create cancel_rejected
             (opportunity_of 0.49%float 0.48%float)
             (test_executor true, env_of [Ok (RespOrder "A"); Ok RespNone]) in
  match fst r with
  | Ok x =>
      order1_id x = Some "A" /\ order2_id x = None /\ success x = false /\
      error x = Some "Failed to place order 2"
  | Raise _ => False
  end /\
  map (fun c => match c with
                | CreateOrder args => ("create", oa_token_id args)
                | CancelOrder order_id => ("cancel", order_id)
                end) (calls (snd (snd r)))
    = [("create", "T1"); ("create", "T2"); ("cancel", "A")] /\
  failed_trades (fst (snd r)) = 1 /\ successful_trades (fst (snd r)) = 0.
Proof. vm_compute. repeat split. Qed.

(** Both legs placed: two orders for the same number of shares, no cancel,
    one successful trade. *)
Example execute_arbitrage_both_legs :
  let r := execute_arbitrage scripted_create cancel_rejected
             (opportunity_of (49 # 100)%Q (48 # 100)%Q)
             (test_executor true,
              env_of [Ok (RespOrder "A"); Ok (RespOrder "B")]) in
  match fst r with
  | Ok x =>
      order1_id x = Some "A" /\ order2_id x = Some "B" /\ success x = true /\
      error x = None /\
      Qeq_bool (stake1 x + stake2 x) 100 = true
  | Raise _ => False
  end /\
  map (fun c => match c with
                | CreateOrder args =>
                    ("create", oa_token_id args,
                     Qeq_bool (oa_size args) (10000 # 97))
                | CancelOrder order_id => ("cancel", order_id, false)
                end) (calls (snd (snd r)))
    = [("create", "T1", true); ("create", "T2", true)] /\
  successful_trades (fst (snd r)) = 1 /\ failed_trades (fst (snd r)) = 0 /\
  Qeq_bool (total_profit (fst (snd r))) (300 # 97) = true.
Proof. vm_compute. repeat split. Qed.


(** An engine whose client could not be constructed. *)
Lemma disabled_engine_short_circuits_witness :
  is_ok (client_unreachable "https://clob.polymarket.com" "0x00" 137%Z)
    = false /\
  client (ArbitrageExecutor_init (A := float) client_unreachable "0x00"
            100%float 1%float true 137%Z) = None.
Proof.
  split; [reflexivity |].
  exact (proj1 (disabled_engine_short_circuits (A := float)
                  scripted_create cancel_accepted client_unreachable
                  "0x00" 100%float 1%float true 137%Z eq_refl)).
Defined.

(** C8 as stated fails on an opportunity whose prices sum to zero: the
    disabled engine does not return a failed record, the call raises
    [ZeroDivisionError]. *)
Lemma disabled_engine_zero_price_counterexample :
  let self := ArbitrageExecutor_init (A := float) client_unreachable "0x00"
                100%float 1%float true 137%Z in
  client self = None /\
  execute_arbitrage scripted_create cancel_accepted
    (opportunity_of 0%float 0%float) (self, env_of [])
  = (Raise ZeroDivisionError, (self, env_of [])).
Proof. vm_compute. split; reflexivity. Qed.



(* ------------------------------------------------------------------ *)
(** ** The state store: how each operation moves the monitor *)

Section MonitorSteps.

Context {A : Type} {NumA : Number A}.
Variable Exchange : Type.
Variable create_order : OrderArgs A -> Exchange -> result Response * Exchange.
Variable cancel_order : string -> Exchange -> result unit * Exchange.

Local Abbreviation Mon := (OrderbookMonitor A).
Local Abbreviation MS := (MState A Exchange).

Section Rules.

Variable R : Mon -> Mon -> Prop.
Context {R_pre : PreOrder R}.

Lemma msteps_ret {U} (v : U) : msteps R (ret (S := MS) v).
Proof. intros s. cbn. reflexivity. Qed.

Lemma msteps_raise {U} (e : exn) : msteps R (raise (S := MS) (T := U) e).
Proof. intros s. cbn. reflexivity. Qed.

Lemma msteps_lift {U} (r : result U) : msteps R (lift (S := MS) r).
Proof. intros s. cbn. reflexivity. Qed.

Lemma msteps_read_mon {U} (g : Mon -> U) :
  msteps R (read_mon (Exchange := Exchange) g).
Proof. intros s. cbn. reflexivity. Qed.

Lemma msteps_in_menv {U} (m : M (Env A Exchange) U) : msteps R (in_menv m).
Proof.
  intros s. unfold in_menv. destruct (m (snd s)). cbn. reflexivity.
Qed.

Lemma msteps_bind {U V} (m : M MS U) (k : U -> M MS V) :
  msteps R m -> (forall v, msteps R (k v)) -> msteps R (bind m k).
Proof.
  intros Hm Hk s. unfold bind. specialize (Hm s).
  destruct (m s) as [[v | e] s1]; cbn in *.
  - etransitivity; [exact Hm | apply Hk].
  - exact Hm.
Qed.

Lemma msteps_try_except {U} (body : M MS U) (handler : exn -> M MS U) :
  msteps R body -> (forall e, msteps R (handler e)) ->
  msteps R (try_except body handler).
Proof.
  intros Hb Hh s. unfold try_except. specialize (Hb s).
  destruct (body s) as [[v | e] s1]; cbn in *.
  - exact Hb.
  - etransitivity; [exact Hb | apply Hh].
Qed.

Lemma msteps_for_each {X} (xs : list X) (body : X -> M MS unit) :
  (forall x, msteps R (body x)) -> msteps R (for_each xs body).
Proof.
  intros Hb. induction xs as [| x xs IH]; cbn [for_each].
  - apply msteps_ret.
  - apply msteps_bind; [apply Hb | intros _; exact IH].
Qed.

Lemma msteps_update_mon (g : Mon -> Mon) :
  (forall m, R m (g m)) -> msteps R (update_mon (Exchange := Exchange) g).
Proof. intros Hg s. cbn. apply Hg. Qed.

Lemma msteps_with_executor {U} (ex : ArbitrageExecutor A)
    (m : M (ArbitrageExecutor A * Env A Exchange) U) :
  (forall v mon, R mon (set_arbitrage_executor v mon)) ->
  msteps R (with_executor ex m).
Proof.
  intros Hg s. unfold with_executor.
  destruct (m (ex, snd s)) as [r [ex' e']]. cbn. apply Hg.
Qed.

End Rules.

End MonitorSteps.

#[local] Instance same_PreOrder {A T} (f : OrderbookMonitor A -> T)
  : PreOrder (same f).
Proof.
  split.
  - intros m. reflexivity.
  - intros m1 m2 m3 H1 H2. unfold same in *. congruence.
Qed.

(** Decompose a goal [msteps R m] along the structure of [m]. *)
Ltac msteps_go :=
  repeat first
    [ progress cbv zeta
    | match goal with
      | |- PreOrder _ => exact _
      | |- forall _, msteps _ _ => intros ?
      | |- msteps _ (ret _) => apply msteps_ret
      | |- msteps _ (raise _) => apply msteps_raise
      | |- msteps _ (lift _) => apply msteps_lift
      | |- msteps _ (read_mon _) => apply msteps_read_mon
      | |- msteps _ (in_menv _) => apply msteps_in_menv
      | |- msteps _ (bind _ _) => apply msteps_bind
      | |- msteps _ (try_except _ _) => apply msteps_try_except
      | |- msteps _ (for_each _ _) => apply msteps_for_each
      | |- msteps _ (if ?b then _ else _) => destruct b
      | |- msteps _ (match ?x with _ => _ end) => destruct x
      end ].

Ltac same_update H :=
  match goal with
  | |- msteps _ (update_mon _) =>
      apply msteps_update_mon; intros ?; unfold same; symmetry; apply H
  end.

Ltac ign := intros ? ?; reflexivity.

Section MonitorFrames.

Context {A : Type} {NumA : Number A}.
Variable Exchange : Type.
Variable create_order : OrderArgs A -> Exchange -> result Response * Exchange.
Variable cancel_order : string -> Exchange -> result unit * Exchange.

Local Abbreviation Mon := (OrderbookMonitor A).
Local Abbreviation MS := (MState A Exchange).

Section Frames.

Variable T : Type.
Variable f : Mon -> T.

Lemma log_same message level :
  ignores f (@set_logs A) ->
  msteps (same f) (log (Exchange := Exchange) message level).
Proof. intros H. unfold log. same_update H. Qed.

Lemma check_ath_same market_id market_name price size side :
  ignores f (@set_ath_records A) -> ignores f (@set_logs A) ->
  msteps (same f)
    (check_ath (Exchange := Exchange) market_id market_name price size side).
Proof.
  intros H1 H2. unfold check_ath.
  msteps_go; first [same_update H1 | apply log_same, H2].
Qed.

Lemma check_atl_same market_id market_name price size side :
  ignores f (@set_atl_records A) -> ignores f (@set_logs A) ->
  msteps (same f)
    (check_atl (Exchange := Exchange) market_id market_name price size side).
Proof.
  intros H1 H2. unfold check_atl.
  msteps_go; first [same_update H1 | apply log_same, H2].
Qed.

Lemma store_snapshot_same k snapshot :
  ignores f (@set_current_snapshots A) -> ignores f (@set_orderbook_data A) ->
  msteps (same f) (store_snapshot (Exchange := Exchange) k snapshot).
Proof.
  intros H1 H2. unfold store_snapshot.
  msteps_go; first [same_update H1 | same_update H2].
Qed.

Lemma monitor_execute_arbitrage_same event_name market_type
    side1_name side1_price side1_market side2_name side2_price side2_market
    total :
  ignores f (@set_logs A) -> ignores f (@set_arbitrage_executor A) ->
  msteps (same f)
    (monitor_execute_arbitrage create_order cancel_order event_name
       market_type side1_name side1_price side1_market
       side2_name side2_price side2_market total).
Proof.
  intros H1 H2. unfold monitor_execute_arbitrage.
  msteps_go;
    first [ apply log_same, H1
          | apply msteps_with_executor;
            intros ? ?; unfold same; symmetry; apply H2 ].
Qed.

Lemma scan_group_same event_name market_type outcomes :
  ignores f (@set_total_records A) -> ignores f (@set_last_totals A) ->
  ignores f (@set_best_matches A) -> ignores f (@set_logs A) ->
  ignores f (@set_arbitrage_executor A) ->
  msteps (same f)
    (scan_group create_order cancel_order event_name market_type outcomes).
Proof.
  intros H1 H2 H3 H4 H5. unfold scan_group.
  msteps_go;
    first [ same_update H1 | same_update H2 | same_update H3
          | apply log_same, H4
          | apply monitor_execute_arbitrage_same; assumption ].
Qed.

Lemma check_best_matches_same :
  ignores f (@set_total_records A) -> ignores f (@set_last_totals A) ->
  ignores f (@set_best_matches A) -> ignores f (@set_logs A) ->
  ignores f (@set_arbitrage_executor A) ->
  msteps (same f) (check_best_matches create_order cancel_order).
Proof.
  intros H1 H2 H3 H4 H5. unfold check_best_matches, scan_groups.
  msteps_go;
    first [apply scan_group_same; assumption | apply log_same, H4].
Qed.

Lemma check_extremes_same k market_name snapshot :
  ignores f (@set_ath_records A) -> ignores f (@set_atl_records A) ->
  ignores f (@set_logs A) ->
  msteps (same f)
    (check_extremes (Exchange := Exchange) k market_name snapshot).
Proof.
  intros H1 H2 H3. unfold check_extremes.
  msteps_go;
    first [ apply check_ath_same; assumption
          | apply check_atl_same; assumption ].
Qed.

(** What a handler leaves in [f] when its [except] clause only logs. *)
Lemma try_except_after {U} (body : M MS U) (handler : exn -> M MS U) s :
  (forall e, msteps (same f) (handler e)) ->
  f (fst (snd (try_except body handler s))) = f (fst (snd (body s))).
Proof.
  intros Hh. unfold try_except.
  destruct (body s) as [[v | e] s1]; cbn; [reflexivity |].
  symmetry. apply Hh.
Qed.

Lemma bind_after {U V} (m : M MS U) (k : U -> M MS V) s v s1 :
  m s = (Ok v, s1) -> msteps (same f) (k v) ->
  f (fst (snd (bind m k s))) = f (fst s1).
Proof.
  intros Hm Hk. unfold bind. rewrite Hm. symmetry. apply Hk.
Qed.

End Frames.

Lemma msteps_weaken {U} (R R' : Mon -> Mon -> Prop) (m : M MS U) :
  (forall a b, R a b -> R' a b) -> msteps R m -> msteps R' m.
Proof. intros H Hm s. apply H, Hm. Qed.

(** *** Extremes: what one check does, in any arithmetic *)

Lemma check_ath_effect market_id market_name price size side (s : MS) :
  let key := (market_id ++ "_" ++ side)%string in
  let fresh := new_ath market_id market_name price size (clock (snd s)) side in
  ath_records (fst (snd (check_ath market_id market_name price size side s)))
  = match dict_get key (ath_records (fst s)) with
    | None => dict_set key fresh (ath_records (fst s))
    | Some r =>
        if ngtb price (ath_price r)
        then dict_set key fresh (ath_records (fst s))
        else ath_records (fst s)
    end.
Proof.
  cbv zeta. unfold check_ath, bind at 1. unfold read_mon at 1, gets.
  cbn [fst snd].
  destruct (dict_get _ (ath_records (fst s))) as [r |];
    [destruct (ngtb price (ath_price r)) |]; reflexivity.
Qed.

Lemma check_atl_effect market_id market_name price size side (s : MS) :
  let key := (market_id ++ "_" ++ side)%string in
  let fresh := new_atl market_id market_name price size (clock (snd s)) side in
  atl_records (fst (snd (check_atl market_id market_name price size side s)))
  = match dict_get key (atl_records (fst s)) with
    | None => dict_set key fresh (atl_records (fst s))
    | Some r =>
        if nltb price (atl_price r)
        then dict_set key fresh (atl_records (fst s))
        else atl_records (fst s)
    end.
Proof.
  cbv zeta. unfold check_atl, bind at 1. unfold read_mon at 1, gets.
  cbn [fst snd].
  destruct (dict_get _ (atl_records (fst s))) as [r |];
    [destruct (nltb price (atl_price r)) |]; reflexivity.
Qed.

(** *** Ingestion *)

Lemma store_snapshot_eq k snapshot (s : MS) :
  store_snapshot k snapshot s = (Ok tt, (stored k snapshot (fst s), snd s)).
Proof. reflexivity. Qed.

Lemma process_orderbook_data_store token_id market_name (data : Book A)
    (s : MS) bid0 bids' ask0 asks' :
  bids data = bid0 :: bids' -> asks data = ask0 :: asks' ->
  let snapshot := make_snapshot (clock (snd s)) token_id market_name bid0
                    (min_by_price ask0 asks') in
  store_fields (fst (snd (process_orderbook_data token_id market_name data s)))
  = store_fields (stored token_id snapshot (fst s)).
Proof.
  intros Hb Ha snapshot. unfold process_orderbook_data.
  rewrite try_except_after by (intros e; apply log_same; ign).
  rewrite Hb, Ha.
  unfold bind at 1. unfold in_menv at 1. cbn [time_time fst snd].
  erewrite bind_after; [| apply store_snapshot_eq |]; [reflexivity |].
  msteps_go;
    first [apply check_extremes_same; ign | apply log_same; ign].
Qed.

Lemma process_book_message_store (data : Book A) (s : MS)
    asset bid0 bids' ask0 asks' :
  asset_id data = Some asset -> str_truthy asset = true ->
  bids data = bid0 :: bids' -> asks data = ask0 :: asks' ->
  let market_name := dict_get_default "Unknown" asset
                       (token_to_market (fst s)) in
  let snapshot := make_snapshot (S (clock (snd s))) asset market_name bid0
                    (min_by_price ask0 asks') in
  store_fields
    (fst (snd (process_book_message create_order cancel_order data s)))
  = store_fields (stored asset snapshot (fst s)).
Proof.
  intros Hid Ht Hb Ha market_name snapshot. unfold process_book_message.
  rewrite try_except_after by (intros e; apply log_same; ign).
  rewrite Hid, Ht, Hb, Ha. cbn [negb].
  unfold bind at 1. unfold in_menv at 1. cbn [time_time fst snd].
  unfold bind at 1. unfold read_mon at 1, gets. cbn [fst snd].
  unfold bind at 1. unfold in_menv at 1. cbn [time_time fst snd clock].
  erewrite bind_after; [| apply store_snapshot_eq |]; [reflexivity |].
  msteps_go;
    first [ apply check_extremes_same; ign
          | apply check_best_matches_same; ign
          | apply log_same; ign
          | apply msteps_update_mon; intros ?; reflexivity ].
Qed.

(** *** The history of an instrument *)

Lemma lastn_length {T} (n : nat) (l : list T) :
  List.length (lastn n l) = Nat.min n (List.length l).
Proof. unfold lastn. rewrite length_skipn. lia. Qed.

Lemma deque_append_lastn {T} (cap : nat) (x : T) (q : list T) :
  List.length q <= cap -> deque_append cap x q = lastn cap (q ++ [x]).
Proof.
  intros Hq. unfold deque_append, lastn. rewrite length_app. cbn [List.length].
  destruct (Nat.ltb cap (List.length q + 1)) eqn:E.
  - apply Nat.ltb_lt in E.
    replace (List.length q + 1 - cap) with 1 by lia. reflexivity.
  - apply Nat.ltb_ge in E.
    replace (List.length q + 1 - cap) with 0 by lia. reflexivity.
Qed.

Lemma lastn_app_lastn {T} (n : nat) (a b : list T) :
  lastn n (lastn n a ++ b) = lastn n (a ++ b).
Proof.
  unfold lastn at 1 3. rewrite !length_app, lastn_length.
  rewrite !skipn_app, lastn_length. unfold lastn. rewrite skipn_skipn.
  f_equal; f_equal; lia.
Qed.

Lemma lastn_all {T} (n : nat) (l : list T) :
  List.length l <= n -> lastn n l = l.
Proof.
  intros H. unfold lastn. replace (List.length l - n) with 0 by lia.
  reflexivity.
Qed.

Lemma push_all_lastn {T} (cap : nat) (xs q : list T) :
  List.length q <= cap -> push_all cap q xs = lastn cap (q ++ xs).
Proof.
  revert q. induction xs as [| x xs IH]; intros q Hq; cbn.
  - rewrite app_nil_r. symmetry. apply lastn_all, Hq.
  - unfold push_all in IH. rewrite IH.
    + rewrite deque_append_lastn by exact Hq.
      rewrite lastn_app_lastn, <- app_assoc. reflexivity.
    + rewrite deque_append_lastn by exact Hq. rewrite lastn_length. lia.
Qed.

Lemma push_all_app {T} (cap : nat) (q xs ys : list T) :
  push_all cap q (xs ++ ys) = push_all cap (push_all cap q xs) ys.
Proof. unfold push_all. apply fold_left_app. Qed.

Lemma dict_get_set_eq {V} (k : string) (v : V) (d : dict V) :
  dict_get k (dict_set k v d) = Some v.
Proof.
  induction d as [| [k' v'] d IH]; cbn.
  - rewrite String.eqb_refl. reflexivity.
  - destruct (String.eqb k k') eqn:E; cbn.
    + rewrite String.eqb_refl. reflexivity.
    + rewrite E. exact IH.
Qed.

Lemma dict_get_set_neq {V} (k k' : string) (v : V) (d : dict V) :
  String.eqb k k' = false -> dict_get k (dict_set k' v d) = dict_get k d.
Proof.
  intros Hk. induction d as [| [k2 v2] d IH]; cbn.
  - rewrite Hk. reflexivity.
  - destruct (String.eqb k' k2) eqn:E; cbn.
    + apply String.eqb_eq in E. subst k2. rewrite Hk. reflexivity.
    + destruct (String.eqb k k2); [reflexivity | exact IH].
Qed.

Lemma history_stored k k' snapshot (m : Mon) :
  history k (stored k' snapshot m) =
    if String.eqb k k'
    then deque_append MAX_ORDERBOOK_HISTORY snapshot (history k m)
    else history k m.
Proof.
  unfold history, stored, dict_get_default.
  cbn [orderbook_data set_orderbook_data].
  destruct (String.eqb k k') eqn:E.
  - apply String.eqb_eq in E. subst k'. rewrite dict_get_set_eq. reflexivity.
  - rewrite dict_get_set_neq by exact E. reflexivity.
Qed.

Lemma process_book_message_skipped (data : Book A) (s : MS) :
  stream_ingested data s = None ->
  process_book_message create_order cancel_order data s
    = (Ok tt, (fst s, tick (snd s))).
Proof.
  unfold stream_ingested, book_snapshot, process_book_message.
  intros H. unfold try_except, bind at 1. unfold in_menv at 1.
  cbn [time_time fst snd].
  destruct (asset_id data) as [asset |]; [| reflexivity].
  destruct (str_truthy asset); [| reflexivity].
  cbn [negb]. unfold bind at 1. unfold read_mon at 1, gets. cbn [fst snd].
  destruct (bids data) as [| bid0 bids']; [reflexivity |].
  destruct (asks data) as [| ask0 asks']; [reflexivity | discriminate].
Qed.

Lemma process_orderbook_data_skipped token_id market_name (data : Book A)
    (s : MS) :
  polled_ingested token_id market_name data s = None ->
  process_orderbook_data token_id market_name data s = (Ok tt, s).
Proof.
  unfold polled_ingested, book_snapshot, process_orderbook_data.
  intros H. unfold try_except.
  destruct (bids data) as [| bid0 bids']; [destruct s; reflexivity |].
  destruct (asks data) as [| ask0 asks'];
    [destruct s; reflexivity | discriminate].
Qed.

Lemma process_book_message_history k (data : Book A) (s : MS) :
  history k (fst (snd (process_book_message create_order cancel_order data s)))
  = push_all MAX_ORDERBOOK_HISTORY (history k (fst s))
      (for_instrument k (stream_ingested data s)).
Proof.
  destruct (stream_ingested data s) as [[k' snapshot] |] eqn:E.
  - unfold stream_ingested, book_snapshot in E.
    destruct (asset_id data) as [asset |] eqn:Hid; [| discriminate].
    destruct (str_truthy asset) eqn:Ht; [| discriminate].
    destruct (bids data) as [| bid0 bids'] eqn:Hb; [discriminate |].
    destruct (asks data) as [| ask0 asks'] eqn:Ha; [discriminate |].
    cbn in E. inversion E; subst k' snapshot; clear E.
    pose proof (process_book_message_store data s Hid Ht Hb Ha) as P.
    cbv zeta in P. apply (f_equal snd) in P. cbn [store_fields snd] in P.
    unfold history at 1. rewrite P. fold (history k (stored asset
      (make_snapshot (S (clock (snd s))) asset
         (dict_get_default "Unknown" asset (token_to_market (fst s)))
         bid0 (min_by_price ask0 asks')) (fst s))).
    rewrite history_stored. cbn [for_instrument].
    destruct (String.eqb k asset); reflexivity.
  - rewrite (process_book_message_skipped _ _ E). reflexivity.
Qed.

Lemma process_orderbook_data_history k token_id market_name (data : Book A)
    (s : MS) :
  history k (fst (snd (process_orderbook_data token_id market_name data s)))
  = push_all MAX_ORDERBOOK_HISTORY (history k (fst s))
      (for_instrument k (polled_ingested token_id market_name data s)).
Proof.
  destruct (polled_ingested token_id market_name data s)
    as [[k' snapshot] |] eqn:E.
  - unfold polled_ingested, book_snapshot in E.
    destruct (bids data) as [| bid0 bids'] eqn:Hb; [discriminate |].
    destruct (asks data) as [| ask0 asks'] eqn:Ha; [discriminate |].
    cbn in E. inversion E; subst k' snapshot; clear E.
    pose proof (process_orderbook_data_store token_id market_name data s Hb Ha)
      as P.
    cbv zeta in P. apply (f_equal snd) in P. cbn [store_fields snd] in P.
    unfold history at 1. rewrite P. fold (history k (stored token_id
      (make_snapshot (clock (snd s)) token_id market_name bid0
         (min_by_price ask0 asks')) (fst s))).
    rewrite history_stored. cbn [for_instrument].
    destruct (String.eqb k token_id); reflexivity.
  - rewrite (process_orderbook_data_skipped _ _ _ _ E). reflexivity.
Qed.

Lemma log_eq message level (s : MS) :
  log message level s =
    (Ok tt,
     (set_logs (deque_append MAX_LOG_ENTRIES
                  {| log_level := level; log_message := message |}
                  (logs (fst s))) (fst s), snd s)).
Proof. reflexivity. Qed.

Lemma process_book_message_returns (data : Book A) (s : MS) :
  fst (process_book_message create_order cancel_order data s) = Ok tt.
Proof.
  unfold process_book_message, try_except.
  match goal with |- context [match ?b s with _ => _ end] =>
    destruct (b s) as [[[] | e] s1] end; reflexivity.
Qed.

Lemma for_each_books_history k (books : list (Book A)) (s : MS) :
  fst (for_each books (process_book_message create_order cancel_order) s)
    = Ok tt /\
  history k (fst (snd (for_each books
                         (process_book_message create_order cancel_order) s)))
  = push_all MAX_ORDERBOOK_HISTORY (history k (fst s))
      (burst_arrivals create_order cancel_order k books s).
Proof.
  revert s. induction books as [| book books IH]; intros s.
  - cbn. auto.
  - cbn [for_each burst_arrivals]. unfold bind.
    pose proof (process_book_message_returns book s) as R.
    pose proof (process_book_message_history k book s) as H.
    destruct (process_book_message create_order cancel_order book s)
      as [r s1]. cbn [fst snd] in *. subst r.
    destruct (IH s1) as [I1 I2]. split; [exact I1 |].
    rewrite I2, H, push_all_app. reflexivity.
Qed.

Lemma handle_history k (ev : Event A) (s : MS) :
  history k (fst (snd (handle create_order cancel_order ev s)))
  = push_all MAX_ORDERBOOK_HISTORY (history k (fst s))
      (event_arrivals create_order cancel_order k ev s).
Proof.
  destruct ev as [[books | | book |] | token_id market_name data];
    cbn [handle event_arrivals].
  - unfold process_websocket_message, try_except, bind.
    rewrite log_eq.
    destruct (for_each_books_history k books
                (set_logs (deque_append MAX_LOG_ENTRIES
                   {| log_level := INFO;
                      log_message := MsgInitialBooks (List.length books) |}
                   (logs (fst s))) (fst s), snd s)) as [I1 I2].
    destruct (for_each books _ _) as [r s1]. cbn [fst snd] in *. subst r.
    cbn [fst snd]. exact I2.
  - reflexivity.
  - unfold process_websocket_message, try_except.
    pose proof (process_book_message_returns book s) as R.
    pose proof (process_book_message_history k book s) as H.
    destruct (process_book_message create_order cancel_order book s)
      as [r s1]. cbn [fst snd] in *. subst r. exact H.
  - reflexivity.
  - apply process_orderbook_data_history.
Qed.

Lemma run_history k (evs : list (Event A)) (s : MS) :
  history k (fst (run create_order cancel_order evs s))
  = push_all MAX_ORDERBOOK_HISTORY (history k (fst s))
      (arrivals create_order cancel_order k evs s).
Proof.
  revert s. induction evs as [| ev evs IH]; intros s; cbn [run arrivals].
  - reflexivity.
  - rewrite IH, handle_history, push_all_app. reflexivity.
Qed.

Lemma process_orderbook_data_returns token_id market_name (data : Book A)
    (s : MS) :
  fst (process_orderbook_data token_id market_name data s) = Ok tt.
Proof.
  unfold process_orderbook_data, try_except.
  match goal with |- context [match ?b s with _ => _ end] =>
    destruct (b s) as [[[] | e] s1] end; reflexivity.
Qed.

(** No handler lets an exception through. *)
Lemma handle_returns (ev : Event A) (s : MS) :
  fst (handle create_order cancel_order ev s) = Ok tt.
Proof.
  destruct ev as [data | token_id market_name data]; cbn [handle].
  - unfold process_websocket_message, try_except.
    match goal with |- context [match ?b s with _ => _ end] =>
      destruct (b s) as [[[] | e] s1] end; reflexivity.
  - apply process_orderbook_data_returns.
Qed.

(** What is counted as an arrival is the snapshot that becomes the current
    one of its instrument. *)
Lemma ingested_becomes_current (data : Book A) (s : MS) k snapshot :
  (stream_ingested data s = Some (k, snapshot) ->
   dict_get k
     (current_snapshots
        (fst (snd (process_book_message create_order cancel_order data s))))
   = Some snapshot) /\
  (forall token_id market_name,
      polled_ingested token_id market_name data s = Some (k, snapshot) ->
      dict_get k
        (current_snapshots
           (fst (snd (process_orderbook_data token_id market_name data s))))
      = Some snapshot).
Proof.
  split.
  - unfold stream_ingested, book_snapshot. intros E.
    destruct (asset_id data) as [asset |] eqn:Hid; [| discriminate].
    destruct (str_truthy asset) eqn:Ht; [| discriminate].
    destruct (bids data) as [| bid0 bids'] eqn:Hb; [discriminate |].
    destruct (asks data) as [| ask0 asks'] eqn:Ha; [discriminate |].
    cbn in E. inversion E; subst k snapshot; clear E.
    pose proof (process_book_message_store data s Hid Ht Hb Ha) as P.
    cbv zeta in P. apply (f_equal fst) in P. cbn [store_fields fst] in P.
    rewrite P. apply dict_get_set_eq.
  - unfold polled_ingested, book_snapshot. intros token_id market_name E.
    destruct (bids data) as [| bid0 bids'] eqn:Hb; [discriminate |].
    destruct (asks data) as [| ask0 asks'] eqn:Ha; [discriminate |].
    cbn in E. inversion E; subst k snapshot; clear E.
    pose proof (process_orderbook_data_store token_id market_name data s Hb Ha)
      as P.
    cbv zeta in P. apply (f_equal fst) in P. cbn [store_fields fst] in P.
    rewrite P. apply dict_get_set_eq.
Qed.

(** C7: the history of every instrument is the last MAX_ORDERBOOK_HISTORY
    of the snapshots ingested for it, in arrival order.  One [append]
    keeps the newest [cap] elements; along any sequence of events a history
    within the capacity stays within it and becomes the last [capacity]
    elements of the old history followed by the arrivals; and starting from
    the empty store, once capacity + j snapshots have been ingested for an
    instrument its history has length exactly the capacity and is the
    arrivals without the j oldest. *)
Theorem history_ring_buffer :
  (forall (T : Type) (cap : nat) (x : T) (q : list T),
      List.length q <= cap ->
      deque_append cap x q = lastn cap (q ++ [x]) /\
      List.length (deque_append cap x q) <= cap) /\
  (forall (k : string) (evs : list (Event A)) (s : MS),
      List.length (history k (fst s)) <= MAX_ORDERBOOK_HISTORY ->
      history k (fst (run create_order cancel_order evs s))
        = lastn MAX_ORDERBOOK_HISTORY
            (history k (fst s) ++ arrivals create_order cancel_order k evs s)
      /\
      List.length (history k (fst (run create_order cancel_order evs s)))
        <= MAX_ORDERBOOK_HISTORY) /\
  (forall (k : string) (evs : list (Event A))
          (executor : option (ArbitrageExecutor A)) (env : Env A Exchange)
          (j : nat),
      let s0 := (OrderbookMonitor_init executor, env) in
      List.length (arrivals create_order cancel_order k evs s0)
        = MAX_ORDERBOOK_HISTORY + j ->
      history k (fst (run create_order cancel_order evs s0))
        = skipn j (arrivals create_order cancel_order k evs s0) /\
      List.length (history k (fst (run create_order cancel_order evs s0)))
        = MAX_ORDERBOOK_HISTORY).
Proof.
  split; [| split].
  - intros T cap x q Hq. rewrite deque_append_lastn by exact Hq.
    split; [reflexivity |]. rewrite lastn_length. lia.
  - intros k evs s Hs. rewrite run_history, push_all_lastn by exact Hs.
    split; [reflexivity |]. rewrite lastn_length. lia.
  - intros k evs executor env j s0 Hn.
    rewrite run_history.
    assert (H0 : history k (fst s0) = []) by reflexivity.
    rewrite H0, push_all_lastn by (cbn; lia). cbn [app].
    rewrite lastn_length. unfold lastn. rewrite Hn.
    replace (MAX_ORDERBOOK_HISTORY + j - MAX_ORDERBOOK_HISTORY) with j by lia.
    split; [reflexivity | lia].
Qed.

(** *** Detection: one group *)

Lemma scan_group_not_pair event_name market_type (outcomes : list (Outcome A))
    (s : MS) :
  List.length outcomes <> 2 ->
  scan_group create_order cancel_order event_name market_type outcomes s
    = (Ok tt, s).
Proof.
  intros H. destruct s as [m e].
  destruct outcomes as [| a [| b [| c rest]]]; cbn in H; try reflexivity.
  contradiction.
Qed.



(** *** Detection: a whole scan *)








(** *** Best prices and the empty-side skip *)

(** Both paths store, for non-empty lists, the snapshot whose best bid is the
    price of the FIRST bid entry and whose best ask is the price of
    [min_by_price] of the asks. *)
Lemma ingested_best_prices (data : Book A) (s : MS) bid0 bids' ask0 asks' :
  bids data = bid0 :: bids' -> asks data = ask0 :: asks' ->
  (forall token_id market_name,
      exists snapshot,
        dict_get token_id
          (current_snapshots
             (fst (snd (process_orderbook_data token_id market_name data s))))
          = Some snapshot /\
        best_bid snapshot = lv_price bid0 /\
        best_ask snapshot = lv_price (min_by_price ask0 asks')) /\
  (forall asset,
      asset_id data = Some asset -> str_truthy asset = true ->
      exists snapshot,
        dict_get asset
          (current_snapshots
             (fst (snd (process_book_message create_order cancel_order
                          data s))))
          = Some snapshot /\
        best_bid snapshot = lv_price bid0 /\
        best_ask snapshot = lv_price (min_by_price ask0 asks')).
Proof.
  intros Hb Ha. split.
  - intros token_id market_name.
    pose proof (process_orderbook_data_store token_id market_name data s Hb Ha)
      as P.
    cbv zeta in P. apply (f_equal fst) in P. cbn [store_fields fst] in P.
    rewrite P. cbn [stored current_snapshots set_orderbook_data
                    set_current_snapshots].
    rewrite dict_get_set_eq. eexists. split; [reflexivity |].
    split; reflexivity.
  - intros asset Hid Ht.
    pose proof (process_book_message_store data s Hid Ht Hb Ha) as P.
    cbv zeta in P. apply (f_equal fst) in P. cbn [store_fields fst] in P.
    rewrite P. cbn [stored current_snapshots set_orderbook_data
                    set_current_snapshots].
    rewrite dict_get_set_eq. eexists. split; [reflexivity |].
    split; reflexivity.
Qed.

Lemma empty_side_not_ingested (data : Book A) (s : MS) token_id market_name :
  bids data = [] \/ asks data = [] ->
  stream_ingested data s = None /\
  polled_ingested token_id market_name data s = None.
Proof.
  intros H. unfold stream_ingested, polled_ingested, book_snapshot.
  destruct (asset_id data) as [asset |]; [destruct (str_truthy asset) |];
    destruct H as [-> | ->]; destruct (bids data); split; reflexivity.
Qed.

(** C10: an order-book object with an empty bid list or an empty ask list
    leaves the monitor exactly as it was, on the streaming path (where only
    the clock has been read) and on the polling path (where nothing at all
    changes). *)
Theorem empty_side_skip (data : Book A) (token_id market_name : string)
    (s : MS) :
  bids data = [] \/ asks data = [] ->
  process_book_message create_order cancel_order data s
    = (Ok tt, (fst s, tick (snd s))) /\
  process_websocket_message create_order cancel_order (WsBook data) s
    = (Ok tt, (fst s, tick (snd s))) /\
  process_orderbook_data token_id market_name data s = (Ok tt, s).
Proof.
  intros H.
  destruct (empty_side_not_ingested data s token_id market_name H) as [E1 E2].
  pose proof (process_book_message_skipped data s E1) as P.
  split; [exact P |]. split.
  - unfold process_websocket_message, try_except. rewrite P. reflexivity.
  - apply process_orderbook_data_skipped. exact E2.
Qed.

End MonitorFrames.

(* ------------------------------------------------------------------ *)
(** ** Extremes over exact prices *)

Section Extremes.

Variable Exchange : Type.
Variable create_order : OrderArgs Q -> Exchange -> result Response * Exchange.
Variable cancel_order : string -> Exchange -> result unit * Exchange.

Local Abbreviation Mon := (OrderbookMonitor Q).
Local Abbreviation MS := (MState Q Exchange).

#[local] Instance ath_grows_PreOrder : PreOrder ath_grows.
Proof.
  split.
  - intros m key r H. exists r. split; [exact H | apply Qle_refl].
  - intros m1 m2 m3 H12 H23 key r H.
    destruct (H12 key r H) as (r2 & H2 & L2).
    destruct (H23 key r2 H2) as (r3 & H3 & L3).
    exists r3. split; [exact H3 | eapply Qle_trans; eassumption].
Qed.

#[local] Instance atl_falls_PreOrder : PreOrder atl_falls.
Proof.
  split.
  - intros m key r H. exists r. split; [exact H | apply Qle_refl].
  - intros m1 m2 m3 H12 H23 key r H.
    destruct (H12 key r H) as (r2 & H2 & L2).
    destruct (H23 key r2 H2) as (r3 & H3 & L3).
    exists r3. split; [exact H3 | eapply Qle_trans; eassumption].
Qed.

Lemma Qltb_lt (x y : Q) : Qltb x y = true <-> (x < y)%Q.
Proof.
  unfold Qltb. rewrite negb_true_iff. split.
  - intros H. apply Qnot_le_lt. intros L.
    apply Qle_bool_iff in L. congruence.
  - intros H. destruct (Qle_bool y x) eqn:E; [| reflexivity].
    apply Qle_bool_iff in E. exfalso. exact (Qlt_not_le _ _ H E).
Qed.

(** [min_by_price] returns an entry of the list of least price. *)
Lemma min_by_price_least (best : Level Q) (rest : list (Level Q)) :
  In (min_by_price best rest) (best :: rest) /\
  forall x, In x (best :: rest) ->
            (lv_price (min_by_price best rest) <= lv_price x)%Q.
Proof.
  revert best. induction rest as [| y rest IH]; intros best; cbn [min_by_price].
  - split; [left; reflexivity |].
    intros x [<- | []]. apply Qle_refl.
  - destruct (nltb (lv_price y) (lv_price best)) eqn:E.
    + destruct (IH y) as [I1 I2]. split; [right; exact I1 |].
      intros x [<- | Hx]; [| apply I2; exact Hx].
      apply Qle_trans with (lv_price y); [apply I2; left; reflexivity |].
      apply Qlt_le_weak, Qltb_lt. exact E.
    + destruct (IH best) as [I1 I2]. split.
      * destruct I1 as [I1 | I1]; [left; exact I1 | right; right; exact I1].
      * intros x [<- | [<- | Hx]].
        -- apply I2. left. reflexivity.
        -- apply Qle_trans with (lv_price best);
             [apply I2; left; reflexivity |].
           apply Qnot_lt_le. intros L. apply Qltb_lt in L.
           cbn [nltb Number_Q] in E. congruence.
        -- apply I2. right. exact Hx.
Qed.

Lemma same_ath_grows (a b : Mon) : same (@ath_records Q) a b -> ath_grows a b.
Proof.
  unfold same. intros E key r H. exists r. rewrite <- E.
  split; [exact H | apply Qle_refl].
Qed.

Lemma same_atl_falls (a b : Mon) : same (@atl_records Q) a b -> atl_falls a b.
Proof.
  unfold same. intros E key r H. exists r. rewrite <- E.
  split; [exact H | apply Qle_refl].
Qed.

Lemma check_ath_grows market_id market_name price size side :
  msteps ath_grows
    (check_ath (Exchange := Exchange) market_id market_name price size side).
Proof.
  intros s key r H. rewrite check_ath_effect. cbv zeta.
  destruct (dict_get (market_id ++ "_" ++ side) (ath_records (fst s)))
    as [r0 |] eqn:E0.
  - destruct (ngtb price (ath_price r0)) eqn:G.
    + destruct (String.eqb key (market_id ++ "_" ++ side)) eqn:K.
      * apply String.eqb_eq in K. subst key.
        rewrite dict_get_set_eq. eexists. split; [reflexivity |].
        cbn [ath_price new_ath]. rewrite E0 in H. inversion H; subst r0.
        apply Qlt_le_weak, Qltb_lt. exact G.
      * rewrite dict_get_set_neq by exact K.
        exists r. split; [exact H | apply Qle_refl].
    + exists r. split; [exact H | apply Qle_refl].
  - destruct (String.eqb key (market_id ++ "_" ++ side)) eqn:K.
    + apply String.eqb_eq in K. subst key. congruence.
    + rewrite dict_get_set_neq by exact K.
      exists r. split; [exact H | apply Qle_refl].
Qed.

Lemma check_atl_falls market_id market_name price size side :
  msteps atl_falls
    (check_atl (Exchange := Exchange) market_id market_name price size side).
Proof.
  intros s key r H. rewrite check_atl_effect. cbv zeta.
  destruct (dict_get (market_id ++ "_" ++ side) (atl_records (fst s)))
    as [r0 |] eqn:E0.
  - destruct (nltb price (atl_price r0)) eqn:G.
    + destruct (String.eqb key (market_id ++ "_" ++ side)) eqn:K.
      * apply String.eqb_eq in K. subst key.
        rewrite dict_get_set_eq. eexists. split; [reflexivity |].
        cbn [atl_price new_atl]. rewrite E0 in H. inversion H; subst r0.
        apply Qlt_le_weak, Qltb_lt. exact G.
      * rewrite dict_get_set_neq by exact K.
        exists r. split; [exact H | apply Qle_refl].
    + exists r. split; [exact H | apply Qle_refl].
  - destruct (String.eqb key (market_id ++ "_" ++ side)) eqn:K.
    + apply String.eqb_eq in K. subst key. congruence.
    + rewrite dict_get_set_neq by exact K.
      exists r. split; [exact H | apply Qle_refl].
Qed.

(** A step that is not one of the two checks leaves the extremes alone. *)
Ltac other_step :=
  first [ apply log_same; ign
        | apply check_ath_same; ign
        | apply check_atl_same; ign
        | apply store_snapshot_same; ign
        | apply check_best_matches_same; ign
        | apply msteps_update_mon; intros ?; reflexivity ].

Ltac extremes_leaf :=
  first [ apply check_ath_grows
        | apply check_atl_falls
        | eapply msteps_weaken; [exact same_ath_grows |]; other_step
        | eapply msteps_weaken; [exact same_atl_falls |]; other_step ].

Lemma process_book_message_extremes (data : Book Q) :
  msteps ath_grows (process_book_message create_order cancel_order data) /\
  msteps atl_falls (process_book_message create_order cancel_order data).
Proof.
  split; unfold process_book_message, check_extremes;
    msteps_go; extremes_leaf.
Qed.

Lemma handle_extremes (ev : Event Q) :
  msteps ath_grows (handle create_order cancel_order ev) /\
  msteps atl_falls (handle create_order cancel_order ev).
Proof.
  split; destruct ev as [data | token_id market_name data]; cbn [handle];
    unfold process_websocket_message, process_orderbook_data, check_extremes;
    msteps_go;
    first [ apply process_book_message_extremes | extremes_leaf ].
Qed.

Lemma run_extremes (evs : list (Event Q)) (s : MS) :
  ath_grows (fst s) (fst (run create_order cancel_order evs s)) /\
  atl_falls (fst s) (fst (run create_order cancel_order evs s)).
Proof.
  revert s. induction evs as [| ev evs IH]; intros s; cbn [run].
  - split; reflexivity.
  - destruct (handle_extremes ev) as [Ha Hl].
    destruct (IH (snd (handle create_order cancel_order ev s))) as [Ia Il].
    split; (etransitivity; [| eassumption]); [apply Ha | apply Hl].
Qed.

(** C6: over exact prices.  The first price seen for a key is recorded as
    its high and as its low.  After that one check replaces the recorded
    high only by a strictly greater price and the recorded low only by a
    strictly smaller one; a price that is not greater (not smaller), an
    equal one in particular, leaves the monitor as it is.  Along any
    sequence of events every recorded high is still recorded afterwards at a
    price at least as high, and every recorded low at a price at most as
    high.  Fed the ask prices 0.40, 0.38, 0.42, 0.35, tagged by the sizes 1
    to 4, the high of the ask side ends at 0.42 with the tag of the third
    observation and the low at 0.35 with the tag of the fourth. *)
Theorem extremes_monotone :
  (forall market_id market_name (price size : Q) side (s : MS),
      (dict_get (market_id ++ "_" ++ side) (ath_records (fst s)) = None ->
       dict_get (market_id ++ "_" ++ side)
         (ath_records
            (fst (snd (check_ath market_id market_name price size side s))))
       = Some (new_ath market_id market_name price size (clock (snd s)) side))
      /\
      (dict_get (market_id ++ "_" ++ side) (atl_records (fst s)) = None ->
       dict_get (market_id ++ "_" ++ side)
         (atl_records
            (fst (snd (check_atl market_id market_name price size side s))))
       = Some (new_atl market_id market_name price size (clock (snd s)) side)))
  /\
  (forall market_id market_name (price size : Q) side (s : MS) r,
      dict_get (market_id ++ "_" ++ side) (ath_records (fst s)) = Some r ->
      let s' := snd (check_ath market_id market_name price size side s) in
      ((ath_price r < price)%Q ->
       dict_get (market_id ++ "_" ++ side) (ath_records (fst s'))
         = Some (new_ath market_id market_name price size (clock (snd s)) side))
      /\
      ((price <= ath_price r)%Q -> fst s' = fst s)) /\
  (forall market_id market_name (price size : Q) side (s : MS) r,
      dict_get (market_id ++ "_" ++ side) (atl_records (fst s)) = Some r ->
      let s' := snd (check_atl market_id market_name price size side s) in
      ((price < atl_price r)%Q ->
       dict_get (market_id ++ "_" ++ side) (atl_records (fst s'))
         = Some (new_atl market_id market_name price size (clock (snd s)) side))
      /\
      ((atl_price r <= price)%Q -> fst s' = fst s)) /\
  (forall (evs : list (Event Q)) (s : MS) key,
      (forall r, dict_get key (ath_records (fst s)) = Some r ->
         exists r',
           dict_get key
             (ath_records (fst (run create_order cancel_order evs s)))
             = Some r' /\
           (ath_price r <= ath_price r')%Q) /\
      (forall r, dict_get key (atl_records (fst s)) = Some r ->
         exists r',
           dict_get key
             (atl_records (fst (run create_order cancel_order evs s)))
             = Some r' /\
           (atl_price r' <= atl_price r)%Q)) /\
  (let m := fst (run scripted_create cancel_accepted
                   (feed_asks (30 # 100)%Q
                      [((40 # 100)%Q, 1%Q); ((38 # 100)%Q, 2%Q);
                       ((42 # 100)%Q, 3%Q); ((35 # 100)%Q, 4%Q)])
                   (fresh_monitor None [])) in
   option_map (fun r => (ath_price r, ath_size r))
     (dict_get "T1_ask" (ath_records m)) = Some ((42 # 100)%Q, 3%Q) /\
   option_map (fun r => (atl_price r, atl_size r))
     (dict_get "T1_ask" (atl_records m)) = Some ((35 # 100)%Q, 4%Q)).
Proof.
  split; [| split; [| split; [| split]]].
  - intros market_id market_name price size side s. split; intros H.
    + rewrite check_ath_effect. cbv zeta. rewrite H. apply dict_get_set_eq.
    + rewrite check_atl_effect. cbv zeta. rewrite H. apply dict_get_set_eq.
  - intros market_id market_name price size side s r H s'. split.
    + intros L. unfold s'. rewrite check_ath_effect. cbv zeta. rewrite H.
      apply Qltb_lt in L. unfold ngtb. cbn [nltb Number_Q]. rewrite L.
      apply dict_get_set_eq.
    + intros L. unfold s', check_ath, bind at 1. unfold read_mon at 1, gets.
      cbn [fst snd]. rewrite H.
      assert (G : ngtb price (ath_price r) = false).
      { destruct (ngtb price (ath_price r)) eqn:G; [| reflexivity].
        apply Qltb_lt in G. exfalso. exact (Qlt_not_le _ _ G L). }
      rewrite G. reflexivity.
  - intros market_id market_name price size side s r H s'. split.
    + intros L. unfold s'. rewrite check_atl_effect. cbv zeta. rewrite H.
      apply Qltb_lt in L. cbn [nltb Number_Q]. rewrite L.
      apply dict_get_set_eq.
    + intros L. unfold s', check_atl, bind at 1. unfold read_mon at 1, gets.
      cbn [fst snd]. rewrite H.
      assert (G : nltb price (atl_price r) = false).
      { destruct (nltb price (atl_price r)) eqn:G; [| reflexivity].
        apply Qltb_lt in G. exfalso. exact (Qlt_not_le _ _ G L). }
      rewrite G. reflexivity.
  - intros evs s key. destruct (run_extremes evs s) as [Ha Hl]. split.
    + intros r H. exact (Ha key r H).
    + intros r H. exact (Hl key r H).
  - vm_compute. split; reflexivity.
Qed.

End Extremes.

(* ------------------------------------------------------------------ *)
(** ** The state store and the detector on concrete inputs *)

(** C4: with the bids 0.40 and 0.45 in that order, both ingestion paths
    record 0.40 as best bid although the list holds the higher bid 0.45;
    the best ask is the least ask, 0.50, wherever it stands.  The same over
    exact prices. *)
Theorem best_bid_is_first_entry :
  (let data := book "T1" [level 0.40 10; level 0.45 20]
                 [level 0.55 5; level 0.50 7]%float in
   let polled :=
     fst (snd (process_orderbook_data "T1" "Game A - Yes" data
                 (fresh_monitor None []))) in
   let streamed :=
     fst (snd (process_book_message scripted_create cancel_accepted data
                 (registered_monitor None []))) in
   nltb 0.40 0.45 = true /\
   option_map (fun x => (best_bid x, bid_size x, best_ask x, ask_size x))
     (dict_get "T1" (current_snapshots polled))
     = Some (0.40, 10, 0.50, 7) /\
   option_map (fun x => (best_bid x, bid_size x, best_ask x, ask_size x))
     (dict_get "T1" (current_snapshots streamed))
     = Some (0.40, 10, 0.50, 7))%float /\
  (let data := book "T1" [level (40 # 100)%Q 10%Q; level (45 # 100)%Q 20%Q]
                 [level (55 # 100)%Q 5%Q; level (50 # 100)%Q 7%Q] in
   let polled :=
     fst (snd (process_orderbook_data "T1" "Game A - Yes" data
                 (fresh_monitor None []))) in
   (40 # 100 < 45 # 100)%Q /\
   option_map (fun x => (best_bid x, best_ask x))
     (dict_get "T1" (current_snapshots polled))
     = Some ((40 # 100)%Q, (50 # 100)%Q)).
Proof.
  split.
  - vm_compute. repeat split.
  - cbv zeta. split; [reflexivity |]. vm_compute. reflexivity.
Qed.

(** An order book without asks on both paths. *)
Lemma empty_side_skip_witness :
  let data := book "T1" [level 0.40 10]%float [] in
  (bids data = [] \/ asks data = []) /\
  process_orderbook_data "T1" "Game A - Yes" data (registered_monitor None [])
    = (Ok tt, registered_monitor None []).
Proof.
  cbv zeta.
  assert (H : bids (book "T1" [level 0.40 10]%float []) = [] \/
              asks (book "T1" [level 0.40 10]%float []) = [])
    by (right; reflexivity).
  split; [exact H |].
  exact (proj2 (proj2 (empty_side_skip scripted_create cancel_accepted
                         (book "T1" [level 0.40 10]%float [])
                         "T1" "Game A - Yes" (registered_monitor None []) H))).
Defined.

(** The example of the specification for the extremes, in binary64. *)
Example extremes_example :
  let m := fst (run scripted_create cancel_accepted
                  (feed_asks 0.30%float
                     [(0.40, 1); (0.38, 2); (0.42, 3); (0.35, 4)]%float)
                  (fresh_monitor None [])) in
  option_map (fun r => (ath_price r, ath_size r))
    (dict_get "T1_ask" (ath_records m)) = Some (0.42, 3)%float /\
  option_map (fun r => (atl_price r, atl_size r))
    (dict_get "T1_ask" (atl_records m)) = Some (0.35, 4)%float.
Proof. vm_compute. split; reflexivity. Qed.

(** A tie: after the ask 0.40 has been recorded, a check at the equal price
    leaves the monitor as it is. *)
Lemma extremes_monotone_witness :
  let s := snd (handle scripted_create cancel_accepted
                  (Polled "T1" "Game A - Yes"
                     (one_ask "T1" (30 # 100)%Q (40 # 100)%Q 1%Q))
                  (fresh_monitor None [])) in
  exists r,
    dict_get "T1_ask" (ath_records (fst s)) = Some r /\
    (40 # 100 <= ath_price r)%Q /\
    fst (snd (check_ath "T1" "Game A - Yes" (40 # 100)%Q 9%Q "ask" s)) = fst s.
Proof.
  cbv zeta. eexists. split; [vm_compute; reflexivity |].
  split; [vm_compute; discriminate |].
  refine (proj2 (proj1 (proj2 (extremes_monotone scripted_create
                                 cancel_accepted))
                   "T1" "Game A - Yes" (40 # 100)%Q 9%Q "ask" _ _ _) _).
  - vm_compute. reflexivity.
  - vm_compute. discriminate.
Defined.

(** Capacity + 2 snapshots for one instrument: the history keeps the last
    MAX_ORDERBOOK_HISTORY of them. *)
Lemma history_ring_buffer_witness :
  let evs := steady_feed (MAX_ORDERBOOK_HISTORY + 2) in
  let s0 := fresh_monitor (A := float) None [] in
  List.length (arrivals scripted_create cancel_accepted "T1" evs s0)
    = MAX_ORDERBOOK_HISTORY + 2 /\
  List.length (history "T1" (fst (run scripted_create cancel_accepted evs s0)))
    = MAX_ORDERBOOK_HISTORY.
Proof.
  cbv zeta.
  assert (H : List.length
                (arrivals scripted_create cancel_accepted "T1"
                   (steady_feed (MAX_ORDERBOOK_HISTORY + 2))
                   (fresh_monitor (A := float) None []))
              = MAX_ORDERBOOK_HISTORY + 2) by (vm_compute; reflexivity).
  split; [exact H |].
  exact (proj2 (proj2 (proj2 (history_ring_buffer scripted_create
                                cancel_accepted))
                  "T1" (steady_feed (MAX_ORDERBOOK_HISTORY + 2)) None
                  (env_of []) 2 H)).
Defined.

(** The same run, computed: the two oldest snapshots (clock readings 0 and
    5) are gone, the history starts at the third (reading 6). *)
Example history_wraps :
  let h := history "T1"
             (fst (run scripted_create cancel_accepted
                     (steady_feed (MAX_ORDERBOOK_HISTORY + 2))
                     (fresh_monitor (A := float) None []))) in
  List.length h = MAX_ORDERBOOK_HISTORY /\
  map (@snap_timestamp float) (firstn 3 h) = [6; 7; 8].
Proof. vm_compute. split; reflexivity. Qed.



(** The same scan without an engine records both pairs. *)
Example scan_records_both_pairs :
  let s := run scripted_create cancel_accepted two_pairs
             (fresh_monitor None []) in
  let s' := snd (check_best_matches scripted_create cancel_accepted s) in
  map (fun r => (tr_event_id r, is_best r)) (total_records (fst s'))
    = [("Game A_Moneyline", true); ("Game B_Moneyline", true)] /\
  map fst (last_totals (fst s')) = ["Game A_Moneyline"; "Game B_Moneyline"].
Proof. vm_compute. split; reflexivity. Qed.

(** Detection and execution on the streaming path, over exact prices: the
    asks 0.49 and 0.48 give the sum 0.97, which is recorded and executed;
    moving the second ask by 0.0005 records nothing; moving it to 0.53
    records the sum 1.02, which is no opportunity. *)
Example stream_deduplicates :
  let evs :=
    [Stream (WsBook (one_ask "T1" (30 # 100) (49 # 100) 1));
     Stream (WsBook (one_ask "T2" (30 # 100) (48 # 100) 1));
     Stream (WsBook (one_ask "T2" (30 # 100) (4805 # 10000) 1));
     Stream (WsBook (one_ask "T2" (30 # 100) (53 # 100) 1))]%Q in
  let s := run scripted_create cancel_accepted evs
             (registered_monitor (Some (test_executor true))
                [Ok (RespOrder "A"); Ok (RespOrder "B")]) in
  map (fun r => (tr_event_id r, Qeq_bool (tr_total r) (97 # 100),
                 Qeq_bool (tr_total r) (102 # 100), is_best r))
    (total_records (fst s))
    = [("Game A_Moneyline", true, false, true);
       ("Game A_Moneyline", false, true, false)] /\
  List.length (best_matches (fst s)) = 1 /\
  option_map (fun ex => map (fun x => (order1_id x, order2_id x, success x))
                          (executions ex))
    (arbitrage_executor (fst s))
    = Some [(Some "A", Some "B", true)].
Proof. vm_compute. repeat split. Qed.

(* ------------------------------------------------------------------ *)
(** ** Further properties of the executor, the monitor and the reports *)

Section ExecutorMore.

Context {A : Type} {NumA : Number A}.
Variable Exchange : Type.
Variable create_order : OrderArgs A -> Exchange -> result Response * Exchange.
Variable cancel_order : string -> Exchange -> result unit * Exchange.


Lemma execute_arbitrage_cases (self : ArbitrageExecutor A)
    (env : Env A Exchange) (opp : ArbitrageOpportunity A) (s1 s2 profit : A) :
  calculate_stakes (opp_side1_price opp) (opp_side2_price opp) (bankroll self)
    = Ok (s1, s2) ->
  calculate_profit (opp_side1_price opp) (opp_side2_price opp) s1 s2
    = Ok profit ->
  exists o1 o2 ok err envk sent self1,
    execute_arbitrage create_order cancel_order opp (self, env)
      = (Ok (execution_record opp self s1 s2 o1 o2 ok err (clock envk)),
         (append_execution
            (execution_record opp self s1 s2 o1 o2 ok err (clock envk)) self1,
          tick envk)) /\
    calls envk = calls env ++ sent /\ clock envk = clock env /\
    ((ok = true /\ err = None /\ self1 = record_success profit self /\
      sent = [CreateOrder (leg1 opp s1); CreateOrder (leg2 opp s2)]) \/
     (ok = false /\ (exists msg, err = Some msg) /\
      self1 = record_failure self /\
      (sent = [] \/ sent = [CreateOrder (leg1 opp s1)] \/
       exists id1, sent = [CreateOrder (leg1 opp s1); CreateOrder (leg2 opp s2);
                           CancelOrder id1]))).
Proof.
  intros Hs Hp.
  destruct (place_order_returns create_order self (side1_token_id opp) "BUY"
              (opp_side1_price opp) (ndiv s1 (opp_side1_price opp)) env)
    as (o1 & env1 & H1).
  pose proof (place_order_calls _ _ _ _ _ _ H1) as C1.
  destruct (opt_truthy o1) eqn:T1.
  - pose proof (truthy_leg1_has_client _ _ _ _ _ H1 T1) as Hc.
    destruct C1 as [(F & _) | (_ & C1 & K1)]; [contradiction |].
    destruct (place_order_returns create_order self (side2_token_id opp) "BUY"
                (opp_side2_price opp) (ndiv s2 (opp_side2_price opp)) env1)
      as (o2 & env2 & H2).
    destruct (place_order_calls _ _ _ _ _ _ H2) as [(F & _) | (_ & C2 & K2)];
      [contradiction |].
    destruct (opt_truthy o2) eqn:T2.
    + pose proof (execute_arbitrage_both_placed create_order cancel_order
                    _ _ _ Hs Hp H1 H2 T1 T2) as E.
      cbv zeta in E.
      exists o1, o2, true, None, env2,
        [CreateOrder (leg1 opp s1); CreateOrder (leg2 opp s2)],
        (record_success profit self).
      split; [exact E |].
      split; [rewrite C2, C1, <- app_assoc; reflexivity |].
      split; [congruence |]. left. auto.
    + destruct o1 as [id1 |]; [| discriminate].
      pose proof (execute_arbitrage_leg2_failed create_order cancel_order
                    _ _ _ Hs Hp H1 H2 eq_refl T1 T2) as E.
      cbv zeta in E.
      exists (Some id1), o2, false, (Some "Failed to place order 2"),
        (add_call (CancelOrder id1) (snd (cancel_order id1 (exchange env2)))
           env2),
        [CreateOrder (leg1 opp s1); CreateOrder (leg2 opp s2);
         CancelOrder id1],
        (record_failure self).
      split; [exact E |]. cbn [calls clock add_call].
      split; [rewrite C2, C1, <- !app_assoc; reflexivity |].
      split; [congruence |]. right.
      split; [reflexivity |]. split; [eexists; reflexivity |].
      split; [reflexivity |]. right. right. eexists. reflexivity.
  - pose proof (execute_arbitrage_leg1_failed create_order cancel_order
                  _ _ _ Hs Hp H1 T1) as E.
    cbv zeta in E.
    destruct C1 as [(_ & _ & ->) | (_ & C1 & K1)].
    + exists o1, None, false, (Some "Failed to place order 1"), env,
        [], (record_failure self).
      split; [exact E |]. split; [rewrite app_nil_r; reflexivity |].
      split; [reflexivity |]. right.
      split; [reflexivity |]. split; [eexists; reflexivity |].
      split; [reflexivity |]. left. reflexivity.
    + exists o1, None, false, (Some "Failed to place order 1"), env1,
        [CreateOrder (leg1 opp s1)], (record_failure self).
      split; [exact E |]. split; [exact C1 |].
      split; [exact K1 |]. right.
      split; [reflexivity |]. split; [eexists; reflexivity |].
      split; [reflexivity |]. right. left. reflexivity.
Qed.

Lemma execute_arbitrage_raises (self : ArbitrageExecutor A)
    (env : Env A Exchange) (opp : ArbitrageOpportunity A) :
  (forall s1 s2 profit,
      calculate_stakes (opp_side1_price opp) (opp_side2_price opp)
        (bankroll self) = Ok (s1, s2) ->
      calculate_profit (opp_side1_price opp) (opp_side2_price opp) s1 s2
        = Ok profit -> False) ->
  execute_arbitrage create_order cancel_order opp (self, env)
    = (Raise ZeroDivisionError, (self, env)).
Proof.
  intros H. apply execute_arbitrage_sizing_raises.
  intros s1 s2 profit Hs Hp. exact (H _ _ _ Hs Hp).
Qed.

(** Either the sizing goes through, or the call raises and changes nothing. *)
Lemma execute_arbitrage_sized_or_raises (self : ArbitrageExecutor A)
    (env : Env A Exchange) (opp : ArbitrageOpportunity A) :
  (exists s1 s2 profit,
      calculate_stakes (opp_side1_price opp) (opp_side2_price opp)
        (bankroll self) = Ok (s1, s2) /\
      calculate_profit (opp_side1_price opp) (opp_side2_price opp) s1 s2
        = Ok profit) \/
  execute_arbitrage create_order cancel_order opp (self, env)
    = (Raise ZeroDivisionError, (self, env)).
Proof.
  destruct (calculate_stakes (opp_side1_price opp) (opp_side2_price opp)
              (bankroll self)) as [[s1 s2] | e] eqn:Hs.
  2: { right. apply execute_arbitrage_raises. intros; congruence. }
  destruct (calculate_profit (opp_side1_price opp) (opp_side2_price opp) s1 s2)
    as [profit | e] eqn:Hp.
  2: { right. apply execute_arbitrage_raises. intros; congruence. }
  left. eauto.
Qed.

(** X2: what [execute_arbitrage] never does, whether it returns or
    raises: it does not change the executor's settings (key, bankroll,
    minimum profit, auto-execute flag, chain id, client); it removes no
    logged execution and appends at most one; it sends at most three calls
    to the client (two orders and a cancel), after those already sent; and
    it reads the clock at most once.  For a sequence of n calls the bounds
    are n records, 3n client calls and n clock readings. *)
Theorem execute_arbitrage_frame :
  (forall (opp : ArbitrageOpportunity A) (self : ArbitrageExecutor A)
          (env : Env A Exchange),
      let s' := snd (execute_arbitrage create_order cancel_order opp
                       (self, env)) in
      settings (fst s') = settings self /\
      (exists new, executions (fst s') = executions self ++ new /\
                   List.length new <= 1) /\
      (exists sent, calls (snd s') = calls env ++ sent /\
                    List.length sent <= 3) /\
      clock env <= clock (snd s') <= clock env + 1) /\
  (forall (opps : list (ArbitrageOpportunity A)) (self : ArbitrageExecutor A)
          (env : Env A Exchange),
      let s' := execute_all create_order cancel_order opps (self, env) in
      settings (fst s') = settings self /\
      (exists new, executions (fst s') = executions self ++ new /\
                   List.length new <= List.length opps) /\
      (exists sent, calls (snd s') = calls env ++ sent /\
                    List.length sent <= 3 * List.length opps) /\
      clock env <= clock (snd s') <= clock env + List.length opps).
Proof.
  assert (One : forall (opp : ArbitrageOpportunity A)
                       (self : ArbitrageExecutor A) (env : Env A Exchange),
      let s' := snd (execute_arbitrage create_order cancel_order opp
                       (self, env)) in
      settings (fst s') = settings self /\
      (exists new, executions (fst s') = executions self ++ new /\
                   List.length new <= 1) /\
      (exists sent, calls (snd s') = calls env ++ sent /\
                    List.length sent <= 3) /\
      clock env <= clock (snd s') <= clock env + 1).
  { intros opp self env.
    destruct (execute_arbitrage_sized_or_raises self env opp)
      as [(s1 & s2 & profit & Hs & Hp) | E].
    - destruct (execute_arbitrage_cases self env opp Hs Hp)
        as (o1 & o2 & ok & err & envk & sent & self1 & E & C & K & Hk).
      cbv zeta. rewrite E. cbn [fst snd].
      split; [| split; [| split]].
      + destruct Hk as [(_ & _ & -> & _) | (_ & _ & -> & _)]; reflexivity.
      + eexists [_]. split; [| cbn; lia].
        destruct Hk as [(_ & _ & -> & _) | (_ & _ & -> & _)]; reflexivity.
      + exists sent. split; [exact C |].
        destruct Hk as [(_ & _ & _ & ->) | (_ & _ & _ & [-> | [-> | [id ->]]])];
          cbn; lia.
      + cbn. rewrite K. lia.
    - cbv zeta. rewrite E. cbn [fst snd].
      split; [reflexivity |].
      split; [exists []; rewrite app_nil_r; split; [reflexivity | cbn; lia] |].
      split; [exists []; rewrite app_nil_r; split; [reflexivity | cbn; lia] |].
      lia. }
  split; [exact One |].
  intros opps. induction opps as [| opp rest IH]; intros self env.
  - cbn. split; [reflexivity |].
    split; [exists []; rewrite app_nil_r; auto |].
    split; [exists []; rewrite app_nil_r; auto |]. lia.
  - cbn [execute_all].
    pose proof (One opp self env) as H. cbv zeta in H.
    destruct (execute_arbitrage create_order cancel_order opp (self, env))
      as [r [self1 env1]]. cbn [fst snd] in H |- *.
    destruct H as (S1 & (new1 & N1 & L1) & (sent1 & C1 & M1) & K1).
    specialize (IH self1 env1). cbv zeta in IH.
    destruct IH as (S2 & (new2 & N2 & L2) & (sent2 & C2 & M2) & K2).
    cbv zeta. split; [congruence |].
    split; [exists (new1 ++ new2); rewrite N2, N1, <- app_assoc, length_app;
            split; [reflexivity | cbn [List.length]; lia] |].
    split; [exists (sent1 ++ sent2); rewrite C2, C1, <- app_assoc, length_app;
            split; [reflexivity | cbn [List.length]; lia] |].
    cbn [List.length]. lia.
Qed.

End ExecutorMore.

Section ExecutorAccounts.

Context {A : Type} {NumA : Number A}.
Variable Exchange : Type.
Variable create_order : OrderArgs A -> Exchange -> result Response * Exchange.
Variable cancel_order : string -> Exchange -> result unit * Exchange.

Lemma booked_total_snoc (log : list (ArbitrageExecution A))
    (x : ArbitrageExecution A) :
  booked_total (log ++ [x]) =
    if success x
    then match booked x with
         | Ok profit => nadd (booked_total log) profit
         | Raise _ => booked_total log
         end
    else booked_total log.
Proof. unfold booked_total. rewrite fold_left_app. reflexivity. Qed.

Lemma execute_arbitrage_accounted (opp : ArbitrageOpportunity A)
    (self : ArbitrageExecutor A) (env : Env A Exchange) :
  accounted self ->
  accounted (fst (snd (execute_arbitrage create_order cancel_order opp
                         (self, env)))).
Proof.
  intros (I1 & I2 & I3).
  destruct (execute_arbitrage_sized_or_raises create_order cancel_order
              self env opp) as [(s1 & s2 & profit & Hs & Hp) | E].
  2: { rewrite E. cbn. repeat split; assumption. }
  destruct (execute_arbitrage_cases create_order cancel_order self env opp
              Hs Hp)
    as (o1 & o2 & ok & err & envk & sent & self1 & E & _ & _ & Hk).
  rewrite E. cbn [fst snd]. unfold accounted.
  cbn [executions successful_trades failed_trades total_profit
       append_execution].
  rewrite !filter_app, !length_app, booked_total_snoc.
  unfold failed at 2, booked.
  cbn [filter success opportunity stake1 stake2 execution_record].
  rewrite Hp.
  destruct Hk as [(-> & _ & -> & _) | (-> & _ & -> & _)];
    cbn [negb List.length successful_trades failed_trades total_profit
         record_success record_failure executions];
    rewrite <- I1, <- I2, <- I3; repeat split; lia.
Qed.

Lemma execute_all_accounted (opps : list (ArbitrageOpportunity A))
    (self : ArbitrageExecutor A) (env : Env A Exchange) :
  accounted self ->
  accounted (fst (execute_all create_order cancel_order opps (self, env))).
Proof.
  revert self env. induction opps as [| opp rest IH]; intros self env H.
  - exact H.
  - cbn [execute_all].
    pose proof (execute_arbitrage_accounted opp env H) as H1.
    destruct (execute_arbitrage create_order cancel_order opp (self, env))
      as [r [self1 env1]]. cbn [fst snd] in *.
    apply IH. exact H1.
Qed.

(** X3: on an executor built by [__init__], after any sequence of calls to
    [execute_arbitrage] (some of which may raise), [successful_trades] is
    the number of logged executions with success = true, [failed_trades] the
    number of those with success = false, and [total_profit] is the sum, in
    logging order and starting from 0.0, of the expected profits
    [calculate_profit] gives for the successful ones; [get_stats] reports
    the two counts. *)
Theorem counters_count_the_log
    (ClobClient_new : string -> string -> Z -> result ClobClient)
    (key : string) (bankroll0 min_profit : A) (auto : bool) (chain : Z)
    (opps : list (ArbitrageOpportunity A)) (env0 : Env A Exchange) :
  let self :=
    fst (execute_all create_order cancel_order opps
           (ArbitrageExecutor_init ClobClient_new key bankroll0 min_profit
              auto chain, env0)) in
  successful_trades self
    = List.length (filter (@success A) (executions self)) /\
  failed_trades self = List.length (filter failed (executions self)) /\
  total_profit self = booked_total (executions self) /\
  st_successful_trades (get_stats self)
    = List.length (filter (@success A) (executions self)) /\
  st_failed_trades (get_stats self)
    = List.length (filter failed (executions self)).
Proof.
  cbv zeta.
  destruct (execute_all_accounted opps
              (self := ArbitrageExecutor_init ClobClient_new key bankroll0
                         min_profit auto chain) env0) as (I1 & I2 & I3).
  { repeat split. }
  repeat split; assumption.
Qed.

End ExecutorAccounts.

Section ExecutorExact.

Local Open Scope Q_scope.

Variable Exchange : Type.
Variable create_order : OrderArgs Q -> Exchange -> result Response * Exchange.
Variable cancel_order : string -> Exchange -> result unit * Exchange.

Lemma sizing_positive (p1 p2 B : Q) :
  0 < p1 -> 0 < p2 ->
  calculate_stakes p1 p2 B = Ok (B * p1 / (p1 + p2), B * p2 / (p1 + p2)) /\
  exists profit,
    calculate_profit p1 p2 (B * p1 / (p1 + p2)) (B * p2 / (p1 + p2))
      = Ok profit /\
    profit == B * (1 - (p1 + p2)) / (p1 + p2).
Proof.
  intros H1 H2.
  assert (N1 : ~ p1 == 0) by lra.
  assert (N2 : ~ p2 == 0) by lra.
  assert (N12 : ~ p1 + p2 == 0) by lra.
  split.
  - exact (calculate_stakes_formula (A := Q) p1 p2 B (Q_nonzero_test N12)).
  - eexists. split.
    + exact (calculate_profit_formula (A := Q) p1 p2 _ _
               (Q_nonzero_test N1) (Q_nonzero_test N2)).
    + cbn. field. repeat split; assumption.
Qed.

Lemma Qdiv_pos_sign (x S : Q) :
  0 < S -> (0 < x <-> 0 < x / S) /\ (x == 0 <-> x / S == 0) /\
           (x < 0 <-> x / S < 0).
Proof.
  intros HS.
  assert (HI : 0 < / S) by (apply Qinv_lt_0_compat; exact HS).
  assert (E : x / S * S == x) by (field; lra).
  unfold Qdiv in *.
  repeat split; intros H; nra.
Qed.

(** X4: over exact prices, for positive prices and a positive bankroll,
    [calculate_stakes] and [calculate_profit] return; both stakes lie
    strictly between 0 and the bankroll; the side with the lower price gets
    the lower stake; and the profit is positive exactly when the prices sum
    to less than 1, zero exactly when they sum to 1, and negative exactly
    when they sum to more than 1. *)
Theorem arbitrage_profit_sign (p1 p2 B : Q) :
  0 < p1 -> 0 < p2 -> 0 < B ->
  exists s1 s2 profit,
    calculate_stakes p1 p2 B = Ok (s1, s2) /\
    calculate_profit p1 p2 s1 s2 = Ok profit /\
    0 < s1 /\ s1 < B /\ 0 < s2 /\ s2 < B /\
    (p1 <= p2 <-> s1 <= s2) /\
    (p1 + p2 < 1 <-> 0 < profit) /\
    (p1 + p2 == 1 <-> profit == 0) /\
    (1 < p1 + p2 <-> profit < 0).
Proof.
  intros H1 H2 HB.
  destruct (sizing_positive B H1 H2) as (Hs & profit & Hp & Ep).
  exists (B * p1 / (p1 + p2)), (B * p2 / (p1 + p2)), profit.
  split; [exact Hs |]. split; [exact Hp |].
  assert (HS : 0 < p1 + p2) by lra.
  assert (HI : 0 < / (p1 + p2)) by (apply Qinv_lt_0_compat; exact HS).
  assert (E1 : B * p1 / (p1 + p2) * (p1 + p2) == B * p1) by (field; lra).
  assert (E2 : B * p2 / (p1 + p2) * (p1 + p2) == B * p2) by (field; lra).
  set (s1 := B * p1 / (p1 + p2)) in *.
  set (s2 := B * p2 / (p1 + p2)) in *.
  assert (P1 : 0 < B * p1) by nra.
  assert (P2 : 0 < B * p2) by nra.
  split; [nra |]. split; [nra |]. split; [nra |]. split; [nra |].
  split; [split; intros; nra |].
  destruct (Qdiv_pos_sign (B * (1 - (p1 + p2))) HS) as (D1 & D2 & D3).
  rewrite Ep.
  split; [| split].
  - rewrite <- D1. split; intros; nra.
  - rewrite <- D2. split; intros; nra.
  - rewrite <- D3. split; intros; nra.
Qed.

End ExecutorExact.

Section ExecutorExact2.

Local Open Scope Q_scope.

Variable Exchange : Type.
Variable create_order : OrderArgs Q -> Exchange -> result Response * Exchange.
Variable cancel_order : string -> Exchange -> result unit * Exchange.


(** X6: the gate over exact prices, with auto-execute enabled and a
    non-negative minimum profit: a negative sum is refused; the sum zero
    raises [ZeroDivisionError]; a positive sum is accepted exactly when it
    is below 1 and sum * (100 + minimum) <= 100; and when a sum is accepted
    so is every smaller positive sum. *)
Theorem should_execute_threshold (self : ArbitrageExecutor Q) (t : Q) :
  auto_execute self = true -> 0 <= min_profit_percent self ->
  (t < 0 -> should_execute self t = Ok false) /\
  (t == 0 -> should_execute self t = Raise ZeroDivisionError) /\
  (0 < t ->
   exists go,
     should_execute self t = Ok go /\
     (go = true <-> t < 1 /\ t * (100 + min_profit_percent self) <= 100) /\
     (go = true ->
      forall t', 0 < t' -> t' <= t -> should_execute self t' = Ok true)).
Proof.
  intros Ha Hm.
  assert (Gate : forall u, 0 < u ->
            should_execute self u
            = Ok (Qltb u 1 &&
                  Qle_bool (u * (100 + min_profit_percent self)) 100)%bool).
  { intros u Hu. unfold should_execute, py_div. rewrite Ha. cbn [negb].
    unfold ngeb. cbn [nleb nltb neqb nsub nmul ndiv lit_0 lit_1 lit_100
                      Number_Q].
    unfold Qltb at 2.
    destruct (Qle_bool 1 u) eqn:E1; [reflexivity |]. cbn [negb andb].
    destruct (Qeq_bool u 0) eqn:E0.
    { apply Qeq_bool_iff in E0. lra. }
    cbn [rbind].
    assert (Eq : (1 - u) / u * u == 1 - u) by (field; lra).
    destruct (Qltb ((1 - u) / u * 100) (min_profit_percent self)) eqn:E2.
    - apply Qltb_lt in E2.
      destruct (Qle_bool (u * (100 + min_profit_percent self)) 100) eqn:E3;
        [| reflexivity].
      apply Qle_bool_iff in E3. exfalso. nra.
    - destruct (Qle_bool (u * (100 + min_profit_percent self)) 100) eqn:E3;
        [reflexivity |].
      exfalso.
      assert (N : ~ (1 - u) / u * 100 < min_profit_percent self).
      { intros L. apply Qltb_lt in L. congruence. }
      assert (N3 : ~ u * (100 + min_profit_percent self) <= 100).
      { intros L. apply Qle_bool_iff in L. congruence. }
      apply N. nra. }
  split; [| split].
  - intros Ht. unfold should_execute, py_div. rewrite Ha. cbn [negb].
    unfold ngeb. cbn [nleb nltb neqb nsub nmul ndiv lit_0 lit_1 lit_100
                      Number_Q].
    destruct (Qle_bool 1 t) eqn:E1; [reflexivity |].
    destruct (Qeq_bool t 0) eqn:E0.
    { apply Qeq_bool_iff in E0. lra. }
    cbn [rbind].
    assert (Eq : (1 - t) / t * t == 1 - t) by (field; lra).
    destruct (Qltb ((1 - t) / t * 100) (min_profit_percent self)) eqn:E2;
      [reflexivity |].
    exfalso.
    assert (N : ~ (1 - t) / t * 100 < min_profit_percent self).
    { intros L. apply Qltb_lt in L. congruence. }
    apply N. nra.
  - intros Ht. unfold should_execute, py_div. rewrite Ha. cbn [negb].
    unfold ngeb. cbn [nleb nltb neqb nsub nmul ndiv lit_0 lit_1 lit_100
                      Number_Q].
    destruct (Qle_bool 1 t) eqn:E1.
    { apply Qle_bool_iff in E1. lra. }
    destruct (Qeq_bool t 0) eqn:E0; [reflexivity |].
    exfalso. apply Qeq_bool_iff in Ht. congruence.
  - intros Ht. eexists. split; [apply Gate; exact Ht |].
    assert (B : (Qltb t 1 &&
                 Qle_bool (t * (100 + min_profit_percent self)) 100)%bool
                = true <->
                t < 1 /\ t * (100 + min_profit_percent self) <= 100).
    { rewrite andb_true_iff, Qltb_lt, Qle_bool_iff. reflexivity. }
    split; [exact B |].
    intros Hgo t' Ht' Hle. rewrite Gate by exact Ht'.
    apply B in Hgo. destruct Hgo as [G1 G2]. f_equal.
    apply andb_true_iff. rewrite Qltb_lt, Qle_bool_iff.
    split; [lra | nra].
Qed.

End ExecutorExact2.

#[local] Instance keeps_PreOrder {T} (P : T -> Prop) : PreOrder (keeps P).
Proof.
  split.
  - intros a H. exact H.
  - intros a b c H1 H2 H. apply H2, H1, H.
Qed.

#[local] Instance extends_PreOrder {T} : PreOrder (@extends T).
Proof.
  split.
  - intros l. exists []. symmetry. apply app_nil_r.
  - intros a b c [n1 ->] [n2 ->]. exists (n1 ++ n2). symmetry.
    apply app_assoc.
Qed.

#[local] Instance nothing_lost_PreOrder {A} : PreOrder (@nothing_lost A).
Proof.
  split.
  - intros m. repeat split; try reflexivity; auto.
  - intros a b c (A1 & A2 & A3 & A4) (B1 & B2 & B3 & B4).
    repeat split; try (etransitivity; eassumption); auto.
Qed.

Section HandleSteps.

Context {A : Type} {NumA : Number A}.
Variable Exchange : Type.
Variable create_order : OrderArgs A -> Exchange -> result Response * Exchange.
Variable cancel_order : string -> Exchange -> result unit * Exchange.

Local Abbreviation Mon := (OrderbookMonitor A).
Local Abbreviation MS := (MState A Exchange).

Section Generic.

Variable R : Mon -> Mon -> Prop.
Context {R_pre : PreOrder R}.

Lemma msteps_bind_pair {V} (a b : M MS unit) (k : unit -> M MS V) :
  msteps R (bind a (fun _ => b)) -> (forall v, msteps R (k v)) ->
  msteps R (bind a (fun _ => bind b k)).
Proof.
  intros Hab Hk s. specialize (Hab s). unfold bind in *.
  destruct (a s) as [[[] | e] s1]; cbn in *; [| exact Hab].
  destruct (b s1) as [[v | e] s2]; cbn in *; [| exact Hab].
  etransitivity; [exact Hab | apply Hk].
Qed.

Hypothesis R_log :
  forall message level, msteps R (log (Exchange := Exchange) message level).
Hypothesis R_ingest :
  forall k market_name snapshot,
    msteps R (bind (store_snapshot (Exchange := Exchange) k snapshot)
                (fun _ => check_extremes k market_name snapshot)).
Hypothesis R_scan :
  forall event_name market_type outcomes,
    msteps R (scan_group create_order cancel_order event_name market_type
                outcomes).
Hypothesis R_latencies :
  forall x m,
    R m (set_update_latencies (deque_append 100 x (update_latencies m)) m).

Ltac hsteps :=
  repeat first
    [ progress cbv zeta
    | match goal with
      | |- PreOrder _ => exact _
      | |- forall _, msteps _ _ => intros ?
      | |- msteps _ (log _ _) => apply R_log
      | |- msteps _ (scan_group _ _ _ _ _) => apply R_scan
      | |- msteps _ (bind (store_snapshot _ _) _) =>
          apply msteps_bind_pair; [apply R_ingest |]
      | |- msteps _ (update_mon _) =>
          apply msteps_update_mon; intros ?; apply R_latencies
      | |- msteps _ (ret _) => apply msteps_ret
      | |- msteps _ (raise _) => apply msteps_raise
      | |- msteps _ (lift _) => apply msteps_lift
      | |- msteps _ (read_mon _) => apply msteps_read_mon
      | |- msteps _ (in_menv _) => apply msteps_in_menv
      | |- msteps _ (bind _ _) => apply msteps_bind
      | |- msteps _ (try_except _ _) => apply msteps_try_except
      | |- msteps _ (for_each _ _) => apply msteps_for_each
      | |- msteps _ (if ?b then _ else _) => destruct b
      | |- msteps _ (match ?x with _ => _ end) => destruct x
      end ].

Lemma check_best_matches_steps :
  msteps R (check_best_matches create_order cancel_order).
Proof. unfold check_best_matches, scan_groups. hsteps. Qed.

Lemma process_book_message_steps (data : Book A) :
  msteps R (process_book_message create_order cancel_order data).
Proof.
  unfold process_book_message. hsteps. apply check_best_matches_steps.
Qed.

Lemma process_orderbook_data_steps token_id market_name (data : Book A) :
  msteps R (process_orderbook_data (Exchange := Exchange) token_id market_name
              data).
Proof. unfold process_orderbook_data. hsteps. Qed.

Lemma handle_steps (ev : Event A) :
  msteps R (handle create_order cancel_order ev).
Proof.
  destruct ev as [data | token_id market_name data]; cbn [handle].
  - unfold process_websocket_message. hsteps;
      apply process_book_message_steps.
  - apply process_orderbook_data_steps.
Qed.

Lemma run_steps (evs : list (Event A)) (s : MS) :
  R (fst s) (fst (run create_order cancel_order evs s)).
Proof.
  revert s. induction evs as [| ev evs IH]; intros s; cbn [run].
  - reflexivity.
  - etransitivity; [apply handle_steps | apply IH].
Qed.

End Generic.

End HandleSteps.

Section MonitorInvariants.

Context {A : Type} {NumA : Number A}.
Variable Exchange : Type.
Variable create_order : OrderArgs A -> Exchange -> result Response * Exchange.
Variable cancel_order : string -> Exchange -> result unit * Exchange.

Local Abbreviation Mon := (OrderbookMonitor A).
Local Abbreviation MS := (MState A Exchange).

Lemma deque_append_within {T} (cap : nat) (x : T) (q : list T) :
  List.length q <= cap -> List.length (deque_append cap x q) <= cap.
Proof.
  intros H. rewrite deque_append_lastn by exact H. rewrite lastn_length. lia.
Qed.

(** A step that writes neither deque. *)
Ltac capacity_leaf :=
  first
    [ apply msteps_update_mon; intros ? H; exact H
    | apply msteps_with_executor; intros ? ? H; exact H
    | apply msteps_update_mon; intros ? [H1 H2]; split;
      [first [exact H1 | apply deque_append_within; exact H1]
      |first [exact H2 | apply deque_append_within; exact H2]] ].

Lemma log_within message level :
  msteps (keeps (@within_capacity A))
    (log (Exchange := Exchange) message level).
Proof.
  unfold log. apply msteps_update_mon. intros m [H1 H2]. split; [| exact H2].
  cbn [logs set_logs]. apply deque_append_within. exact H1.
Qed.

Lemma dict_get_set_some {V} (k k' : string) (v : V) (d : dict V) :
  dict_get k d <> None -> dict_get k (dict_set k' v d) <> None.
Proof.
  intros H. destruct (String.eqb k k') eqn:E.
  - apply String.eqb_eq in E. subst k'. rewrite dict_get_set_eq. discriminate.
  - rewrite dict_get_set_neq by exact E. exact H.
Qed.

Lemma nothing_lost_refl_on (m m' : Mon) :
  total_records m' = total_records m -> best_matches m' = best_matches m ->
  current_snapshots m' = current_snapshots m ->
  last_totals m' = last_totals m -> nothing_lost m m'.
Proof.
  intros E1 E2 E3 E4. unfold nothing_lost. rewrite E1, E2, E3, E4.
  repeat split; try reflexivity; auto.
Qed.

Ltac lost_leaf :=
  first
    [ apply msteps_update_mon; intros ?;
      apply nothing_lost_refl_on; reflexivity
    | apply msteps_with_executor; intros ? ?;
      apply nothing_lost_refl_on; reflexivity
    | apply msteps_update_mon; intros ?; unfold nothing_lost;
      cbn [total_records best_matches current_snapshots last_totals
           set_total_records set_best_matches set_current_snapshots
           set_last_totals set_orderbook_data];
      repeat split;
      first [ reflexivity | eexists; reflexivity
            | intros ?; apply dict_get_set_some | auto ] ].

Lemma log_nothing_lost message level :
  msteps (@nothing_lost A) (log (Exchange := Exchange) message level).
Proof. unfold log. lost_leaf. Qed.

(** X7: along any sequence of stream and polling events the log never
    holds more than MAX_LOG_ENTRIES entries and the latency window never
    more than 100, provided they did not to begin with; from a monitor just
    constructed the log never exceeds 500 entries and the window never
    100. *)
Theorem deques_stay_within_capacity :
  (forall (evs : list (Event A)) (s : MS),
      List.length (logs (fst s)) <= MAX_LOG_ENTRIES ->
      List.length (update_latencies (fst s)) <= 100 ->
      let m := fst (run create_order cancel_order evs s) in
      List.length (logs m) <= MAX_LOG_ENTRIES /\
      List.length (update_latencies m) <= 100) /\
  (forall (evs : list (Event A)) (executor : option (ArbitrageExecutor A))
          (env : Env A Exchange),
      let m := fst (run create_order cancel_order evs
                      (OrderbookMonitor_init executor, env)) in
      List.length (logs m) <= 500 /\ List.length (update_latencies m) <= 100).
Proof.
  assert (G : forall (evs : list (Event A)) (s : MS),
             within_capacity (fst s) ->
             within_capacity (fst (run create_order cancel_order evs s))).
  { intros evs s. apply (run_steps create_order cancel_order (R := keeps (@within_capacity A))).
    - apply log_within.
    - intros k market_name snapshot.
      unfold store_snapshot, check_extremes, check_ath, check_atl.
      msteps_go; first [apply log_within | capacity_leaf].
    - intros event_name market_type outcomes.
      unfold scan_group, monitor_execute_arbitrage.
      msteps_go; first [apply log_within | capacity_leaf].
    - intros x m [H1 H2]. split; [exact H1 |].
      cbn [update_latencies set_update_latencies].
      apply deque_append_within. exact H2. }
  split.
  - intros evs s H1 H2. apply G. split; assumption.
  - intros evs executor env. apply G. split; cbn; lia.
Qed.

(** X8: along any sequence of stream and polling events the total records
    and the best matches only grow at their end (no record is removed or
    rewritten), an instrument that has a current snapshot keeps having one,
    and a pair that has a last total keeps having one. *)
Theorem records_are_never_lost (evs : list (Event A)) (s : MS) :
  let m := fst s in
  let m' := fst (run create_order cancel_order evs s) in
  (exists new, total_records m' = total_records m ++ new) /\
  (exists new, best_matches m' = best_matches m ++ new) /\
  (forall k, dict_get k (current_snapshots m) <> None ->
             dict_get k (current_snapshots m') <> None) /\
  (forall k, dict_get k (last_totals m) <> None ->
             dict_get k (last_totals m') <> None).
Proof.
  cbv zeta.
  apply (run_steps create_order cancel_order (R := @nothing_lost A)).
  - apply log_nothing_lost.
  - intros k market_name snapshot.
    unfold store_snapshot, check_extremes, check_ath, check_atl.
    msteps_go; first [apply log_nothing_lost | lost_leaf].
  - intros event_name market_type outcomes.
    unfold scan_group, monitor_execute_arbitrage.
    msteps_go; first [apply log_nothing_lost | lost_leaf].
  - intros x m. apply nothing_lost_refl_on; reflexivity.
Qed.

(** The two checks return, and touch nothing of the environment but the
    clock. *)
Lemma check_ath_returns market_id market_name (price size : A) side (s : MS) :
  exists s',
    check_ath market_id market_name price size side s = (Ok tt, s') /\
    calls (snd s') = calls (snd s) /\ exchange (snd s') = exchange (snd s).
Proof.
  destruct s as [m e]. unfold check_ath.
  cbv beta iota zeta delta
    [bind read_mon gets in_menv time_time update_mon modify log ret fst snd].
  destruct (match dict_get _ _ with Some _ => _ | None => _ end);
    eexists; (split; [reflexivity |]); cbn; auto.
Qed.

Lemma check_atl_returns market_id market_name (price size : A) side (s : MS) :
  exists s',
    check_atl market_id market_name price size side s = (Ok tt, s') /\
    calls (snd s') = calls (snd s) /\ exchange (snd s') = exchange (snd s).
Proof.
  destruct s as [m e]. unfold check_atl.
  cbv beta iota zeta delta
    [bind read_mon gets in_menv time_time update_mon modify log ret fst snd].
  destruct (match dict_get _ _ with Some _ => _ | None => _ end);
    eexists; (split; [reflexivity |]); cbn; auto.
Qed.

Lemma check_extremes_returns k market_name (snapshot : OrderbookSnapshot A)
    (s : MS) :
  exists s',
    check_extremes k market_name snapshot s = (Ok tt, s') /\
    calls (snd s') = calls (snd s) /\ exchange (snd s') = exchange (snd s).
Proof.
  unfold check_extremes, bind.
  destruct (check_ath_returns k market_name (best_bid snapshot)
              (bid_size snapshot) "bid" s) as (s1 & -> & C1 & X1).
  destruct (check_ath_returns k market_name (best_ask snapshot)
              (ask_size snapshot) "ask" s1) as (s2 & -> & C2 & X2).
  destruct (check_atl_returns k market_name (best_bid snapshot)
              (bid_size snapshot) "bid" s2) as (s3 & -> & C3 & X3).
  destruct (check_atl_returns k market_name (best_ask snapshot)
              (ask_size snapshot) "ask" s3) as (s4 & -> & C4 & X4).
  exists s4. split; [reflexivity |]. split; congruence.
Qed.

Lemma try_log_returns (body : M MS unit) (message : exn -> LogMsg A) s :
  fst (try_except body (fun e => log (message e) ERROR) s) = Ok tt.
Proof.
  unfold try_except. destruct (body s) as [[[] | e] s1]; reflexivity.
Qed.

(** X9: no entry point of the monitor lets an exception through:
    [check_best_matches], [OrderbookMonitor.execute_arbitrage],
    [process_book_message], [process_orderbook_data] and
    [process_websocket_message] return normally from every state and on
    every input, whatever the executor and the client do, and so does every
    sequence of events. *)
Theorem monitor_entry_points_return (s : MS) :
  fst (check_best_matches create_order cancel_order s) = Ok tt /\
  (forall event_name market_type side1_name side1_price side1_market
          side2_name side2_price side2_market total,
      fst (monitor_execute_arbitrage create_order cancel_order event_name
             market_type side1_name side1_price side1_market
             side2_name side2_price side2_market total s) = Ok tt) /\
  (forall data,
      fst (process_book_message create_order cancel_order data s) = Ok tt) /\
  (forall token_id market_name data,
      fst (process_orderbook_data token_id market_name data s) = Ok tt) /\
  (forall data,
      fst (process_websocket_message create_order cancel_order data s)
        = Ok tt) /\
  (forall evs,
      fst (for_each evs (handle create_order cancel_order) s) = Ok tt).
Proof.
  split; [apply try_log_returns |].
  split; [intros; apply try_log_returns |].
  split; [intros; apply try_log_returns |].
  split; [intros; apply try_log_returns |].
  split; [intros; apply try_log_returns |].
  intros evs. revert s. induction evs as [| ev evs IH]; intros s.
  - reflexivity.
  - cbn [for_each]. unfold bind.
    pose proof (handle_returns create_order cancel_order ev s) as H.
    destruct (handle create_order cancel_order ev s) as [r s1].
    cbn [fst] in H. subst r. apply IH.
Qed.



End MonitorInvariants.

Section DetectionFacts.

Context {A : Type} {NumA : Number A}.
Variable Exchange : Type.
Variable create_order : OrderArgs A -> Exchange -> result Response * Exchange.
Variable cancel_order : string -> Exchange -> result unit * Exchange.

Local Abbreviation Mon := (OrderbookMonitor A).
Local Abbreviation MS := (MState A Exchange).

(** [scan_group] on a pair, step by step. *)
Lemma scan_group_pair event_name market_type (side1 side2 : Outcome A)
    (s : MS) :
  scan_group create_order cancel_order event_name market_type [side1; side2] s
  = if total_changed (last_totals (fst s)) (pair_key event_name market_type)
         (pair_total side1 side2)
    then
      let m1 := recorded event_name market_type side1 side2 (clock (snd s))
                  (fst s) in
      let e1 := tick (snd s) in
      if nltb (pair_total side1 side2) lit_1 then
        let m2 := matched event_name market_type side1 side2 (clock e1) m1 in
        let e2 := tick e1 in
        match arbitrage_executor (fst s) with
        | None => (Ok tt, (m2, e2))
        | Some ex =>
            match should_execute ex (pair_total side1 side2) with
            | Ok true =>
                monitor_execute_arbitrage create_order cancel_order
                  event_name market_type
                  (oc_outcome side1) (best_ask (oc_snapshot side1))
                  (market_name (oc_snapshot side1))
                  (oc_outcome side2) (best_ask (oc_snapshot side2))
                  (market_name (oc_snapshot side2))
                  (pair_total side1 side2) (m2, e2)
            | Ok false => (Ok tt, (m2, e2))
            | Raise e => (Raise e, (m2, e2))
            end
        end
      else (Ok tt, (m1, e1))
    else (Ok tt, s).
Proof.
  destruct s as [m e]. unfold scan_group. cbv zeta.
  fold (pair_key event_name market_type). fold (pair_total side1 side2).
  cbv beta iota delta
    [bind read_mon gets in_menv time_time update_mon modify log lift ret
     fst snd tick recorded total_record_of matched best_match_of].
  destruct (total_changed _ _ _); [| reflexivity].
  destruct (nltb (pair_total side1 side2) lit_1); [| reflexivity].
  cbn [arbitrage_executor set_logs set_best_matches set_last_totals
       set_total_records].
  destruct (arbitrage_executor m) as [ex |]; [| reflexivity].
  destruct (should_execute ex (pair_total side1 side2)) as [[|] | err];
    reflexivity.
Qed.

Lemma matches_follow_fields (m m' : Mon) :
  total_records m' = total_records m -> best_matches m' = best_matches m ->
  matches_follow_records m -> matches_follow_records m'.
Proof.
  unfold matches_follow_records. intros -> ->. auto.
Qed.

Lemma total_record_well_formed event_name market_type
    (side1 side2 : Outcome A) now :
  record_well_formed (total_record_of event_name market_type side1 side2 now).
Proof. repeat split. Qed.

Lemma matches_follow_recorded event_name market_type
    (side1 side2 : Outcome A) now now' (m : Mon) :
  matches_follow_records m ->
  (nltb (pair_total side1 side2) lit_1 = false ->
   matches_follow_records
     (recorded event_name market_type side1 side2 now m)) /\
  (nltb (pair_total side1 side2) lit_1 = true ->
   matches_follow_records
     (matched event_name market_type side1 side2 now'
        (recorded event_name market_type side1 side2 now m))).
Proof.
  intros [W E]. unfold matches_follow_records.
  split; intros H;
    cbn [recorded matched total_records best_matches set_logs
         set_best_matches set_last_totals set_total_records];
    rewrite filter_app; cbn [filter is_best total_record_of]; rewrite H.
  - split.
    + apply Forall_app. split; [exact W |].
      constructor; [apply total_record_well_formed | constructor].
    + rewrite app_nil_r. exact E.
  - split.
    + apply Forall_app. split; [exact W |].
      constructor; [apply total_record_well_formed | constructor].
    + rewrite !map_app, E. reflexivity.
Qed.

Lemma scan_group_matches_follow event_name market_type
    (outcomes : list (Outcome A)) :
  msteps (keeps (@matches_follow_records A NumA))
    (scan_group create_order cancel_order event_name market_type outcomes).
Proof.
  intros s H.
  destruct outcomes as [| side1 [| side2 [| c rest]]];
    try (rewrite scan_group_not_pair by (cbn; lia); exact H).
  rewrite scan_group_pair.
  destruct (total_changed _ _ _); [| exact H]. cbv zeta.
  destruct (matches_follow_recorded event_name market_type side1 side2
              (clock (snd s)) (clock (tick (snd s))) H) as [H0 H1].
  destruct (nltb (pair_total side1 side2) lit_1); [| exact (H0 eq_refl)].
  specialize (H1 eq_refl).
  destruct (arbitrage_executor (fst s)) as [ex |]; [| exact H1].
  destruct (should_execute ex (pair_total side1 side2)) as [[|] | err];
    try exact H1.
  match goal with
  | |- context [monitor_execute_arbitrage ?c ?d ?a1 ?a2 ?a3 ?a4 ?a5 ?a6 ?a7
                  ?a8 ?a9 ?s1] =>
      pose proof (monitor_execute_arbitrage_same create_order cancel_order
                    (f := fun m : Mon => (total_records m, best_matches m))
                    a1 a2 a3 a4 a5 a6 a7 a8 a9
                    ltac:(ign) ltac:(ign) s1) as F
  end.
  unfold same in F. cbn [fst] in F.
  pose proof (f_equal fst F) as F1. pose proof (f_equal snd F) as F2.
  cbn [fst snd] in F1, F2.
  exact (matches_follow_fields _ (eq_sym F1) (eq_sym F2) H1).
Qed.

(** X11: along any run the best matches are exactly the total records
    flagged [is_best], in the same order and with the same key, names,
    prices and sum.  From a monitor just constructed, every total record has
    total = side1_price + side2_price and is_best = (total < 1.0), and every
    best match has a total below 1.0. *)
Theorem best_matches_follow_total_records :
  (forall (evs : list (Event A)) (s : MS),
      matches_follow_records (fst s) ->
      matches_follow_records (fst (run create_order cancel_order evs s))) /\
  (forall (evs : list (Event A)) (executor : option (ArbitrageExecutor A))
          (env : Env A Exchange),
      let m := fst (run create_order cancel_order evs
                      (OrderbookMonitor_init executor, env)) in
      map pair_of_match (best_matches m)
        = map pair_of_record (filter (@is_best A) (total_records m)) /\
      List.length (best_matches m)
        = List.length (filter (@is_best A) (total_records m)) /\
      (forall r, In r (total_records m) ->
         tr_total r = nadd (tr_side1_price r) (tr_side2_price r) /\
         is_best r = nltb (tr_total r) lit_1) /\
      (forall b, In b (best_matches m) ->
         bm_total b = nadd (bm_side1_price b) (bm_side2_price b) /\
         nltb (bm_total b) lit_1 = true)).
Proof.
  assert (G : forall (evs : list (Event A)) (s : MS),
      matches_follow_records (fst s) ->
      matches_follow_records (fst (run create_order cancel_order evs s))).
  { intros evs s.
    change (keeps (@matches_follow_records A NumA) (fst s)
              (fst (run create_order cancel_order evs s))).
    apply (run_steps create_order cancel_order
             (R := keeps (@matches_follow_records A NumA))).
    - intros message level s0 H.
      eapply matches_follow_fields; [| | exact H]; reflexivity.
    - intros k market_name snapshot s0.
      assert (F : msteps (same (fun m : Mon =>
                                  (total_records m, best_matches m)))
                    (bind (store_snapshot (Exchange := Exchange) k snapshot)
                       (fun _ => check_extremes k market_name snapshot))).
      { msteps_go;
          [apply store_snapshot_same; ign | apply check_extremes_same; ign]. }
      specialize (F s0). unfold same in F.
      pose proof (f_equal fst F) as F1. pose proof (f_equal snd F) as F2.
      cbn [fst snd] in F1, F2.
      exact (matches_follow_fields _ (eq_sym F1) (eq_sym F2)).
    - apply scan_group_matches_follow.
    - intros x m H.
      eapply matches_follow_fields; [| | exact H]; reflexivity. }
  split; [exact G |].
  intros evs executor env m.
  assert (H : matches_follow_records m).
  { apply G. split; [constructor | reflexivity]. }
  destruct H as [W E].
  split; [exact E |].
  split; [rewrite <- (length_map pair_of_match), E, length_map; reflexivity |].
  assert (WR : forall r, In r (total_records m) ->
             tr_total r = nadd (tr_side1_price r) (tr_side2_price r) /\
             is_best r = nltb (tr_total r) lit_1).
  { intros r Hr. rewrite Forall_forall in W.
    destruct (W r Hr) as (_ & W2 & W3). auto. }
  split; [exact WR |].
  intros b Hb.
  assert (Hp : In (pair_of_match b)
                 (map pair_of_record (filter (@is_best A) (total_records m)))).
  { rewrite <- E. apply in_map. exact Hb. }
  apply in_map_iff in Hp. destruct Hp as (r & Er & Hr).
  apply filter_In in Hr. destruct Hr as [Hr Hbest].
  destruct (WR r Hr) as [W2 W3].
  unfold pair_of_record, pair_of_match in Er.
  inversion Er. split; [congruence |]. congruence.
Qed.

End DetectionFacts.

Section GateFacts.

Context {A : Type} {NumA : Number A}.
Variable Exchange : Type.
Variable create_order : OrderArgs A -> Exchange -> result Response * Exchange.
Variable cancel_order : string -> Exchange -> result unit * Exchange.

Local Abbreviation Mon := (OrderbookMonitor A).
Local Abbreviation MS := (MState A Exchange).

Section OneExecution.

Variables (event_name market_type : string).
Variables (side1_name : string) (side1_price : A) (side1_market : string).
Variables (side2_name : string) (side2_price : A) (side2_market : string).
Variable total : A.

Local Abbreviation run_it :=
  (monitor_execute_arbitrage create_order cancel_order event_name market_type
     side1_name side1_price side1_market side2_name side2_price side2_market
     total).

(** Without both token ids nothing happens but one log entry. *)
Lemma monitor_execute_arbitrage_no_token (s : MS) :
  opt_truthy (dict_get side1_market (market_to_token (fst s))) = false \/
  opt_truthy (dict_get side2_market (market_to_token (fst s))) = false ->
  run_it s = (Ok tt, (logged ERROR MsgCannotExecute (fst s), snd s)).
Proof.
  intros H. destruct s as [m e]. cbn [fst snd] in *.
  unfold monitor_execute_arbitrage.
  cbv beta iota delta [try_except bind read_mon gets fst snd].
  destruct (dict_get side1_market (market_to_token m)) as [t1 |];
    destruct (dict_get side2_market (market_to_token m)) as [t2 |];
    try reflexivity.
  cbn [opt_truthy] in H.
  destruct H as [H | H]; rewrite H; cbn [negb orb]; [reflexivity |].
  destruct (str_truthy t1); reflexivity.
Qed.

Lemma monitor_execute_arbitrage_tokens (s : MS) (t1 t2 : string)
    (ex : ArbitrageExecutor A) :
  dict_get side1_market (market_to_token (fst s)) = Some t1 ->
  dict_get side2_market (market_to_token (fst s)) = Some t2 ->
  str_truthy t1 = true -> str_truthy t2 = true ->
  arbitrage_executor (fst s) = Some ex ->
  (neqb total lit_0 = true ->
   run_it s
   = (Ok tt, (logged ERROR (MsgErrorExecuting ZeroDivisionError) (fst s),
              snd s))) /\
  (neqb total lit_0 = false ->
   let opp := opportunity_for event_name market_type side1_name side1_price t1
                side2_name side2_price t2 total (clock (snd s)) in
   let call := execute_arbitrage create_order cancel_order opp
                 (ex, tick (snd s)) in
   arbitrage_executor (fst (snd (run_it s))) = Some (fst (snd call)) /\
   snd (snd (run_it s)) = snd (snd call)).
Proof.
  intros H1 H2 T1 T2 Hex. destruct s as [m e]. cbn [fst snd] in *.
  unfold monitor_execute_arbitrage, py_div.
  cbv beta iota delta [try_except bind read_mon gets fst snd].
  rewrite H1, H2, T1, T2. cbn [negb orb].
  split; intros Hz; rewrite Hz.
  - reflexivity.
  - cbv beta iota zeta delta
      [lift in_menv time_time log update_mon modify fst snd with_executor
       tick opportunity_for logged].
    cbn [arbitrage_executor set_logs]. rewrite Hex.
    match goal with
    | |- context [execute_arbitrage ?c ?d ?o ?st] =>
        destruct (execute_arbitrage c d o st) as [[x | err] [ex' e']]
    end; [destruct (success x) |]; split; reflexivity.
Qed.

End OneExecution.

Lemma should_execute_settings (ex ex' : ArbitrageExecutor A) (t : A) :
  settings ex' = settings ex -> should_execute ex' t = should_execute ex t.
Proof.
  unfold settings. intros H. inversion H as [[E1 E2 E3 E4 E5 E6]].
  unfold should_execute. rewrite E3, E4. reflexivity.
Qed.

Lemma passed_gate_settings (ex ex' : ArbitrageExecutor A)
    (x : ArbitrageExecution A) :
  settings ex' = settings ex -> passed_gate ex x -> passed_gate ex' x.
Proof.
  intros H [P1 P2]. split; [exact P1 |].
  rewrite (should_execute_settings _ H). exact P2.
Qed.

#[local] Instance engine_advances_PreOrder : PreOrder (@engine_advances A NumA).
Proof.
  split.
  - intros m. unfold engine_advances.
    destruct (arbitrage_executor m) as [ex |] eqn:E; [| reflexivity].
    exists ex, [].
    split; [reflexivity |]. split; [reflexivity |].
    split; [symmetry; apply app_nil_r |].
    split; [constructor | cbn; lia].
  - intros a b c Hab Hbc. unfold engine_advances in *.
    destruct (arbitrage_executor a) as [exa |].
    + destruct Hab as (exb & n1 & Eb & Sb & Xb & Fb & Lb).
      rewrite Eb in Hbc.
      destruct Hbc as (exc & n2 & Ec & Sc & Xc & Fc & Lc).
      exists exc, (n1 ++ n2).
      split; [exact Ec |]. split; [congruence |].
      split; [rewrite Xc, Xb, app_assoc; reflexivity |].
      split.
      * apply Forall_app. split; [exact Fb |].
        eapply Forall_impl; [| exact Fc].
        intros x. apply passed_gate_settings. congruence.
      * rewrite length_app. lia.
    + rewrite Hab in Hbc. exact Hbc.
Qed.

Lemma engine_advances_fields (m m' : Mon) :
  arbitrage_executor m' = arbitrage_executor m ->
  List.length (best_matches m) <= List.length (best_matches m') ->
  engine_advances m m'.
Proof.
  intros E L. unfold engine_advances. rewrite E.
  destruct (arbitrage_executor m) as [ex |]; [| reflexivity].
  exists ex, [].
  split; [reflexivity |]. split; [reflexivity |].
  split; [symmetry; apply app_nil_r |].
  split; [constructor | cbn; lia].
Qed.

(** One call of the executor, seen from the monitor. *)
Lemma execute_arbitrage_advances (ex : ArbitrageExecutor A)
    (env : Env A Exchange) (opp : ArbitrageOpportunity A) :
  passed_gate ex
    (execution_record opp ex lit_0 lit_0 None None false None 0) ->
  let ex' := fst (snd (execute_arbitrage create_order cancel_order opp
                         (ex, env))) in
  exists new,
    settings ex' = settings ex /\ executions ex' = executions ex ++ new /\
    Forall (passed_gate ex) new /\ List.length new <= 1.
Proof.
  intros P.
  destruct (execute_arbitrage_sized_or_raises create_order cancel_order
              ex env opp) as [(s1 & s2 & profit & Hs & Hp) | E].
  - destruct (execute_arbitrage_cases create_order cancel_order ex env opp
                Hs Hp)
      as (o1 & o2 & ok & err & envk & sent & self1 & E & _ & _ & Hk).
    cbv zeta. rewrite E. cbn [fst snd]. eexists [_].
    split; [| split; [| split; [| cbn; lia]]].
    + destruct Hk as [(_ & _ & -> & _) | (_ & _ & -> & _)]; reflexivity.
    + destruct Hk as [(_ & _ & -> & _) | (_ & _ & -> & _)]; reflexivity.
    + constructor; [exact P | constructor].
  - cbv zeta. rewrite E. cbn [fst snd]. exists [].
    rewrite app_nil_r.
    split; [reflexivity |]. split; [reflexivity |].
    split; [constructor | cbn; lia].
Qed.

Lemma monitor_execute_arbitrage_advances event_name market_type
    side1_name side1_price side1_market side2_name side2_price side2_market
    (s : MS) (ex : ArbitrageExecutor A) :
  arbitrage_executor (fst s) = Some ex ->
  should_execute ex (nadd side1_price side2_price) = Ok true ->
  let s' := snd (monitor_execute_arbitrage create_order cancel_order
                   event_name market_type side1_name side1_price side1_market
                   side2_name side2_price side2_market
                   (nadd side1_price side2_price) s) in
  best_matches (fst s') = best_matches (fst s) /\
  exists ex' new,
    arbitrage_executor (fst s') = Some ex' /\
    settings ex' = settings ex /\ executions ex' = executions ex ++ new /\
    Forall (passed_gate ex) new /\ List.length new <= 1.
Proof.
  intros Hex Hgo s'. split.
  { symmetry.
    apply (monitor_execute_arbitrage_same create_order cancel_order
             (f := @best_matches A)); ign. }
  assert (Same : arbitrage_executor (fst s') = Some ex ->
            exists ex' new,
              arbitrage_executor (fst s') = Some ex' /\
              settings ex' = settings ex /\
              executions ex' = executions ex ++ new /\
              Forall (passed_gate ex) new /\ List.length new <= 1).
  { intros E. exists ex, [].
    split; [exact E |]. split; [reflexivity |].
    split; [symmetry; apply app_nil_r |].
    split; [constructor | cbn; lia]. }
  destruct (opt_truthy (dict_get side1_market (market_to_token (fst s))))
    eqn:T1.
  2: { apply Same. unfold s'.
       rewrite monitor_execute_arbitrage_no_token by (left; exact T1).
       exact Hex. }
  destruct (opt_truthy (dict_get side2_market (market_to_token (fst s))))
    eqn:T2.
  2: { apply Same. unfold s'.
       rewrite monitor_execute_arbitrage_no_token by (right; exact T2).
       exact Hex. }
  destruct (dict_get side1_market (market_to_token (fst s))) as [t1 |] eqn:D1;
    [| discriminate].
  destruct (dict_get side2_market (market_to_token (fst s))) as [t2 |] eqn:D2;
    [| discriminate].
  cbn [opt_truthy] in T1, T2.
  destruct (monitor_execute_arbitrage_tokens event_name market_type side1_name
              side1_price side1_market side2_name side2_price side2_market
              (nadd side1_price side2_price) s D1 D2 T1 T2 Hex) as [Z NZ].
  destruct (neqb (nadd side1_price side2_price) lit_0) eqn:Ez.
  - apply Same. unfold s'. rewrite (Z eq_refl). exact Hex.
  - destruct (NZ eq_refl) as [E _]. cbv zeta in E.
    match type of E with
    | _ = Some (fst (snd (execute_arbitrage _ _ ?opp (_, ?env)))) =>
        destruct (@execute_arbitrage_advances ex env opp)
          as (new & S1 & X1 & F1 & L1)
    end.
    { split; [reflexivity | exact Hgo]. }
    eexists. exists new. split; [exact E |]. auto.
Qed.

Lemma scan_group_advances event_name market_type
    (outcomes : list (Outcome A)) :
  msteps (@engine_advances A NumA)
    (scan_group create_order cancel_order event_name market_type outcomes).
Proof.
  intros s.
  destruct outcomes as [| side1 [| side2 [| c rest]]];
    try (rewrite scan_group_not_pair by (cbn; lia); reflexivity).
  rewrite scan_group_pair.
  destruct (total_changed _ _ _); [| reflexivity]. cbv zeta.
  destruct (nltb (pair_total side1 side2) lit_1).
  2: { apply engine_advances_fields; [reflexivity | cbn; lia]. }
  assert (Found :
            engine_advances (fst s)
              (matched event_name market_type side1 side2
                 (clock (tick (snd s)))
                 (recorded event_name market_type side1 side2
                    (clock (snd s)) (fst s)))).
  { apply engine_advances_fields; [reflexivity |].
    cbn [matched recorded best_matches set_logs set_best_matches
         set_last_totals set_total_records].
    rewrite length_app. lia. }
  destruct (arbitrage_executor (fst s)) as [ex |] eqn:Hex;
    [| exact Found].
  destruct (should_execute ex (pair_total side1 side2)) as [[|] | err] eqn:Hgo;
    try exact Found.
  match goal with
  | |- context [monitor_execute_arbitrage _ _ _ _ _ _ _ _ _ _ _ ?s1] =>
      destruct (monitor_execute_arbitrage_advances event_name market_type
                  (oc_outcome side1) (best_ask (oc_snapshot side1))
                  (market_name (oc_snapshot side1))
                  (oc_outcome side2) (best_ask (oc_snapshot side2))
                  (market_name (oc_snapshot side2)) s1 (ex := ex))
        as (B & ex' & new & E' & S' & X' & F' & L')
  end.
  { exact Hex. }
  { exact Hgo. }
  unfold engine_advances. rewrite Hex. exists ex', new.
  split; [exact E' |]. split; [exact S' |]. split; [exact X' |].
  split; [exact F' |].
  unfold pair_total in B |- *. rewrite B.
  cbn [matched recorded best_matches set_logs set_best_matches
       set_last_totals set_total_records fst].
  rewrite length_app. cbn [List.length]. lia.
Qed.

Lemma should_execute_true (ex : ArbitrageExecutor A) (t : A) :
  should_execute ex t = Ok true ->
  auto_execute ex = true /\ ngeb t lit_1 = false /\ neqb t lit_0 = false /\
  nltb (nmul (ndiv (nsub lit_1 t) t) lit_100) (min_profit_percent ex) = false.
Proof.
  unfold should_execute, py_div.
  destruct (auto_execute ex); [| discriminate]. cbn [negb].
  destruct (ngeb t lit_1); [discriminate |].
  destruct (neqb t lit_0); [discriminate |]. cbn [rbind].
  destruct (nltb _ (min_profit_percent ex)); [discriminate |]. auto.
Qed.

(** X12: along any run a monitor without an executor stays without; an
    attached executor keeps its settings and its execution log only grows,
    by at most one execution for each best match found during the run; and
    every execution added is of an opportunity whose total is the sum of its
    two prices and which [should_execute] accepts: the total is below 1.0,
    is not zero, and its profit percentage is not below the minimum. *)
Theorem monitor_executes_only_gated_matches (evs : list (Event A)) (s : MS) :
  let m' := fst (run create_order cancel_order evs s) in
  match arbitrage_executor (fst s) with
  | None => arbitrage_executor m' = None
  | Some ex =>
      exists ex' new,
        arbitrage_executor m' = Some ex' /\
        settings ex' = settings ex /\
        executions ex' = executions ex ++ new /\
        List.length new + List.length (best_matches (fst s))
          <= List.length (best_matches m') /\
        forall x, In x new ->
          let total := opp_total (opportunity x) in
          total = nadd (opp_side1_price (opportunity x))
                    (opp_side2_price (opportunity x)) /\
          should_execute ex total = Ok true /\
          ngeb total lit_1 = false /\ neqb total lit_0 = false /\
          nltb (nmul (ndiv (nsub lit_1 total) total) lit_100)
            (min_profit_percent ex) = false
  end.
Proof.
  cbv zeta.
  assert (G : engine_advances (fst s)
                (fst (run create_order cancel_order evs s))).
  { apply (run_steps create_order cancel_order
             (R := @engine_advances A NumA)).
    - intros message level s0.
      apply engine_advances_fields; [reflexivity | cbn; lia].
    - intros k market_name snapshot s0.
      assert (F : msteps (same (fun m : Mon =>
                                  (arbitrage_executor m, best_matches m)))
                    (bind (store_snapshot (Exchange := Exchange) k snapshot)
                       (fun _ => check_extremes k market_name snapshot))).
      { msteps_go;
          [apply store_snapshot_same; ign | apply check_extremes_same; ign]. }
      specialize (F s0). unfold same in F.
      pose proof (f_equal fst F) as F1. pose proof (f_equal snd F) as F2.
      cbn [fst snd] in F1, F2.
      apply engine_advances_fields; [symmetry; exact F1 |].
      rewrite F2. lia.
    - apply scan_group_advances.
    - intros x m. apply engine_advances_fields; [reflexivity | cbn; lia]. }
  unfold engine_advances in G.
  destruct (arbitrage_executor (fst s)) as [ex |]; [| exact G].
  destruct G as (ex' & new & E & S' & X & F & L).
  exists ex', new. repeat (split; [assumption |]).
  intros x Hx. rewrite Forall_forall in F.
  destruct (F x Hx) as [P1 P2].
  split; [exact P1 |]. split; [exact P2 |].
  destruct (should_execute_true _ _ P2) as (_ & G1 & G2 & G3). auto.
Qed.

(** X13: [OrderbookMonitor.execute_arbitrage] looks the two market names
    up in [market_to_token].  When either token is missing or empty it only
    logs, at ERROR level, that it cannot execute, and touches neither the
    executor nor the exchange.  With both tokens and an executor, a total of
    zero makes it log the [ZeroDivisionError] of the profit percentage and
    do nothing else; otherwise it returns normally after one call to the
    executor, on the opportunity built from its arguments, the two tokens
    and the clock reading, and the executor and the environment are those
    that call leaves. *)
Theorem execution_needs_both_tokens event_name market_type
    side1_name (side1_price : A) side1_market
    side2_name (side2_price : A) side2_market (total : A) (s : MS) :
  let attempt :=
    monitor_execute_arbitrage create_order cancel_order event_name market_type
      side1_name side1_price side1_market side2_name side2_price side2_market
      total s in
  let token1 := dict_get side1_market (market_to_token (fst s)) in
  let token2 := dict_get side2_market (market_to_token (fst s)) in
  (opt_truthy token1 = false \/ opt_truthy token2 = false ->
   attempt = (Ok tt, (logged ERROR MsgCannotExecute (fst s), snd s))) /\
  (forall t1 t2 ex,
      token1 = Some t1 -> token2 = Some t2 ->
      str_truthy t1 = true -> str_truthy t2 = true ->
      arbitrage_executor (fst s) = Some ex ->
      (neqb total lit_0 = true ->
       attempt
       = (Ok tt, (logged ERROR (MsgErrorExecuting ZeroDivisionError) (fst s),
                  snd s))) /\
      (neqb total lit_0 = false ->
       let call :=
         execute_arbitrage create_order cancel_order
           (opportunity_for event_name market_type side1_name side1_price t1
              side2_name side2_price t2 total (clock (snd s)))
           (ex, tick (snd s)) in
       fst attempt = Ok tt /\
       arbitrage_executor (fst (snd attempt)) = Some (fst (snd call)) /\
       snd (snd attempt) = snd (snd call))).
Proof.
  cbv zeta. split.
  - apply monitor_execute_arbitrage_no_token.
  - intros t1 t2 ex D1 D2 T1 T2 Hex.
    destruct (monitor_execute_arbitrage_tokens event_name market_type
                side1_name side1_price side1_market side2_name side2_price
                side2_market total s D1 D2 T1 T2 Hex) as [Z NZ].
    split; [exact Z |]. intros Hz.
    split; [apply try_log_returns | exact (NZ Hz)].
Qed.

End GateFacts.

Lemma length_append (a b : string) :
  String.length (a ++ b) = String.length a + String.length b.
Proof. induction a as [| c a IH]; cbn; [reflexivity | rewrite IH; reflexivity]. Qed.

Lemma append_inj_same_length (a b x y : string) :
  String.length x = String.length y -> (a ++ x = b ++ y)%string ->
  a = b /\ x = y.
Proof.
  intros L. revert b. induction a as [| c a IH]; intros [| d b] E; cbn in E.
  - auto.
  - apply (f_equal String.length) in E. cbn in E.
    rewrite length_append in E. lia.
  - apply (f_equal String.length) in E. cbn in E.
    rewrite length_append in E. lia.
  - inversion E; subst. destruct (IH b) as [-> ->]; auto.
Qed.

Lemma extreme_key_inj (k k' side side' : string) :
  String.length side = String.length side' ->
  extreme_key k side = extreme_key k' side' -> k = k' /\ side = side'.
Proof.
  unfold extreme_key. intros L E.
  destruct (append_inj_same_length k k' ("_" ++ side) ("_" ++ side')) as [E1 E2].
  - cbn. rewrite L. reflexivity.
  - exact E.
  - inversion E2. auto.
Qed.

Lemma extreme_key_bid_ask (k k' : string) :
  extreme_key k "bid" <> extreme_key k' "ask".
Proof.
  intros E. apply extreme_key_inj in E; [| reflexivity].
  destruct E as [_ E]. discriminate.
Qed.

Section ExtremesBracket.

Local Open Scope Q_scope.

Variable Exchange : Type.
Variable create_order : OrderArgs Q -> Exchange -> result Response * Exchange.
Variable cancel_order : string -> Exchange -> result unit * Exchange.

Local Abbreviation Mon := (OrderbookMonitor Q).
Local Abbreviation MS := (MState Q Exchange).

Lemma dict_get_set (k k' : string) {V} (v : V) (d : dict V) :
  dict_get k (dict_set k' v d)
  = if String.eqb k k' then Some v else dict_get k d.
Proof.
  destruct (String.eqb k k') eqn:E.
  - apply String.eqb_eq in E. subst. apply dict_get_set_eq.
  - apply dict_get_set_neq. exact E.
Qed.

(** One high-check: the other keys keep their record, and the key checked has
    a record at or above the price. *)
Lemma check_ath_after k market_name (price size : Q) side (s : MS) :
  let s' := snd (check_ath k market_name price size side s) in
  (forall key, key <> extreme_key k side ->
     dict_get key (ath_records (fst s')) = dict_get key (ath_records (fst s)))
  /\
  (exists h, dict_get (extreme_key k side) (ath_records (fst s')) = Some h /\
             price <= ath_price h) /\
  atl_records (fst s') = atl_records (fst s) /\
  current_snapshots (fst s') = current_snapshots (fst s).
Proof.
  cbv zeta. split; [| split; [| split]].
  - intros key Hk. rewrite check_ath_effect. cbv zeta.
    fold (extreme_key k side).
    assert (N : String.eqb key (extreme_key k side) = false)
      by (apply String.eqb_neq; exact Hk).
    destruct (dict_get (extreme_key k side) (ath_records (fst s))) as [r |];
      [destruct (ngtb price (ath_price r)) |];
      try reflexivity; apply dict_get_set_neq; exact N.
  - rewrite check_ath_effect. cbv zeta. fold (extreme_key k side).
    destruct (dict_get (extreme_key k side) (ath_records (fst s)))
      as [r |] eqn:E.
    + destruct (ngtb price (ath_price r)) eqn:G.
      * rewrite dict_get_set_eq. eexists. split; [reflexivity |].
        cbn. apply Qle_refl.
      * exists r. split; [exact E |].
        apply Qnot_lt_le. intros L. apply Qltb_lt in L.
        unfold ngtb in G. cbn [nltb Number_Q] in G. congruence.
    + rewrite dict_get_set_eq. eexists. split; [reflexivity |].
      cbn. apply Qle_refl.
  - symmetry. apply (check_ath_same (f := @atl_records Q)); ign.
  - symmetry. apply (check_ath_same (f := @current_snapshots Q)); ign.
Qed.

Lemma check_atl_after k market_name (price size : Q) side (s : MS) :
  let s' := snd (check_atl k market_name price size side s) in
  (forall key, key <> extreme_key k side ->
     dict_get key (atl_records (fst s')) = dict_get key (atl_records (fst s)))
  /\
  (exists l, dict_get (extreme_key k side) (atl_records (fst s')) = Some l /\
             atl_price l <= price) /\
  ath_records (fst s') = ath_records (fst s) /\
  current_snapshots (fst s') = current_snapshots (fst s).
Proof.
  cbv zeta. split; [| split; [| split]].
  - intros key Hk. rewrite check_atl_effect. cbv zeta.
    fold (extreme_key k side).
    assert (N : String.eqb key (extreme_key k side) = false)
      by (apply String.eqb_neq; exact Hk).
    destruct (dict_get (extreme_key k side) (atl_records (fst s))) as [r |];
      [destruct (nltb price (atl_price r)) |];
      try reflexivity; apply dict_get_set_neq; exact N.
  - rewrite check_atl_effect. cbv zeta. fold (extreme_key k side).
    destruct (dict_get (extreme_key k side) (atl_records (fst s)))
      as [r |] eqn:E.
    + destruct (nltb price (atl_price r)) eqn:G.
      * rewrite dict_get_set_eq. eexists. split; [reflexivity |].
        cbn. apply Qle_refl.
      * exists r. split; [exact E |].
        apply Qnot_lt_le. intros L. apply Qltb_lt in L.
        cbn [nltb Number_Q] in G. congruence.
    + rewrite dict_get_set_eq. eexists. split; [reflexivity |].
      cbn. apply Qle_refl.
  - symmetry. apply (check_atl_same (f := @ath_records Q)); ign.
  - symmetry. apply (check_atl_same (f := @current_snapshots Q)); ign.
Qed.

(** Storing a snapshot and checking its four prices. *)
Lemma ingest_after k market_name (snapshot : OrderbookSnapshot Q) (s : MS) :
  let s' := snd (bind (store_snapshot k snapshot)
                   (fun _ => check_extremes k market_name snapshot) s) in
  current_snapshots (fst s')
    = dict_set k snapshot (current_snapshots (fst s)) /\
  (forall key, key <> extreme_key k "bid" -> key <> extreme_key k "ask" ->
     dict_get key (ath_records (fst s')) = dict_get key (ath_records (fst s))
     /\
     dict_get key (atl_records (fst s')) = dict_get key (atl_records (fst s)))
  /\
  between_extremes (fst s') k "bid" (best_bid snapshot) /\
  between_extremes (fst s') k "ask" (best_ask snapshot).
Proof.
  cbv zeta.
  remember (snd (bind (store_snapshot k snapshot)
                   (fun _ => check_extremes k market_name snapshot) s))
    as s' eqn:Es.
  unfold bind at 1 in Es. rewrite store_snapshot_eq in Es.
  set (s0 := (stored k snapshot (fst s), snd s)) in Es.
  unfold check_extremes, bind in Es.
  pose proof (check_ath_after k market_name (best_bid snapshot)
                (bid_size snapshot) "bid" s0) as A1.
  destruct (check_ath_returns k market_name (best_bid snapshot)
              (bid_size snapshot) "bid" s0) as (s1 & R1 & _).
  rewrite R1 in Es, A1. cbn [fst snd] in A1.
  pose proof (check_ath_after k market_name (best_ask snapshot)
                (ask_size snapshot) "ask" s1) as A2.
  destruct (check_ath_returns k market_name (best_ask snapshot)
              (ask_size snapshot) "ask" s1) as (s2 & R2 & _).
  rewrite R2 in Es, A2. cbn [fst snd] in A2.
  pose proof (check_atl_after k market_name (best_bid snapshot)
                (bid_size snapshot) "bid" s2) as A3.
  destruct (check_atl_returns k market_name (best_bid snapshot)
              (bid_size snapshot) "bid" s2) as (s3 & R3 & _).
  rewrite R3 in Es, A3. cbn [fst snd] in A3.
  pose proof (check_atl_after k market_name (best_ask snapshot)
                (ask_size snapshot) "ask" s3) as A4.
  destruct (check_atl_returns k market_name (best_ask snapshot)
              (ask_size snapshot) "ask" s3) as (s4 & R4 & _).
  rewrite R4 in Es, A4. cbn [fst snd] in A4, Es. subst s'.
  destruct A1 as (O1 & (h1 & H1 & L1) & T1 & C1).
  destruct A2 as (O2 & (h2 & H2 & L2) & T2 & C2).
  destruct A3 as (O3 & (l3 & H3 & L3) & T3 & C3).
  destruct A4 as (O4 & (l4 & H4 & L4) & T4 & C4).
  pose proof (@extreme_key_bid_ask k k) as Nba.
  assert (Nab : extreme_key k "ask" <> extreme_key k "bid") by congruence.
  split; [| split; [| split]].
  - rewrite C4, C3, C2, C1. reflexivity.
  - intros key Nb Na. split.
    + rewrite T4, T3, (O2 key Na), (O1 key Nb). reflexivity.
    + rewrite (O4 key Na), (O3 key Nb), T2, T1. reflexivity.
  - exists h1, l3. rewrite T4, T3, (O2 _ Nba), (O4 _ Nba). auto.
  - exists h2, l4. rewrite T4, T3. auto.
Qed.

Lemma ingest_consistent k market_name (snapshot : OrderbookSnapshot Q) :
  msteps (keeps extremes_consistent)
    (bind (store_snapshot (Exchange := Exchange) k snapshot)
       (fun _ => check_extremes k market_name snapshot)).
Proof.
  intros s (I1 & I2 & I3).
  destruct (ingest_after k market_name snapshot s) as (C & O & Bb & Ba).
  set (s' := snd (bind (store_snapshot k snapshot)
                    (fun _ => check_extremes k market_name snapshot) s)) in *.
  assert (Touched : forall key,
            key = extreme_key k "bid" \/ key = extreme_key k "ask" ->
            exists h l,
              dict_get key (ath_records (fst s')) = Some h /\
              dict_get key (atl_records (fst s')) = Some l /\
              atl_price l <= ath_price h).
  { intros key [-> | ->].
    - destruct Bb as (h & l & Hh & Hl & L1 & L2). exists h, l.
      split; [exact Hh |]. split; [exact Hl |]. eapply Qle_trans; eassumption.
    - destruct Ba as (h & l & Hh & Hl & L1 & L2). exists h, l.
      split; [exact Hh |]. split; [exact Hl |]. eapply Qle_trans; eassumption. }
  assert (Dec : forall key,
            (key = extreme_key k "bid" \/ key = extreme_key k "ask") \/
            (key <> extreme_key k "bid" /\ key <> extreme_key k "ask")).
  { intros key.
    destruct (string_dec key (extreme_key k "bid")) as [E | N];
      [left; left; exact E |].
    destruct (string_dec key (extreme_key k "ask")) as [E | N'];
      [left; right; exact E | right; auto]. }
  split; [| split].
  - intros key. destruct (Dec key) as [T | [Nb Na]].
    + destruct (Touched key T) as (h & l & Hh & Hl & _).
      rewrite Hh, Hl. split; discriminate.
    + destruct (O key Nb Na) as [-> ->]. apply I1.
  - intros key h l Hh Hl. destruct (Dec key) as [T | [Nb Na]].
    + destruct (Touched key T) as (h' & l' & Hh' & Hl' & L).
      congruence.
    + destruct (O key Nb Na) as [E1 E2]. rewrite E1 in Hh. rewrite E2 in Hl.
      exact (I2 key h l Hh Hl).
  - intros k' snapshot' Hc. fold s' in C. rewrite C in Hc.
    rewrite dict_get_set in Hc.
    destruct (String.eqb k' k) eqn:E.
    + apply String.eqb_eq in E. subst k'. inversion Hc; subst snapshot'.
      split; assumption.
    + apply String.eqb_neq in E.
      assert (Other : forall side side',
                extreme_key k' side <> extreme_key k side' \/
                String.length side <> String.length side').
      { intros side side'.
        destruct (Nat.eq_dec (String.length side) (String.length side'))
          as [L | L]; [left | right; exact L].
        intros F. apply extreme_key_inj in F; [| exact L].
        destruct F as [F _]. contradiction. }
      assert (Keep : forall side price,
                String.length side = 3%nat ->
                between_extremes (fst s) k' side price ->
                between_extremes (fst s') k' side price).
      { intros side price L (h & l & Hh & Hl & L1 & L2).
        exists h, l.
        destruct (O (extreme_key k' side)) as [E1 E2].
        - destruct (Other side "bid") as [N | N]; [exact N |].
          cbn in N. lia.
        - destruct (Other side "ask") as [N | N]; [exact N |].
          cbn in N. lia.
        - rewrite E1, E2. auto. }
      destruct (I3 k' snapshot' Hc) as [B1 B2].
      split; apply Keep; try reflexivity; assumption.
Qed.

End ExtremesBracket.

Section ExtremesBracket2.

Local Open Scope Q_scope.

Variable Exchange : Type.
Variable create_order : OrderArgs Q -> Exchange -> result Response * Exchange.
Variable cancel_order : string -> Exchange -> result unit * Exchange.

Local Abbreviation Mon := (OrderbookMonitor Q).
Local Abbreviation MS := (MState Q Exchange).

Lemma extremes_consistent_fields (m m' : Mon) :
  ath_records m' = ath_records m -> atl_records m' = atl_records m ->
  current_snapshots m' = current_snapshots m ->
  extremes_consistent m -> extremes_consistent m'.
Proof.
  unfold extremes_consistent, between_extremes. intros -> -> ->. auto.
Qed.

(** X14: over exact prices, the consistency of the recorded extremes is
    kept along any run, and from a monitor just constructed: a high is
    recorded for a key exactly when a low is; no recorded low is above the
    recorded high of its key; and for every instrument with a current
    snapshot both sides have recorded extremes, and the current best bid and
    best ask lie between the low and the high of their side. *)
Theorem prices_lie_between_extremes :
  (forall (evs : list (Event Q)) (s : MS),
      extremes_consistent (fst s) ->
      extremes_consistent (fst (run create_order cancel_order evs s))) /\
  (forall (evs : list (Event Q)) (executor : option (ArbitrageExecutor Q))
          (env : Env Q Exchange),
      let m := fst (run create_order cancel_order evs
                      (OrderbookMonitor_init executor, env)) in
      (forall key, dict_get key (ath_records m) = None <->
                   dict_get key (atl_records m) = None) /\
      (forall key h l,
          dict_get key (ath_records m) = Some h ->
          dict_get key (atl_records m) = Some l ->
          atl_price l <= ath_price h) /\
      (forall k snapshot,
          dict_get k (current_snapshots m) = Some snapshot ->
          (exists h l,
              dict_get (k ++ "_bid")%string (ath_records m) = Some h /\
              dict_get (k ++ "_bid")%string (atl_records m) = Some l /\
              atl_price l <= best_bid snapshot /\
              best_bid snapshot <= ath_price h) /\
          (exists h l,
              dict_get (k ++ "_ask")%string (ath_records m) = Some h /\
              dict_get (k ++ "_ask")%string (atl_records m) = Some l /\
              atl_price l <= best_ask snapshot /\
              best_ask snapshot <= ath_price h))).
Proof.
  assert (G : forall (evs : list (Event Q)) (s : MS),
      extremes_consistent (fst s) ->
      extremes_consistent (fst (run create_order cancel_order evs s))).
  { intros evs s.
    change (keeps extremes_consistent (fst s)
              (fst (run create_order cancel_order evs s))).
    apply (run_steps create_order cancel_order
             (R := keeps extremes_consistent)).
    - intros message level s0 H.
      eapply extremes_consistent_fields; [| | | exact H]; reflexivity.
    - apply ingest_consistent.
    - intros event_name market_type outcomes s0 H.
      pose proof (scan_group_same create_order cancel_order
                    (f := fun m : Mon =>
                            (ath_records m, atl_records m, current_snapshots m))
                    event_name market_type outcomes
                    ltac:(ign) ltac:(ign) ltac:(ign) ltac:(ign) ltac:(ign) s0)
        as F.
      unfold same in F.
      pose proof (f_equal (fun p => fst (fst p)) F) as F1.
      pose proof (f_equal (fun p => snd (fst p)) F) as F2.
      pose proof (f_equal snd F) as F3. cbn [fst snd] in F1, F2, F3.
      exact (extremes_consistent_fields _ (eq_sym F1) (eq_sym F2)
               (eq_sym F3) H).
    - intros x m H.
      eapply extremes_consistent_fields; [| | | exact H]; reflexivity. }
  split; [exact G |].
  intros evs executor env m.
  assert (H : extremes_consistent m).
  { apply G. split; [| split].
    - intros key. split; reflexivity.
    - intros key h l F. discriminate.
    - intros k snapshot F. discriminate. }
  destruct H as (I1 & I2 & I3).
  split; [exact I1 |]. split; [exact I2 |].
  intros k snapshot Hc. exact (I3 k snapshot Hc).
Qed.

(** [min_by_price] returns the first of the entries of least price. *)
Lemma min_by_price_first (best : Level Q) (rest : list (Level Q)) :
  exists earlier later,
    best :: rest = earlier ++ min_by_price best rest :: later /\
    (forall x, In x earlier ->
       lv_price (min_by_price best rest) < lv_price x) /\
    (forall x, In x later ->
       lv_price (min_by_price best rest) <= lv_price x).
Proof.
  revert best. induction rest as [| y rest IH]; intros best;
    cbn [min_by_price].
  - exists [], []. split; [reflexivity |]. split; intros x [].
  - destruct (nltb (lv_price y) (lv_price best)) eqn:E.
    + destruct (IH y) as (pre & post & Eq & Hpre & Hpost).
      exists (best :: pre), post. rewrite Eq.
      split; [reflexivity |]. split; [| exact Hpost].
      intros x [<- | Hx]; [| apply Hpre; exact Hx].
      apply Qle_lt_trans with (lv_price y).
      * apply (proj2 (min_by_price_least y rest)). left. reflexivity.
      * apply Qltb_lt. exact E.
    + assert (Ley : lv_price best <= lv_price y).
      { apply Qnot_lt_le. intros L. apply Qltb_lt in L.
        cbn [nltb Number_Q] in E. congruence. }
      destruct (IH best) as (pre & post & Eq & Hpre & Hpost).
      destruct pre as [| b pre].
      * cbn [app] in Eq. injection Eq as Eb Er.
        exists [], (y :: post). rewrite <- Eb in *.
        split; [cbn [app]; rewrite <- Er; reflexivity |].
        split; [intros x [] |].
        intros x [<- | Hx]; [exact Ley |].
        apply Hpost. exact Hx.
      * cbn [app] in Eq. injection Eq as Eb Er. subst b.
        exists (best :: y :: pre), post.
        split; [cbn [app]; do 2 f_equal; exact Er |].
        split; [| exact Hpost].
        intros x [<- | [<- | Hx]].
        -- apply Hpre. left. reflexivity.
        -- apply Qlt_le_trans with (lv_price best); [| exact Ley].
           apply Hpre. left. reflexivity.
        -- apply Hpre. right. exact Hx.
Qed.

Lemma make_snapshot_reads_book (data : Book Q) now k market_name
    bid0 bids' ask0 asks' :
  bids data = bid0 :: bids' -> asks data = ask0 :: asks' ->
  reads_book data
    (make_snapshot now k market_name bid0 (min_by_price ask0 asks')).
Proof.
  intros Hb Ha. unfold reads_book, make_snapshot, level.
  cbn [best_bid bid_size best_ask ask_size spread mid_price].
  split; [| split; [| split]].
  - exists bids'. rewrite Hb. destruct bid0. reflexivity.
  - destruct (min_by_price_first ask0 asks') as (pre & post & Eq & H1 & H2).
    exists pre, post. rewrite Ha, Eq.
    split; [destruct (min_by_price ask0 asks'); reflexivity |].
    split; assumption.
  - cbn. reflexivity.
  - cbn. field.
Qed.

(** X15: over exact prices, for an order book with at least one bid and
    one ask, both ingestion paths (the streaming one when the book names a
    non-empty asset) store under the instrument a snapshot whose bid and bid
    size are those of the first bid entry, whose ask and ask size are those
    of the first among the ask entries of least price, whose spread is
    ask - bid and whose mid price is their mean. *)
Theorem ingestion_reads_the_book (data : Book Q) (s : MS) :
  bids data <> [] -> asks data <> [] ->
  (forall token_id market_name,
      exists snapshot,
        dict_get token_id
          (current_snapshots
             (fst (snd (process_orderbook_data token_id market_name data s))))
          = Some snapshot /\
        market_id snapshot = token_id /\ reads_book data snapshot) /\
  (forall asset,
      asset_id data = Some asset -> asset <> ""%string ->
      exists snapshot,
        dict_get asset
          (current_snapshots
             (fst (snd (process_book_message create_order cancel_order
                          data s))))
          = Some snapshot /\
        market_id snapshot = asset /\ reads_book data snapshot).
Proof.
  intros Nb Na.
  destruct (bids data) as [| bid0 bids'] eqn:Hb; [contradiction |].
  destruct (asks data) as [| ask0 asks'] eqn:Ha; [contradiction |].
  split.
  - intros token_id market_name.
    pose proof (process_orderbook_data_store token_id market_name data s Hb Ha)
      as P.
    cbv zeta in P. apply (f_equal fst) in P. cbn [store_fields fst] in P.
    rewrite P. cbn [stored current_snapshots set_orderbook_data
                    set_current_snapshots].
    rewrite dict_get_set_eq. eexists. split; [reflexivity |].
    split; [reflexivity |].
    eapply make_snapshot_reads_book; eassumption.
  - intros asset Hid Hne.
    assert (Ht : str_truthy asset = true)
      by (destruct asset; [contradiction | reflexivity]).
    pose proof (process_book_message_store create_order cancel_order data s
                  Hid Ht Hb Ha) as P.
    cbv zeta in P. apply (f_equal fst) in P. cbn [store_fields fst] in P.
    rewrite P. cbn [stored current_snapshots set_orderbook_data
                    set_current_snapshots].
    rewrite dict_get_set_eq. eexists. split; [reflexivity |].
    split; [reflexivity |].
    eapply make_snapshot_reads_book; eassumption.
Qed.

End ExtremesBracket2.

Lemma slice_from_positive {T} (count : Z) (l : list T) :
  (0 < count)%Z -> slice_from (- count) l = lastn (Z.to_nat count) l.
Proof.
  intros H. unfold slice_from, lastn. cbv zeta.
  assert (E : (- count <? 0)%Z = true) by (apply Z.ltb_lt; lia).
  rewrite E. f_equal. lia.
Qed.

Lemma slice_from_zero {T} (l : list T) : slice_from (- 0) l = l.
Proof.
  unfold slice_from. cbn [Z.opp Z.ltb Z.compare]. rewrite Z.min_l by lia.
  reflexivity.
Qed.

Lemma slice_from_negative {T} (count : Z) (l : list T) :
  (count < 0)%Z -> slice_from (- count) l = skipn (Z.to_nat (- count)) l.
Proof.
  intros H. unfold slice_from. cbv zeta.
  assert (E : (- count <? 0)%Z = false) by (apply Z.ltb_ge; lia).
  rewrite E.
  destruct (Z_le_gt_dec (- count) (Z.of_nat (List.length l))) as [L | G].
  - rewrite Z.min_l by exact L. reflexivity.
  - rewrite Z.min_r by lia. rewrite Nat2Z.id.
    rewrite skipn_all. symmetry. apply skipn_all2. lia.
Qed.

(** X16: [get_logs(count)] and [get_total_records(limit)] return the last
    count entries, all of them when there are fewer, for a positive
    argument; for the argument 0 they return ALL entries, not none; and for
    a negative argument -n they return everything but the first n
    entries. *)
Theorem recent_entries_by_count {A : Type} (self : OrderbookMonitor A)
    (count : Z) :
  ((0 < count)%Z ->
   get_logs self count = lastn (Z.to_nat count) (logs self) /\
   get_total_records self count
     = lastn (Z.to_nat count) (total_records self) /\
   List.length (get_logs self count)
     = Nat.min (Z.to_nat count) (List.length (logs self))) /\
  (count = 0%Z ->
   get_logs self count = logs self /\
   get_total_records self count = total_records self) /\
  ((count < 0)%Z ->
   get_logs self count = skipn (Z.to_nat (- count)) (logs self) /\
   get_total_records self count
     = skipn (Z.to_nat (- count)) (total_records self)).
Proof.
  unfold get_logs, get_total_records. split; [| split].
  - intros H. rewrite !slice_from_positive by exact H.
    split; [reflexivity |]. split; [reflexivity |]. apply lastn_length.
  - intros ->. rewrite !slice_from_zero. split; reflexivity.
  - intros H. rewrite !slice_from_negative by exact H. split; reflexivity.
Qed.

Section LogStream.

Context {A : Type}.

Lemma get_logs_100 (m : OrderbookMonitor A) :
  get_logs m 100 = lastn 100 (logs m).
Proof. unfold get_logs. rewrite slice_from_positive by lia. reflexivity. Qed.

Lemma generate_turn_full (m : OrderbookMonitor A) (last_count : nat) :
  100 <= last_count -> generate_turn m last_count = ([], last_count).
Proof.
  intros H. unfold generate_turn. cbv zeta.
  rewrite get_logs_100, lastn_length.
  destruct (Nat.ltb last_count (Nat.min 100 (List.length (logs m)))) eqn:E;
    [| reflexivity].
  apply Nat.ltb_lt in E. lia.
Qed.

Lemma generate_full (observed : list (OrderbookMonitor A)) (last_count : nat) :
  100 <= last_count -> generate observed last_count = [].
Proof.
  intros H. induction observed as [| m later IH]; [reflexivity |].
  cbn [generate]. rewrite generate_turn_full by exact H. exact IH.
Qed.

Lemma generate_growing (observed : list (OrderbookMonitor A))
    (seen : list (LogEntry A)) :
  log_grows seen observed ->
  List.length (last_log seen observed) <= 100 ->
  seen ++ generate observed (List.length seen) = last_log seen observed.
Proof.
  revert seen. induction observed as [| m later IH]; intros seen G L.
  - cbn. apply app_nil_r.
  - cbn [log_grows last_log generate] in *. destruct G as [[new E] G].
    assert (Lm : List.length (logs m) <= 100).
    { clear IH E. revert G L. generalize (logs m).
      induction later as [| m' later IH']; intros l G L; [exact L |].
      cbn [log_grows last_log] in *. destruct G as [[new' E'] G'].
      specialize (IH' _ G' L). rewrite E', length_app in IH'. lia. }
    unfold generate_turn. cbv zeta. rewrite get_logs_100.
    rewrite lastn_all by exact Lm.
    destruct (Nat.ltb (List.length seen) (List.length (logs m))) eqn:C;
      cbn [fst snd].
    + rewrite app_assoc.
      assert (S : seen ++ skipn (List.length seen) (logs m) = logs m).
      { rewrite E, skipn_app, skipn_all, Nat.sub_diag. reflexivity. }
      rewrite S. apply IH; assumption.
    + apply Nat.ltb_ge in C. rewrite E, length_app in C.
      assert (N : new = []) by (destruct new; [reflexivity | cbn in C; lia]).
      subst new. rewrite app_nil_r in E. cbn [app]. rewrite <- E in *.
      apply IH; assumption.
Qed.

(** X17: the log stream of the web interface ([generate] in
    [api_logs_stream]).  While the log only grows at its end and holds at
    most 100 entries, the stream yields every entry once, in order.  After a
    turn at which the log holds 100 entries or more, no later turn yields
    anything, whatever is logged; and a stream whose count has reached 100
    is silent for good. *)
Theorem log_stream_stalls_at_100 (observed : list (OrderbookMonitor A)) :
  (log_grows [] observed ->
   List.length (last_log [] observed) <= 100 ->
   generate observed 0 = last_log [] observed) /\
  (forall (monitor : OrderbookMonitor A) (last_count : nat),
      100 <= List.length (logs monitor) ->
      generate (monitor :: observed) last_count
        = fst (generate_turn monitor last_count)) /\
  (forall last_count, 100 <= last_count -> generate observed last_count = []).
Proof.
  split; [| split].
  - intros G L. exact (generate_growing observed [] G L).
  - intros monitor last_count H. cbn [generate].
    rewrite (generate_full observed); [apply app_nil_r |].
    unfold generate_turn. cbv zeta. rewrite get_logs_100, lastn_length.
    destruct (Nat.ltb last_count (Nat.min 100 (List.length (logs monitor))))
      eqn:E; cbn [snd]; [lia |].
    apply Nat.ltb_ge in E. lia.
  - intros last_count H. apply generate_full. exact H.
Qed.

End LogStream.

Lemma dict_set_keys {V} (k : string) (v : V) (d : dict V) :
  map fst (dict_set k v d)
  = if existsb (String.eqb k) (map fst d) then map fst d
    else map fst d ++ [k].
Proof.
  induction d as [| [k' v'] d IH]; cbn; [reflexivity |].
  destruct (String.eqb k k') eqn:E; cbn.
  - apply String.eqb_eq in E. subst. reflexivity.
  - rewrite IH. destruct (existsb (String.eqb k) (map fst d)); reflexivity.
Qed.

Lemma dict_set_NoDup {V} (k : string) (v : V) (d : dict V) :
  NoDup (map fst d) -> NoDup (map fst (dict_set k v d)).
Proof.
  intros H. rewrite dict_set_keys.
  destruct (existsb (String.eqb k) (map fst d)) eqn:E; [exact H |].
  apply NoDup_app; [exact H | constructor; [intros [] | constructor] |].
  intros x Hx [E' | []]. subst x.
  assert (F : existsb (String.eqb k) (map fst d) = true).
  { apply existsb_exists. exists k. split; [exact Hx | apply String.eqb_refl]. }
  congruence.
Qed.

Lemma dict_get_In {V} (k : string) (v : V) (d : dict V) :
  NoDup (map fst d) -> In (k, v) d -> dict_get k d = Some v.
Proof.
  induction d as [| [k' v'] d IH]; intros N H; [contradiction |].
  cbn in *. inversion N as [| ? ? Nk Nd]; subst.
  destruct H as [H | H].
  - inversion H; subst. rewrite String.eqb_refl. reflexivity.
  - destruct (String.eqb k k') eqn:E.
    + apply String.eqb_eq in E. subst k'. exfalso. apply Nk.
      apply in_map_iff. exists (k, v). auto.
    + apply IH; assumption.
Qed.

Section GroupingFacts.

Context {A : Type}.

Lemma group_entry_snoc (e : string) (ms : list (Outcome A)) (x : Outcome A) :
  group_entry e (ms ++ [x]) = Some [(market_type_of e, ms ++ [x])].
Proof. destruct ms; reflexivity. Qed.

Lemma group_add_parsed (em : dict (dict (list (Outcome A))))
    (snapshot : OrderbookSnapshot A) :
  group_add em snapshot
  = match parse_market_name (market_name snapshot) with
    | Some (event_name, outcome) =>
        let market_type := market_type_of event_name in
        let market_types := dict_get_default [] event_name em in
        let outs := dict_get_default [] market_type market_types in
        dict_set event_name
          (dict_set market_type
             (outs ++ [{| oc_snapshot := snapshot; oc_outcome := outcome |}])
             market_types) em
    | None => em
    end.
Proof.
  unfold group_add, parse_market_name.
  destruct (str_split " - " (market_name snapshot)) as [| a [| b rest]];
    reflexivity.
Qed.

Lemma group_add_entry (em : dict (dict (list (Outcome A))))
    (done : list (OrderbookSnapshot A)) (snapshot : OrderbookSnapshot A) :
  (forall e, dict_get e em = group_entry e (members_of e done)) ->
  forall e,
    dict_get e (group_add em snapshot)
    = group_entry e (members_of e (done ++ [snapshot])).
Proof.
  intros G e. rewrite group_add_parsed.
  unfold members_of. rewrite flat_map_app. cbn [flat_map].
  rewrite app_nil_r. fold (members_of e done). unfold member_for.
  destruct (parse_market_name (market_name snapshot)) as [[e0 o] |].
  2: { rewrite app_nil_r. apply G. }
  cbv zeta. destruct (String.eqb e e0) eqn:E.
  - apply String.eqb_eq in E. subst e0. rewrite dict_get_set_eq.
    rewrite group_entry_snoc. f_equal.
    unfold dict_get_default. pose proof (G e) as Ge.
    unfold dict in *. rewrite Ge.
    destruct (members_of e done) as [| m ms]; cbn [group_entry].
    + reflexivity.
    + cbn [dict_get dict_set]. rewrite String.eqb_refl. reflexivity.
  - rewrite dict_get_set_neq by exact E. rewrite app_nil_r. apply G.
Qed.

Lemma group_add_NoDup (em : dict (dict (list (Outcome A))))
    (snapshot : OrderbookSnapshot A) :
  NoDup (map fst em) -> NoDup (map fst (group_add em snapshot)).
Proof.
  intros H. rewrite group_add_parsed.
  destruct (parse_market_name (market_name snapshot)) as [[e0 o] |];
    [| exact H].
  cbv zeta. apply dict_set_NoDup. exact H.
Qed.

Lemma fold_group_add (rest done : list (OrderbookSnapshot A))
    (em : dict (dict (list (Outcome A)))) :
  (forall e, dict_get e em = group_entry e (members_of e done)) ->
  NoDup (map fst em) ->
  (forall e, dict_get e (fold_left group_add rest em)
             = group_entry e (members_of e (done ++ rest))) /\
  NoDup (map fst (fold_left group_add rest em)).
Proof.
  revert done em. induction rest as [| snapshot rest IH]; intros done em G N.
  - cbn [fold_left]. rewrite app_nil_r. auto.
  - cbn [fold_left].
    replace (done ++ snapshot :: rest) with ((done ++ [snapshot]) ++ rest)
      by (rewrite <- app_assoc; reflexivity).
    apply IH; [apply group_add_entry; exact G | apply group_add_NoDup; exact N].
Qed.

Lemma group_snapshots_entries (snapshots : list (OrderbookSnapshot A)) :
  let groups := group_snapshots snapshots in
  NoDup (map fst groups) /\
  (forall e, dict_get e groups = group_entry e (members_of e snapshots)) /\
  (forall e market_types,
      In (e, market_types) groups ->
      members_of e snapshots <> [] /\
      market_types = [(market_type_of e, members_of e snapshots)]) /\
  scan_order groups
  = map (fun e => (e, market_type_of e, members_of e snapshots))
      (map fst groups).
Proof.
  cbv zeta. unfold group_snapshots.
  destruct (@fold_group_add snapshots [] [])
    as [G N]; [reflexivity | constructor |].
  cbn [app] in G.
  assert (E : forall e market_types,
            In (e, market_types) (fold_left group_add snapshots []) ->
            members_of e snapshots <> [] /\
            market_types = [(market_type_of e, members_of e snapshots)]).
  { intros e mts H. pose proof (dict_get_In _ _ _ N H) as D.
    rewrite G in D. destruct (members_of e snapshots); [discriminate |].
    cbn in D. inversion D. split; [discriminate | reflexivity]. }
  split; [exact N |]. split; [exact G |]. split; [exact E |].
  unfold scan_order. clear G. revert N E.
  generalize (fold_left group_add snapshots []).
  intros groups. induction groups as [| [e mts] em IH]; intros N E;
    [reflexivity |].
  cbn [flat_map map fst snd].
  destruct (E e mts) as [_ ->]; [left; reflexivity |].
  cbn [map app fst snd]. f_equal. apply IH.
  - inversion N; assumption.
  - intros e' mts' H. apply E. right. exact H.
Qed.

(** X18: the grouping at the start of a scan.  Each event name is a key
    once; the entry of an event holds a single market type, the one
    [market_type_of] gives its name, and under it the snapshots whose market
    name begins with that event name, in the order of the snapshots, each
    with the second part of its name as outcome; the scan visits the events
    in key order.  A snapshot with a name of two or more parts is in the
    group of its event and in no other; a snapshot whose name has no
    separator is in no group. *)
Theorem grouping_by_event (snapshots : list (OrderbookSnapshot A)) :
  let groups := group_snapshots snapshots in
  NoDup (map fst groups) /\
  (forall e, dict_get e groups = group_entry e (members_of e snapshots)) /\
  scan_order groups
  = map (fun e => (e, market_type_of e, members_of e snapshots))
      (map fst groups) /\
  (forall snapshot,
      In snapshot snapshots ->
      match parse_market_name (market_name snapshot) with
      | Some (e, outcome) =>
          In {| oc_snapshot := snapshot; oc_outcome := outcome |}
            (members_of e snapshots) /\
          forall e', e' <> e ->
            ~ In {| oc_snapshot := snapshot; oc_outcome := outcome |}
                (members_of e' snapshots)
      | None => forall e member, In member (members_of e snapshots) ->
                                 oc_snapshot member <> snapshot
      end).
Proof.
  cbv zeta.
  destruct (group_snapshots_entries snapshots) as (N & G & _ & S).
  split; [exact N |]. split; [exact G |]. split; [exact S |].
  intros snapshot Hin.
  destruct (parse_market_name (market_name snapshot)) as [[e o] |] eqn:P.
  - split.
    + unfold members_of. apply in_flat_map. exists snapshot.
      split; [exact Hin |]. unfold member_for. rewrite P, String.eqb_refl.
      left. reflexivity.
    + intros e' Ne H. unfold members_of in H. apply in_flat_map in H.
      destruct H as (x & _ & Hx). unfold member_for in Hx.
      destruct (parse_market_name (market_name x)) as [[e0 o0] |] eqn:Px;
        [| contradiction].
      destruct (String.eqb e' e0) eqn:E; [| contradiction].
      apply String.eqb_eq in E. subst e0.
      destruct Hx as [Hx | []]. inversion Hx; subst x o0.
      congruence.
  - intros e member H Eq. unfold members_of in H. apply in_flat_map in H.
    destruct H as (x & _ & Hx). unfold member_for in Hx.
    destruct (parse_market_name (market_name x)) as [[e0 o0] |] eqn:Px;
      [| contradiction].
    destruct (String.eqb e e0); [| contradiction].
    destruct Hx as [Hx | []]. subst member. cbn in Eq. subst x. congruence.
Qed.

End GroupingFacts.



Section Rescan.

Local Open Scope Q_scope.

Variable Exchange : Type.
Variable create_order : OrderArgs Q -> Exchange -> result Response * Exchange.
Variable cancel_order : string -> Exchange -> result unit * Exchange.

Local Abbreviation Mon := (OrderbookMonitor Q).
Local Abbreviation MS := (MState Q Exchange).









End Rescan.

Section UnregisteredFacts.

Context {A : Type} {NumA : Number A}.
Variable Exchange : Type.
Variable create_order : OrderArgs A -> Exchange -> result Response * Exchange.
Variable cancel_order : string -> Exchange -> result unit * Exchange.

Local Abbreviation Mon := (OrderbookMonitor A).
Local Abbreviation MS := (MState A Exchange).

Lemma group_snapshots_unparsed (snapshots : list (OrderbookSnapshot A)) :
  Forall (fun snapshot => parse_market_name (market_name snapshot) = None)
    snapshots ->
  group_snapshots snapshots = [].
Proof.
  unfold group_snapshots. induction 1 as [| snapshot rest H _ IH].
  - reflexivity.
  - cbn [fold_left]. rewrite group_add_parsed, H. exact IH.
Qed.

Lemma check_best_matches_unparsed (s : MS) :
  Forall (fun snapshot => parse_market_name (market_name snapshot) = None)
    (dict_values (current_snapshots (fst s))) ->
  check_best_matches create_order cancel_order s = (Ok tt, s).
Proof.
  intros H. destruct s as [m e]. unfold check_best_matches, try_except, bind.
  unfold read_mon, gets. cbn [fst snd] in *.
  rewrite (group_snapshots_unparsed H). reflexivity.
Qed.

Lemma Forall_dict_set {V} (P : V -> Prop) (k : string) (v : V) (d : dict V) :
  Forall P (dict_values d) -> P v -> Forall P (dict_values (dict_set k v d)).
Proof.
  unfold dict_values. intros H Hv.
  induction d as [| [k' v'] d IH]; cbn.
  - constructor; [exact Hv | constructor].
  - cbn in H. inversion H; subst.
    destruct (String.eqb k k'); cbn; constructor; auto.
Qed.

Lemma process_book_message_unregistered (s0 : MS) (data : Book A) (s : MS) :
  Forall (fun snapshot => parse_market_name (market_name snapshot) = None)
    (dict_values (current_snapshots (fst s0))) ->
  only_stored s0 s ->
  only_stored s0 (snd (process_book_message create_order cancel_order data s)).
Proof.
  intros H0 Hs.
  destruct (stream_ingested data s) as [[k snapshot] |] eqn:E.
  2: { rewrite (process_book_message_skipped create_order cancel_order _ _ E).
       exact Hs. }
  destruct Hs as (T & F & R1 & R2 & R3 & R4 & R5 & R6).
  unfold stream_ingested, book_snapshot in E.
  destruct (asset_id data) as [asset |] eqn:Hid; [| discriminate].
  destruct (str_truthy asset) eqn:Ht; [| discriminate].
  destruct (bids data) as [| bid0 bids'] eqn:Hb; [discriminate |].
  destruct (asks data) as [| ask0 asks'] eqn:Ha; [discriminate |].
  rewrite T in E. cbn [dict_get_default dict_get option_map] in E.
  inversion E; subst k snapshot; clear E.
  set (snapshot := make_snapshot (S (clock (snd s))) asset "Unknown" bid0
                     (min_by_price ask0 asks')).
  unfold process_book_message, try_except.
  rewrite Hid, Ht, Hb, Ha. cbn [negb].
  unfold bind at 1. unfold in_menv at 1. cbn [time_time fst snd].
  unfold bind at 1. unfold read_mon at 1, gets. cbn [fst snd].
  rewrite T. cbn [dict_get_default dict_get].
  unfold bind at 1. unfold in_menv at 1. cbn [time_time fst snd clock].
  fold snapshot.
  unfold bind at 1. rewrite store_snapshot_eq. cbn [fst snd].
  unfold bind at 1.
  match goal with
  | |- context [check_extremes asset "Unknown" snapshot ?st] =>
      set (s1 := st);
      destruct (check_extremes_returns asset "Unknown" snapshot s1)
        as (s2 & E2 & C2 & X2);
      pose proof (check_extremes_same
                    (f := fun m : Mon =>
                            (current_snapshots m, token_to_market m,
                             total_records m, best_matches m, last_totals m,
                             arbitrage_executor m))
                    asset "Unknown" snapshot
                    ltac:(ign) ltac:(ign) ltac:(ign) s1) as Fr
  end.
  unfold same in Fr. rewrite E2 in Fr. cbn [fst snd] in Fr.
  rewrite E2.
  assert (Cur : Forall (fun x =>
                  In x (dict_values (current_snapshots (fst s0))) \/
                  market_name x = "Unknown")
                  (dict_values (current_snapshots (fst s2)))).
  { replace (current_snapshots (fst s2))
      with (dict_set asset snapshot (current_snapshots (fst s)))
      by (injection Fr as <- _ _ _ _ _; reflexivity).
    apply Forall_dict_set; [exact F | right; reflexivity]. }
  assert (Un : Forall (fun x => parse_market_name (market_name x) = None)
                 (dict_values (current_snapshots (fst s2)))).
  { eapply Forall_impl; [| exact Cur]. intros x [Hx | Hx].
    - rewrite Forall_forall in H0. apply H0. exact Hx.
    - rewrite Hx. reflexivity. }
  unfold bind at 1. rewrite (check_best_matches_unparsed _ Un).
  injection Fr as Fr1 Fr2 Fr3 Fr4 Fr5 Fr6.
  destruct s2 as [m2 e2].
  cbn [stored token_to_market total_records best_matches last_totals
       arbitrage_executor set_orderbook_data set_current_snapshots s1 fst snd
       calls exchange] in *.
  cbv beta iota zeta delta
    [bind in_menv time_time update_mon modify log fst snd].
  unfold only_stored.
  cbn [token_to_market current_snapshots total_records best_matches
       last_totals arbitrage_executor set_logs set_update_latencies
       calls exchange fst snd].
  split; [congruence |]. split; [exact Cur |].
  repeat split; congruence.
Qed.

Lemma for_each_unregistered (s0 : MS) (books : list (Book A)) (s : MS) :
  Forall (fun snapshot => parse_market_name (market_name snapshot) = None)
    (dict_values (current_snapshots (fst s0))) ->
  only_stored s0 s ->
  only_stored s0
    (snd (for_each books (process_book_message create_order cancel_order) s)).
Proof.
  intros H0. revert s. induction books as [| book books IH]; intros s Hs.
  - exact Hs.
  - cbn [for_each]. unfold bind.
    pose proof (process_book_message_returns create_order cancel_order
                  book s) as R.
    pose proof (process_book_message_unregistered book H0 Hs) as P.
    destruct (process_book_message create_order cancel_order book s)
      as [r s1]. cbn [fst snd] in *. subst r. apply IH. exact P.
Qed.

Lemma stream_unregistered (s0 : MS) (data : WsMessage A) (s : MS) :
  Forall (fun snapshot => parse_market_name (market_name snapshot) = None)
    (dict_values (current_snapshots (fst s0))) ->
  only_stored s0 s ->
  only_stored s0
    (snd (process_websocket_message create_order cancel_order data s)).
Proof.
  intros H0 Hs. unfold process_websocket_message, try_except.
  destruct data as [books | | book |].
  - unfold bind at 1. rewrite log_eq.
    assert (L : only_stored s0
                  (set_logs
                     (deque_append MAX_LOG_ENTRIES
                        {| log_level := INFO;
                           log_message := MsgInitialBooks (List.length books) |}
                        (logs (fst s))) (fst s), snd s)) by exact Hs.
    pose proof (for_each_unregistered books H0 L) as P.
    pose proof (proj1 (for_each_books_history create_order cancel_order
                         ""%string books
                         (set_logs
                            (deque_append MAX_LOG_ENTRIES
                               {| log_level := INFO;
                                  log_message :=
                                    MsgInitialBooks (List.length books) |}
                               (logs (fst s))) (fst s), snd s))) as R.
    destruct (for_each books _ _) as [r s1]. cbn [fst snd] in *. subst r.
    exact P.
  - exact Hs.
  - pose proof (process_book_message_returns create_order cancel_order
                  book s) as R.
    pose proof (process_book_message_unregistered book H0 Hs) as P.
    destruct (process_book_message create_order cancel_order book s)
      as [r s1]. cbn [fst snd] in *. subst r. exact P.
  - exact Hs.
Qed.

(** X20: a token that is not in the registry is stored under the name
    "Unknown" and takes no part in detection: stream messages into a monitor
    whose registry is empty, and whose snapshots so far have names without
    separator, record no total, find no best match, set no last total and
    reach neither the executor nor the exchange; every snapshot stored is
    named "Unknown". *)
Theorem unregistered_instruments_are_never_matched
    (messages : list (WsMessage A)) (s : MS) :
  token_to_market (fst s) = [] ->
  Forall (fun snapshot => parse_market_name (market_name snapshot) = None)
    (dict_values (current_snapshots (fst s))) ->
  let s' := run create_order cancel_order (map (@Stream A) messages) s in
  total_records (fst s') = total_records (fst s) /\
  best_matches (fst s') = best_matches (fst s) /\
  last_totals (fst s') = last_totals (fst s) /\
  arbitrage_executor (fst s') = arbitrage_executor (fst s) /\
  calls (snd s') = calls (snd s) /\
  exchange (snd s') = exchange (snd s) /\
  Forall (fun snapshot =>
            In snapshot (dict_values (current_snapshots (fst s))) \/
            market_name snapshot = "Unknown")
    (dict_values (current_snapshots (fst s'))).
Proof.
  intros T H0.
  assert (G : forall s1, only_stored s s1 ->
              only_stored s
                (run create_order cancel_order (map (@Stream A) messages) s1)).
  { induction messages as [| data rest IH]; intros s1 H1; cbn [map run].
    - exact H1.
    - apply IH. cbn [handle]. apply stream_unregistered; assumption. }
  destruct (G s) as (_ & F & R1 & R2 & R3 & R4 & R5 & R6).
  { unfold only_stored. split; [exact T |]. split; [| repeat split].
    apply Forall_forall. intros x Hx. left. exact Hx. }
  cbv zeta. repeat split; assumption.
Qed.

End UnregisteredFacts.





Section RegistryFacts.

Context {A : Type}.




End RegistryFacts.

Lemma append_empty_r (s : string) : (s ++ "" = s)%string.
Proof. induction s as [| c s IH]; cbn; [reflexivity | now rewrite IH]. Qed.

Lemma append_assoc (a b c : string) :
  ((a ++ b) ++ c = a ++ (b ++ c))%string.
Proof. induction a as [| x a IH]; cbn; [reflexivity | now rewrite IH]. Qed.

Lemma prefix_empty (s : string) : prefix "" s = true.
Proof. destruct s; reflexivity. Qed.

Lemma split_go_no_separator (sep s cur : string) :
  str_contains sep s = false -> split_go sep 0 cur s = [(cur ++ s)%string].
Proof.
  revert cur. induction s as [| c s IH]; intros cur H.
  - cbn. now rewrite append_empty_r.
  - cbn [str_contains] in H. apply orb_false_iff in H. destruct H as [P C].
    cbn [split_go]. rewrite P. rewrite IH by exact C.
    now rewrite append_assoc.
Qed.

Lemma prefix_separator_extend (c : ascii) (q o : string) :
  prefix " - " (String c (q ++ " ")%string) = false ->
  prefix " - " (String c (q ++ " - " ++ o)%string) = false.
Proof.
  destruct q as [| d [| e q]]; cbn -[ascii_dec];
    repeat match goal with
           | |- context [ascii_dec ?a ?b] => destruct (ascii_dec a b)
           end; try reflexivity; try discriminate; auto.
  destruct q; cbn; discriminate.
Qed.

Lemma split_go_first_separator (q o cur : string) :
  str_contains " - " (q ++ " ")%string = false ->
  split_go " - " 0 cur (q ++ " - " ++ o)%string
  = (cur ++ q)%string :: split_go " - " 0 "" o.
Proof.
  revert cur. induction q as [| c q IH]; intros cur H.
  - cbn. rewrite prefix_empty. now rewrite append_empty_r.
  - change (String c q ++ " ")%string with (String c (q ++ " ")%string) in H.
    cbn [str_contains] in H. apply orb_false_iff in H. destruct H as [P C].
    change (String c q ++ " - " ++ o)%string
      with (String c (q ++ " - " ++ o)%string).
    cbn [split_go]. rewrite (prefix_separator_extend _ _ o P).
    rewrite IH by exact C. now rewrite append_assoc.
Qed.

Lemma split_go_not_nil (sep s cur : string) (skip : nat) :
  split_go sep skip cur s <> [].
Proof.
  revert skip cur. induction s as [| c s IH]; intros skip cur.
  - cbn. discriminate.
  - cbn [split_go]. destruct skip; [| apply IH].
    destruct (prefix sep (String c s)); [discriminate | apply IH].
Qed.

Lemma prefix_append (a b : string) : prefix a (a ++ b)%string = true.
Proof.
  induction a as [| c a IH]; cbn -[ascii_dec]; [destruct b; reflexivity |].
  destruct (ascii_dec c c); [exact IH | congruence].
Qed.

Lemma split_go_two_parts (q o cur : string) :
  exists x y rest,
    split_go " - " 0 cur (q ++ " - " ++ o)%string = x :: y :: rest.
Proof.
  revert cur. induction q as [| c q IH]; intros cur.
  - cbn. rewrite prefix_empty. destruct (split_go " - " 0 "" o) as [| y rest] eqn:E.
    + exfalso. exact (split_go_not_nil _ _ _ _ E).
    + eauto.
  - change (String c q ++ " - " ++ o)%string
      with (String c (q ++ " - " ++ o)%string).
    cbn [split_go].
    destruct (prefix " - " (String c (q ++ " - " ++ o)%string)); [| apply IH].
    destruct (split_go " - " (String.length " - " - 1) ""
                (q ++ " - " ++ o)%string)
      as [| y rest] eqn:E.
    + exfalso. exact (split_go_not_nil _ _ _ _ E).
    + eauto.
Qed.

Lemma digits_no_separator (d : Decimal.uint) :
  str_contains " - " (NilEmpty.string_of_uint d) = false /\
  prefix "- " (NilEmpty.string_of_uint d) = false.
Proof.
  induction d as [| d [IH _] | d [IH _] | d [IH _] | d [IH _] | d [IH _]
                  | d [IH _] | d [IH _] | d [IH _] | d [IH _] | d [IH _]];
    cbn [NilEmpty.string_of_uint str_contains]; split;
    try rewrite IH; reflexivity.
Qed.

Lemma option_label_no_separator (d : Decimal.uint) :
  str_contains " - " ("Option " ++ NilEmpty.string_of_uint d)%string = false.
Proof.
  destruct (digits_no_separator d) as [C P].
  revert C P. generalize (NilEmpty.string_of_uint d). intros ds C P.
  cbn -[ascii_dec prefix str_contains].
  repeat rewrite (fun sub c s =>
                    eq_refl : str_contains sub (String c s)
                              = prefix sub (String c s) || str_contains sub s).
  rewrite C.
  change (prefix " - " (String " " ds)) with (prefix "- " ds).
  rewrite P. reflexivity.
Qed.

(** X22: every market name the registry builds, "question - outcome",
    splits into an event name and an outcome for the detector.  When the
    question ("Unknown" when the market has none) does not contain " - " and
    does not end in " -", the event name read back is the question and the
    outcome read back is the outcome name up to its first " - ": the whole
    outcome name when it has none, as is the case for the default names
    "Option N". *)
Theorem registered_names_parse (market : Market) (idx : nat) :
  let outcome_name := outcome_name_at (mk_outcomes market) idx in
  let name := market_name_of market outcome_name in
  (exists event_name outcome,
      parse_market_name name = Some (event_name, outcome)) /\
  (str_contains " - " (question_of market ++ " ")%string = false ->
   parse_market_name name
   = Some (question_of market, hd "" (str_split " - " outcome_name))) /\
  (str_contains " - " (question_of market ++ " ")%string = false ->
   str_contains " - " outcome_name = false ->
   parse_market_name name = Some (question_of market, outcome_name)) /\
  (mk_question market = None ->
   str_contains " - " outcome_name = false ->
   parse_market_name name = Some ("Unknown", outcome_name)) /\
  (nth_error (mk_outcomes market) idx = None ->
   str_contains " - " outcome_name = false).
Proof.
  cbv zeta.
  assert (First : str_contains " - " (question_of market ++ " ")%string = false ->
                  parse_market_name
                    (market_name_of market
                       (outcome_name_at (mk_outcomes market) idx))
                  = Some (question_of market,
                          hd "" (str_split " - "
                                   (outcome_name_at (mk_outcomes market) idx)))).
  { intros H. unfold parse_market_name, market_name_of, str_split.
    rewrite (split_go_first_separator _ _ "" H). cbn [append].
    destruct (split_go " - " 0 "" (outcome_name_at (mk_outcomes market) idx))
      as [| y rest] eqn:E.
    - exfalso. exact (split_go_not_nil _ _ _ _ E).
    - reflexivity. }
  assert (Exact : str_contains " - " (question_of market ++ " ")%string = false ->
                  str_contains " - " (outcome_name_at (mk_outcomes market) idx)
                    = false ->
                  parse_market_name
                    (market_name_of market
                       (outcome_name_at (mk_outcomes market) idx))
                  = Some (question_of market,
                          outcome_name_at (mk_outcomes market) idx)).
  { intros H C. rewrite (First H). unfold str_split.
    rewrite (split_go_no_separator _ _ "" C). reflexivity. }
  split; [| split; [| split; [| split]]].
  - unfold parse_market_name, market_name_of, str_split.
    destruct (split_go_two_parts (question_of market)
                (outcome_name_at (mk_outcomes market) idx) "")
      as (x & y & rest & E).
    rewrite E. eauto.
  - exact First.
  - exact Exact.
  - intros Q C. assert (E : question_of market = "Unknown").
    { unfold question_of. now rewrite Q. }
    rewrite <- E. apply Exact; [| exact C]. rewrite E. reflexivity.
  - intros N. unfold outcome_name_at. rewrite N.
    apply option_label_no_separator.
Qed.

Lemma dict_get_del_eq {V} (k : string) (d : dict V) :
  dict_get k (dict_del k d) = None.
Proof.
  induction d as [| [k' v] d IH]; cbn; [reflexivity |].
  destruct (String.eqb k k') eqn:E; [exact IH |].
  cbn. rewrite E. exact IH.
Qed.

Lemma dict_get_del_neq {V} (k k' : string) (d : dict V) :
  String.eqb k' k = false -> dict_get k' (dict_del k d) = dict_get k' d.
Proof.
  intros N. induction d as [| [k0 v] d IH]; cbn; [reflexivity |].
  destruct (String.eqb k k0) eqn:E.
  - apply String.eqb_eq in E. subst k0. rewrite N. exact IH.
  - cbn. rewrite IH. reflexivity.
Qed.

Lemma dict_del_absent {V} (k : string) (d : dict V) :
  dict_get k d = None -> dict_del k d = d.
Proof.
  induction d as [| [k' v] d IH]; cbn; [reflexivity |].
  destruct (String.eqb k k') eqn:E; [discriminate |].
  intros H. now rewrite IH.
Qed.

Lemma dict_del_set_absent {V} (k : string) (v : V) (d : dict V) :
  dict_get k d = None -> dict_del k (dict_set k v d) = d.
Proof.
  induction d as [| [k' v'] d IH]; cbn.
  - rewrite String.eqb_refl. reflexivity.
  - destruct (String.eqb k k') eqn:E; [discriminate |].
    intros H. cbn. rewrite E. now rewrite IH.
Qed.

Lemma dict_set_length {V} (k : string) (v : V) (d : dict V) :
  List.length (dict_set k v d)
  = match dict_get k d with
    | Some _ => List.length d
    | None => S (List.length d)
    end.
Proof.
  induction d as [| [k' v'] d IH]; cbn; [reflexivity |].
  destruct (String.eqb k k'); cbn; [reflexivity |].
  rewrite IH. destruct (dict_get k d); reflexivity.
Qed.

Lemma dict_values_del_incl {V} (k : string) (d : dict V) :
  incl (dict_values (dict_del k d)) (dict_values d).
Proof.
  unfold dict_values.
  induction d as [| [k' v] d IH]; cbn; [apply incl_refl |].
  destruct (String.eqb k k'); cbn.
  - apply incl_tl. exact IH.
  - apply incl_cons; [left; reflexivity | apply incl_tl; exact IH].
Qed.

(** X23: subscriptions are kept by event id.  [subscribe_to_match] stores
    the match, marked active, under its event id, replacing a match already
    there (the count is then unchanged) and leaving other ids alone;
    subscribing a new id and unsubscribing it again restores the
    subscriptions.  [unsubscribe_from_match] of an id that is not subscribed
    changes nothing and logs nothing; otherwise it removes that id only,
    leaves the running flag alone, and the tokens collected afterwards are
    among those collected before.  [stop] leaves the subscriptions in
    place. *)
Theorem subscriptions_by_event_id (self : Control) :
  (forall sport_match,
     let self' := subscribe_to_match sport_match self in
     dict_get (sm_event_id sport_match) (subscribed_markets self')
       = Some (set_sm_active true sport_match) /\
     (forall k, String.eqb k (sm_event_id sport_match) = false ->
        dict_get k (subscribed_markets self')
        = dict_get k (subscribed_markets self)) /\
     List.length (subscribed_markets self')
       = (match dict_get (sm_event_id sport_match) (subscribed_markets self)
          with
          | Some _ => List.length (subscribed_markets self)
          | None => S (List.length (subscribed_markets self))
          end) /\
     (dict_get (sm_event_id sport_match) (subscribed_markets self) = None ->
      subscribed_markets
        (unsubscribe_from_match (sm_event_id sport_match) self')
      = subscribed_markets self)) /\
  (forall event_id,
     dict_get event_id (subscribed_markets self) = None ->
     unsubscribe_from_match event_id self = self) /\
  (forall event_id,
     let self' := unsubscribe_from_match event_id self in
     dict_get event_id (subscribed_markets self') = None /\
     (forall k, String.eqb k event_id = false ->
        dict_get k (subscribed_markets self')
        = dict_get k (subscribed_markets self)) /\
     incl (registrations (subscribed_markets self'))
          (registrations (subscribed_markets self)) /\
     running self' = running self) /\
  subscribed_markets (stop self) = subscribed_markets self.
Proof.
  split; [| split; [| split]].
  - intros sport_match. cbv zeta. unfold subscribe_to_match.
    cbn [subscribed_markets].
    split; [apply dict_get_set_eq |]. split; [| split].
    + intros k N. apply dict_get_set_neq. exact N.
    + apply dict_set_length.
    + intros H. unfold unsubscribe_from_match.
      cbn [subscribed_markets]. rewrite dict_get_set_eq.
      cbn [subscribed_markets]. apply dict_del_set_absent. exact H.
  - intros event_id H. unfold unsubscribe_from_match. now rewrite H.
  - intros event_id. cbv zeta. unfold unsubscribe_from_match.
    destruct (dict_get event_id (subscribed_markets self)) as [m |] eqn:E;
      cbn [subscribed_markets running].
    + split; [apply dict_get_del_eq |]. split; [| split; [| reflexivity]].
      * intros k N. apply dict_get_del_neq. exact N.
      * unfold registrations. intros p Hp. apply in_flat_map in Hp.
        destruct Hp as (sm & Hs & Hp). apply in_flat_map.
        exists sm. split; [| exact Hp].
        exact (dict_values_del_incl _ _ _ Hs).
    + split; [exact E |]. split; [reflexivity |].
      split; [apply incl_refl | reflexivity].
  - reflexivity.
Qed.

(* ------------------------------------------------------------------ *)
(** ** The further properties at concrete inputs *)

(** At the prices 0.49 and 0.48 and the bankroll 100 the profit is
    positive. *)
Lemma arbitrage_profit_sign_witness :
  (0 < 49 # 100)%Q /\ (0 < 48 # 100)%Q /\ (0 < 100)%Q /\
  exists s1 s2 profit : Q,
    calculate_stakes (49 # 100)%Q (48 # 100)%Q 100%Q = Ok (s1, s2) /\
    calculate_profit (49 # 100)%Q (48 # 100)%Q s1 s2 = Ok profit /\
    (0 < profit)%Q.
Proof.
  assert (H1 : (0 < 49 # 100)%Q) by reflexivity.
  assert (H2 : (0 < 48 # 100)%Q) by reflexivity.
  assert (H3 : (0 < 100)%Q) by reflexivity.
  split; [exact H1 |]. split; [exact H2 |]. split; [exact H3 |].
  destruct (arbitrage_profit_sign H1 H2 H3)
    as (s1 & s2 & profit & E1 & E2 & _ & _ & _ & _ & _ & P & _).
  exists s1, s2, profit. split; [exact E1 |]. split; [exact E2 |].
  apply P. reflexivity.
Defined.


(** On the test executor (minimum 1%) the sum 0 raises and the sum -1/2 is
    refused. *)
Lemma should_execute_threshold_witness :
  auto_execute (test_executor (A := Q) true) = true /\
  (0 <= min_profit_percent (test_executor (A := Q) true))%Q /\
  should_execute (test_executor true) 0%Q = Raise ZeroDivisionError /\
  should_execute (test_executor true) (- (1 # 2))%Q = Ok false.
Proof.
  assert (H1 : auto_execute (test_executor (A := Q) true) = true)
    by reflexivity.
  assert (H2 : (0 <= min_profit_percent (test_executor (A := Q) true))%Q)
    by (cbn; discriminate).
  split; [exact H1 |]. split; [exact H2 |]. split.
  - apply (proj1 (proj2 (should_execute_threshold (test_executor true) 0%Q
                           H1 H2))).
    reflexivity.
  - apply (proj1 (should_execute_threshold (test_executor true)
                    (- (1 # 2))%Q H1 H2)).
    reflexivity.
Defined.

(** The polling path on a book whose bids are not sorted. *)
Lemma ingestion_reads_the_book_witness :
  bids unsorted_book <> [] /\ asks unsorted_book <> [] /\
  exists snapshot,
    dict_get "T1"
      (current_snapshots
         (fst (snd (process_orderbook_data "T1" "Game A - Yes" unsorted_book
                      (fresh_monitor None [])))))
      = Some snapshot /\
    reads_book unsorted_book snapshot.
Proof.
  assert (H1 : bids unsorted_book <> []) by discriminate.
  assert (H2 : asks unsorted_book <> []) by discriminate.
  split; [exact H1 |]. split; [exact H2 |].
  destruct (proj1 (ingestion_reads_the_book scripted_create cancel_accepted
                     unsorted_book (fresh_monitor None []) H1 H2)
              "T1" "Game A - Yes") as (snapshot & E & _ & R).
  exists snapshot. split; [exact E | exact R].
Defined.

(** Two books for unregistered tokens at asks 0.4 and 0.5: no total is
    recorded. *)
Lemma unregistered_instruments_are_never_matched_witness :
  let s := fresh_monitor (A := float) None [] in
  let messages := [WsBook (one_ask "T8" 0.3 0.4 1);
                   WsBook (one_ask "T9" 0.3 0.5 1)]%float in
  token_to_market (fst s) = [] /\
  Forall (fun snapshot => parse_market_name (market_name snapshot) = None)
    (dict_values (current_snapshots (fst s))) /\
  total_records
    (fst (run scripted_create cancel_accepted (map (@Stream float) messages) s))
  = [].
Proof.
  cbv zeta.
  assert (H1 : token_to_market (fst (fresh_monitor (A := float) None []))
               = []) by reflexivity.
  assert (H2 : Forall (fun snapshot : OrderbookSnapshot float =>
                         parse_market_name (market_name snapshot) = None)
                 (dict_values
                    (current_snapshots
                       (fst (fresh_monitor (A := float) None [])))))
    by constructor.
  split; [exact H1 |]. split; [exact H2 |].
  exact (proj1 (unregistered_instruments_are_never_matched
                  scripted_create cancel_accepted
                  [WsBook (one_ask "T8" 0.3 0.4 1);
                   WsBook (one_ask "T9" 0.3 0.5 1)]%float
                  (fresh_monitor None []) H1 H2)).
Defined.

(** Three polled books into a monitor just constructed. *)
Lemma deques_stay_within_capacity_witness :
  let s := fresh_monitor (A := float) None [] in
  List.length (logs (fst s)) <= MAX_LOG_ENTRIES /\
  List.length (update_latencies (fst s)) <= 100 /\
  List.length (logs (fst (run scripted_create cancel_accepted
                            (steady_feed 3) s))) <= MAX_LOG_ENTRIES.
Proof.
  cbv zeta.
  assert (H1 : List.length (logs (fst (fresh_monitor (A := float) None [])))
               <= MAX_LOG_ENTRIES) by apply Nat.le_0_l.
  assert (H2 : List.length
                 (update_latencies (fst (fresh_monitor (A := float) None [])))
               <= 100) by apply Nat.le_0_l.
  split; [exact H1 |]. split; [exact H2 |].
  exact (proj1 (proj1 (deques_stay_within_capacity scripted_create
                         cancel_accepted)
                  (steady_feed 3) (fresh_monitor None []) H1 H2)).
Defined.

(** The two pairs, from a monitor just constructed. *)
Lemma best_matches_follow_total_records_witness :
  let s := fresh_monitor (A := float) None [] in
  matches_follow_records (fst s) /\
  matches_follow_records
    (fst (run scripted_create cancel_accepted two_pairs s)).
Proof.
  cbv zeta.
  assert (H : matches_follow_records
                (fst (fresh_monitor (A := float) None []))).
  { split; [constructor | reflexivity]. }
  split; [exact H |].
  exact (proj1 (best_matches_follow_total_records scripted_create
                  cancel_accepted)
           two_pairs (fresh_monitor None []) H).
Defined.

(** One polled book, from a monitor just constructed. *)
Lemma prices_lie_between_extremes_witness :
  let s := fresh_monitor (A := Q) None [] in
  extremes_consistent (fst s) /\
  extremes_consistent
    (fst (run scripted_create cancel_accepted
            [Polled "T1" "Game A - Yes" unsorted_book] s)).
Proof.
  cbv zeta.
  assert (H : extremes_consistent (fst (fresh_monitor (A := Q) None []))).
  { split; [| split].
    - intros key. split; reflexivity.
    - intros key h l E. discriminate E.
    - intros k snapshot E. discriminate E. }
  split; [exact H |].
  exact (proj1 (prices_lie_between_extremes scripted_create cancel_accepted)
           [Polled "T1" "Game A - Yes" unsorted_book]
           (fresh_monitor None []) H).
Defined.


(** The counts 100 and 0 on a monitor just constructed. *)
Lemma recent_entries_by_count_witness :
  let self := fst (fresh_monitor (A := float) None []) in
  (0 < 100)%Z /\ get_logs self 100 = lastn 100 (logs self) /\
  (get_logs self 0 = logs self).
Proof.
  cbv zeta.
  assert (H : (0 < 100)%Z) by reflexivity.
  split; [exact H |]. split.
  - exact (proj1 (proj1 (recent_entries_by_count
                           (fst (fresh_monitor (A := float) None []))
                           100%Z) H)).
  - exact (proj1 (proj1 (proj2 (recent_entries_by_count
                                  (fst (fresh_monitor (A := float) None []))
                                  0%Z)) eq_refl)).
Defined.

(** A stream whose count is 100 yields nothing. *)
Lemma log_stream_stalls_at_100_witness :
  let observed := [fst (run scripted_create cancel_accepted (steady_feed 2)
                          (fresh_monitor None []))] in
  100 <= 100 /\ generate observed 100 = [].
Proof.
  cbv zeta.
  assert (H : 100 <= 100) by apply Nat.le_refl.
  split; [exact H |].
  exact (proj2 (proj2 (log_stream_stalls_at_100
                         [fst (run scripted_create cancel_accepted
                                 (steady_feed 2) (fresh_monitor None []))]))
           100 H).
Defined.

(** With an empty registry the attempt only logs that it cannot execute. *)
Lemma execution_needs_both_tokens_witness :
  let s := fresh_monitor (A := float) (Some (test_executor true)) [] in
  opt_truthy (dict_get "Game A - Yes" (market_to_token (fst s))) = false /\
  monitor_execute_arbitrage scripted_create cancel_accepted "Game A"
    "Moneyline" "Yes" 0.4%float "Game A - Yes" "No" 0.5%float "Game A - No"
    0.9%float s
  = (Ok tt, (logged ERROR MsgCannotExecute (fst s), snd s)).
Proof.
  cbv zeta.
  assert (H : opt_truthy
                (dict_get "Game A - Yes"
                   (market_to_token
                      (fst (fresh_monitor (A := float)
                              (Some (test_executor true)) []))))
              = false) by reflexivity.
  split; [exact H |].
  exact (proj1 (execution_needs_both_tokens scripted_create cancel_accepted
                  "Game A" "Moneyline" "Yes" 0.4%float "Game A - Yes"
                  "No" 0.5%float "Game A - No" 0.9%float
                  (fresh_monitor (Some (test_executor true)) []))
           (or_introl H)).
Defined.


(** The second outcome of that market reads back as ("Game A", "No"). *)
Lemma registered_names_parse_witness :
  str_contains " - " (question_of game_a ++ " ")%string = false /\
  str_contains " - " (outcome_name_at (mk_outcomes game_a) 1) = false /\
  parse_market_name
    (market_name_of game_a (outcome_name_at (mk_outcomes game_a) 1))
  = Some ("Game A", "No").
Proof.
  assert (H1 : str_contains " - " (question_of game_a ++ " ")%string = false)
    by reflexivity.
  assert (H2 : str_contains " - " (outcome_name_at (mk_outcomes game_a) 1)
               = false) by reflexivity.
  split; [exact H1 |]. split; [exact H2 |].
  exact (proj1 (proj2 (proj2 (registered_names_parse game_a 1))) H1 H2).
Defined.

(** Subscribing to a match and unsubscribing from it leaves no
    subscription. *)
Lemma subscriptions_by_event_id_witness :
  let self := {| subscribed_markets := []; running := false;
                 control_log := [] |} in
  dict_get (sm_event_id game_a_match) (subscribed_markets self) = None /\
  subscribed_markets
    (unsubscribe_from_match "E1" (subscribe_to_match game_a_match self))
  = [].
Proof.
  cbv zeta.
  assert (H : dict_get (sm_event_id game_a_match)
                (subscribed_markets
                   {| subscribed_markets := []; running := false;
                      control_log := [] |}) = None) by reflexivity.
  split; [exact H |].
  exact (proj2 (proj2 (proj2
           (proj1 (subscriptions_by_event_id
                     {| subscribed_markets := []; running := false;
                        control_log := [] |}) game_a_match))) H).
Defined.

